(** * Flight-risk analysis agents: a shallow embedding and its properties

    The development follows the Python sources under
    [cloud-functions/flight-risk-analysis]:

    - [layover_analysis_agent.py]   (module [Layover]),
    - [weather_intelligence_agent.py] (module [Weather]),
    - [data_analyst_agent.py]       (module [DataAnalyst]).

    Python text is modelled as [string] (a sequence of bytes); the string
    builtins below are the ASCII fragment of the Python ones.  Python
    integers are [Z], dictionaries with a fixed set of keys are records
    whose optional fields are the keys that may be absent, JSON values of
    unknown shape are [pyval]. *)

From Stdlib Require Import ZArith String Ascii List Bool Lia QArith.
From Stdlib Require Import DecimalString DecimalPos DecimalZ.
From stdpp Require Import base option list gmap strings.

Local Open Scope string_scope.
Local Open Scope Z_scope.

(** ** Python builtins used by the agents *)
Module Py.

(** [str.isspace] on one ASCII character: TAB, LF, VT, FF, CR, the four
    separators FS GS RS US, and the blank. *)
Definition isspace (c : ascii) : bool :=
  let n := N_of_ascii c in
  ((9 <=? n) && (n <=? 13) || (28 <=? n) && (n <=? 32))%N.

Definition isdigit (c : ascii) : bool :=
  let n := N_of_ascii c in ((48 <=? n) && (n <=? 57))%N.

Definition isupper (c : ascii) : bool :=
  let n := N_of_ascii c in ((65 <=? n) && (n <=? 90))%N.

Definition islower (c : ascii) : bool :=
  let n := N_of_ascii c in ((97 <=? n) && (n <=? 122))%N.

Definition lower_char (c : ascii) : ascii :=
  if isupper c then ascii_of_N (N_of_ascii c + 32) else c.

Definition upper_char (c : ascii) : ascii :=
  if islower c then ascii_of_N (N_of_ascii c - 32) else c.

Fixpoint map_str (f : ascii -> ascii) (s : string) : string :=
  match s with
  | EmptyString => EmptyString
  | String c s' => String (f c) (map_str f s')
  end.

(** [s.lower()] and [s.upper()] on ASCII text; a character outside ASCII is
    left as it is. *)
Definition lower : string -> string := map_str lower_char.
Definition upper : string -> string := map_str upper_char.

(** [s.startswith(p)]. *)
Fixpoint startswith (s p : string) : bool :=
  match p, s with
  | EmptyString, _ => true
  | String _ _, EmptyString => false
  | String a p', String b s' => Ascii.eqb a b && startswith s' p'
  end.

(** [t in s] for two strings: [t] occurs in [s] at some offset. *)
Fixpoint contains (t s : string) : bool :=
  startswith s t ||
  match s with
  | EmptyString => false
  | String _ s' => contains t s'
  end.

(** [any(term in s for term in terms)]. *)
Definition any_in (terms : list string) (s : string) : bool :=
  existsb (fun term => contains term s) terms.

(** [s[n:]] and [s[:-n]]. *)
Fixpoint drop (n : nat) (s : string) : string :=
  match n, s with
  | O, _ => s
  | S _, EmptyString => EmptyString
  | S n', String _ s' => drop n' s'
  end.

Fixpoint take (n : nat) (s : string) : string :=
  match n, s with
  | O, _ => EmptyString
  | S _, EmptyString => EmptyString
  | S n', String c s' => String c (take n' s')
  end.

Definition drop_end (n : nat) (s : string) : string :=
  take (String.length s - n) s.

(** [s.endswith(p)]. *)
Definition endswith (s p : string) : bool :=
  (String.length p <=? String.length s)%nat &&
  String.eqb (drop (String.length s - String.length p) s) p.

(** Removing from either end the characters that [blank] accepts. *)
Fixpoint lstrip_with (blank : ascii -> bool) (s : string) : string :=
  match s with
  | EmptyString => EmptyString
  | String c s' => if blank c then lstrip_with blank s' else s
  end.

Fixpoint rstrip_with (blank : ascii -> bool) (s : string) : string :=
  match s with
  | EmptyString => EmptyString
  | String c s' =>
      match rstrip_with blank s' with
      | EmptyString => if blank c then EmptyString else String c EmptyString
      | r => String c r
      end
  end.

(** [s.lstrip()], [s.rstrip()], [s.strip()]. *)
Definition lstrip : string -> string := lstrip_with isspace.
Definition rstrip : string -> string := rstrip_with isspace.
Definition strip (s : string) : string := lstrip (rstrip s).

(** [s.split()]: the maximal runs of non-blank characters. *)
Fixpoint split_go (cur : option string) (s : string) : list string :=
  match s with
  | EmptyString => match cur with Some w => [String.rev w] | None => [] end
  | String c s' =>
      if isspace c
      then match cur with Some w => String.rev w :: split_go None s' | None => split_go None s' end
      else split_go (Some (String c (default EmptyString cur))) s'
  end.

Definition split : string -> list string := split_go None.

(** [str(n)] for an integer. *)
Definition str_of_int (n : Z) : string := NilZero.string_of_int (Z.to_int n).

(** The digits-and-underscores body of an integer literal accepted by
    [int(text)]: digits, with single underscores between digits. *)
Fixpoint int_digits (acc : Z) (prev_digit : bool) (s : string) : option Z :=
  match s with
  | EmptyString => if prev_digit then Some acc else None
  | String c s' =>
      if isdigit c
      then int_digits (10 * acc + (Z.of_N (N_of_ascii c) - 48)) true s'
      else if Ascii.eqb c "_" && prev_digit
           then match s' with
                | String d _ => if isdigit d then int_digits acc false s' else None
                | EmptyString => None
                end
           else None
  end.

(** The blanks that [int(text)] skips around an ASCII literal: TAB, LF, VT,
    FF, CR and the blank (not the four separators that [strip] removes). *)
Definition is_int_blank (c : ascii) : bool :=
  let n := N_of_ascii c in ((9 <=? n) && (n <=? 13) || (n =? 32))%N.

(** [int(text)] in base ten: surrounding blanks are ignored, one sign is
    allowed; [None] stands for [ValueError]. *)
Definition int_of_str (s : string) : option Z :=
  match lstrip_with is_int_blank (rstrip_with is_int_blank s) with
  | String "+" r => int_digits 0 false r
  | String "-" r => option_map Z.opp (int_digits 0 false r)
  | r => int_digits 0 false r
  end.

End Py.

(** ** Dynamically typed values *)

(** A Python [float]: a finite value (by its exact rational value), an
    infinity, or a NaN. *)
Inductive pyfloat : Type :=
| Finite (q : Q)
| Infinite (negative : bool)
| NaN.

(** JSON-shaped Python values: what [json.loads] returns and what the agents
    hand back to their callers.  A [dict] keeps its items in insertion
    order. *)
#[warnings="-register-all"]
Inductive pyval : Type :=
| PNone
| PBool (b : bool)
| PInt (n : Z)
| PFloat (f : pyfloat)
| PStr (s : string)
| PList (items : list pyval)
| PDict (items : list (string * pyval)).

Definition pydict : Type := list (string * pyval).

(** The exceptions that the modelled code can meet. *)
Inductive exn : Type :=
| ValueError
| TypeError
| OverflowError
| AttributeError
| KeyError.

Inductive result (A : Type) : Type :=
| Ok (a : A)
| Raise (e : exn).
Arguments Ok {A} a.
Arguments Raise {A} e.

Module Dict.

(** [d.get(k)]: the first item under key [k]. *)
Fixpoint get {A : Type} (k : string) (d : list (string * A)) : option A :=
  match d with
  | [] => None
  | (k', v) :: d' => if String.eqb k k' then Some v else get k d'
  end.

(** [k in d]. *)
Definition mem {A : Type} (k : string) (d : list (string * A)) : bool :=
  match get k d with Some _ => true | None => false end.

(** [d[k] = v]: an existing key keeps its position, a new key goes last. *)
Fixpoint set {A : Type} (k : string) (v : A) (d : list (string * A)) : list (string * A) :=
  match d with
  | [] => [(k, v)]
  | (k', v') :: d' => if String.eqb k k' then (k, v) :: d' else (k', v') :: set k v d'
  end.

End Dict.

(** [int(x)] on a dynamically typed value. *)
Definition py_int (x : pyval) : result Z :=
  match x with
  | PNone => Raise TypeError
  | PBool b => Ok (if b then 1 else 0)
  | PInt n => Ok n
  | PFloat (Finite q) => Ok (Z.quot (Qnum q) (Z.pos (Qden q)))
  | PFloat (Infinite _) => Raise OverflowError
  | PFloat NaN => Raise ValueError
  | PStr s => match Py.int_of_str s with Some n => Ok n | None => Raise ValueError end
  | PList _ => Raise TypeError
  | PDict _ => Raise TypeError
  end.

(** [type(x).__name__]. *)
Definition type_name (x : pyval) : string :=
  match x with
  | PNone => "NoneType"
  | PBool _ => "bool"
  | PInt _ => "int"
  | PFloat _ => "float"
  | PStr _ => "str"
  | PList _ => "list"
  | PDict _ => "dict"
  end.

(** ['error' in x]: key membership for a dict, element membership for a
    list, substring for a string, [TypeError] for the rest. *)
Definition py_contains_str (k : string) (x : pyval) : result bool :=
  match x with
  | PDict d => Ok (Dict.mem k d)
  | PList l => Ok (existsb (fun v => match v with PStr s => String.eqb s k | _ => false end) l)
  | PStr s => Ok (Py.contains k s)
  | _ => Raise TypeError
  end.

(** [str(e)] for the [TypeError] raised by [k in x]. *)
Definition not_iterable_message (x : pyval) : string :=
  "argument of type '" +:+ type_name x +:+ "' is not iterable".

(** ** The text-generation service

    [GenerativeModel.generate_content] is an external service.  Its prompts
    are fixed templates filled with the caller's arguments, so a prompt is
    recorded by its kind and arguments; its answers are whatever the service
    sends, so the world carries the answers still to come, in order. *)

Inductive prompt : Type :=
| DurationPrompt (duration_str : string)
| LayoverPrompt (duration_str : string) (duration_minutes : option Z)
    (airport_code connection_type : string) (arrival_time travel_date : option string)
    (weather_risk airport_complexity : pyval)
| BatchPrompt (summaries : list (string * string * string * string * string * string))
| RealtimeWeatherPrompt (airport_code flight_date : string)
| SeasonalWeatherPrompt (airport_code season : string) (month : Z).

(** One answer of the service: the text of the response, or an exception
    raised by the call or by reading [response.text]. *)
Inductive reply : Type :=
| Text (text : string)
| Failure.

Record world : Type := {
  replies : list reply;      (* answers the service will give, in order *)
  calls : list prompt;       (* prompts sent so far, oldest first *)
  utcnow : string            (* [datetime.now(timezone.utc).isoformat()] *)
}.

(** Computations that talk to the service. *)
Definition M (A : Type) : Type := world -> A * world.

Definition ret {A : Type} (a : A) : M A := fun w => (a, w).

Definition bind {A B : Type} (m : M A) (k : A -> M B) : M B :=
  fun w => let (a, w') := m w in k a w'.

Notation "'do' x <- m ; k" := (bind m (fun x => k))
  (at level 10, x name, m at level 100, k at level 200).

Definition generate_content (p : prompt) : M reply :=
  fun w =>
    match replies w with
    | r :: rest => (r, {| replies := rest; calls := calls w ++ [p]; utcnow := utcnow w |})
    | [] => (Failure, {| replies := []; calls := calls w ++ [p]; utcnow := utcnow w |})
    end.

Definition now_isoformat : M string := fun w => (utcnow w, w).

(** The clean-up applied to generated text before [json.loads]:
    [if t.startswith('```json'): t = t[7:]] and
    [if t.endswith('```'): t = t[:-3]]. *)
Definition strip_fences (t : string) : string :=
  let t1 := if Py.startswith t "```json" then Py.drop 7 t else t in
  if Py.endswith t1 "```" then Py.drop_end 3 t1 else t1.

(** [x[k]] for a string key, with [str(e)] of the [TypeError] it may raise. *)
Definition py_getitem_str (k : string) (x : pyval) : string + pyval :=
  match x with
  | PDict d => match Dict.get k d with Some v => inr v | None => inl ("'" +:+ k +:+ "'") end
  | PList _ => inl "list indices must be integers or slices, not str"
  | PStr _ => inl "string indices must be integers, not 'str'"
  | _ => inl ("'" +:+ type_name x +:+ "' object is not subscriptable")
  end.

(** ** layover_analysis_agent.py *)
Module Layover.

(** [self.gemini_model] is the client object, or [None] when building it
    failed in [__init__]. *)
Inductive GenerativeModel : Type := GenerativeModelNamed (name : string).

Record LayoverAnalysisAgent : Type := { gemini_model : option GenerativeModel }.

(** One entry of [layover_data_list]; an absent key is [None]. *)
Record layover_data : Type := {
  airport_code : option string;
  duration_str : option string;
  weather_risk : option string;
  airport_complexity : option string;
  arrival_time : option string;
  travel_date : option string
}.

(** An entry of the fallback batch analysis. *)
Record fallback_entry : Type := {
  risk_level : string;
  risk_score : Z;
  overall_feasibility : string;
  minimum_connection_time : Z;
  buffer_adequacy : string;
  recommendations : list string;
  risk_factors : list string;
  airport_specific : string
}.

(** The connection type chosen in [analyze_layover_feasibility]. *)
Definition connection_type (duration_minutes : Z) : string :=
  if duration_minutes <? 45 then "tight"
  else if duration_minutes <? 120 then "standard"
  else if duration_minutes <? 360 then "comfortable"
  else "plenty_of_time".

Definition _parse_duration_with_ai (self : LayoverAnalysisAgent)
    (duration_str : string) : M (option Z) :=
  match gemini_model self with
  | None => ret None
  | Some _ =>
      do response <- generate_content (DurationPrompt duration_str);
      ret (match response with
           | Text text => Py.int_of_str (Py.strip text)
           | Failure => None
           end)
  end.

Definition system_unavailable : pyval :=
  PDict [("error", PStr "❌ AI layover analysis system unavailable")].

Definition invalid_response_format : pyval :=
  PDict [("error", PStr "❌ AI layover analysis failed - invalid response format")].

Section WithJson.

(** [json.loads]; [None] stands for [json.JSONDecodeError]. *)
Variable json_loads : string -> option pyval.

Definition _get_ai_layover_analysis (self : LayoverAnalysisAgent)
    (duration_str airport_code connection_type : string)
    (arrival_time travel_date : option string)
    (weather_data : option pydict) : M pyval :=
  match gemini_model self with
  | None => ret system_unavailable
  | Some _ =>
      do duration_minutes <- _parse_duration_with_ai self duration_str;
      match weather_data with
      | None => ret system_unavailable      (* [None.get] raises inside the [try] *)
      | Some wd =>
          do response <- generate_content
               (LayoverPrompt duration_str duration_minutes airport_code connection_type
                  arrival_time travel_date
                  (default (PStr "medium") (Dict.get "risk_level" wd))
                  (default (PStr "medium") (Dict.get "airport_complexity" wd)));
          match response with
          | Failure => ret system_unavailable
          | Text text =>
              let ai_response := strip_fences (Py.strip text) in
              match json_loads ai_response with
              | Some analysis => ret analysis
              | None => ret invalid_response_format
              end
          end
      end
  end.

(** The payload of the outer [except Exception as e] handler. *)
Definition analysis_failed_with (message airport_code : string) : pyval :=
  PDict [("error", PStr ("Layover analysis failed: " +:+ message));
         ("airport_code", PStr airport_code);
         ("analysis_failed", PBool true)].

Definition analyze_layover_feasibility (self : LayoverAnalysisAgent)
    (duration_str airport_code : string)
    (arrival_time travel_date : option string)
    (weather_data : option pydict) : M pyval :=
  do parsed <- _parse_duration_with_ai self duration_str;
  match parsed with
  | None =>
      ret (PDict [("error", PStr ("Unable to parse duration: " +:+ duration_str));
                  ("airport_code", PStr airport_code);
                  ("analysis_failed", PBool true)])
  | Some duration_minutes =>
      let connection_type := connection_type duration_minutes in
      match gemini_model self with
      | None =>
          ret (PDict [("error", PStr "AI analysis model not available");
                      ("airport_code", PStr airport_code);
                      ("duration_minutes", PInt duration_minutes);
                      ("connection_type", PStr connection_type);
                      ("analysis_failed", PBool true)])
      | Some _ =>
          do ai_analysis <- _get_ai_layover_analysis self duration_str airport_code
                              connection_type arrival_time travel_date weather_data;
          match py_contains_str "error" ai_analysis with
          | Raise _ => ret (analysis_failed_with (not_iterable_message ai_analysis) airport_code)
          | Ok true =>
              match py_getitem_str "error" ai_analysis with
              | inl message => ret (analysis_failed_with message airport_code)
              | inr error =>
                  ret (PDict [("error", error);
                              ("airport_code", PStr airport_code);
                              ("duration_minutes", PInt duration_minutes);
                              ("connection_type", PStr connection_type);
                              ("analysis_failed", PBool true)])
              end
          | Ok false =>
              do timestamp <- now_isoformat;
              ret (PDict [("duration_minutes", PInt duration_minutes);
                          ("duration_formatted", PStr duration_str);
                          ("airport_code", PStr airport_code);
                          ("connection_type", PStr connection_type);
                          ("ai_analysis", ai_analysis);
                          ("analysis_timestamp", PStr timestamp);
                          ("data_source", PStr "Real AI Analysis");
                          ("analysis_successful", PBool true)])
          end
      end
  end.

(** The six lines that describe one layover in the batch prompt. *)
Definition layover_summary (layover_data : layover_data)
    : string * string * string * string * string * string :=
  (default "Unknown" (airport_code layover_data),
   default "1h" (duration_str layover_data),
   default "medium" (weather_risk layover_data),
   default "medium" (airport_complexity layover_data),
   default "Unknown" (arrival_time layover_data),
   default "Unknown" (travel_date layover_data)).

Definition analyze_batch_layover_feasibility (self : LayoverAnalysisAgent)
    (layover_data_list : list layover_data) : M pydict :=
  match layover_data_list with
  | [] => ret []
  | _ :: _ =>
      let layover_summaries := map layover_summary layover_data_list in
      match gemini_model self with
      | None => ret []                      (* [None.generate_content] raises inside the [try] *)
      | Some _ =>
          do response <- generate_content (BatchPrompt layover_summaries);
          match response with
          | Failure => ret []
          | Text text =>
              let ai_response := Py.strip (strip_fences (Py.strip text)) in
              match json_loads ai_response with
              | Some (PDict batch_results) => ret batch_results
              | Some _ => ret []
              | None => ret []
              end
          end
      end
  end.

End WithJson.

(** *** The fallback batch analysis *)

(** The names that an instance of [LayoverAnalysisAgent] resolves: the
    methods of the class body and the attribute that [__init__] sets.  The
    class has no base class and defines no [__getattr__]. *)
Definition instance_attributes : list string :=
  ["__init__"; "analyze_layover_feasibility"; "_parse_duration_with_ai";
   "_get_ai_layover_analysis"; "get_airport_connection_insights";
   "suggest_optimal_layover_time"; "analyze_batch_layover_feasibility";
   "_create_fallback_batch_analysis"; "gemini_model"].

(** [self._fallback_parse_duration(duration_str)]: the name is not among
    the attributes of the instance, so the lookup raises [AttributeError]
    and nothing is called. *)
Definition _fallback_parse_duration (duration_str : string) : result Z :=
  Raise AttributeError.

(** The entry that the [if]/[elif] chain builds from the minutes. *)
Definition fallback_entry_of (duration_minutes : Z) : fallback_entry :=
  let '(risk_level, risk_score, feasibility) :=
    if 120 <=? duration_minutes then ("low", 30, "Comfortable connection time")
    else if 60 <=? duration_minutes then ("medium", 50, "Adequate connection time")
    else ("high", 75, "Tight connection time") in
  {| risk_level := risk_level;
     risk_score := risk_score;
     overall_feasibility := feasibility;
     minimum_connection_time := 60;
     buffer_adequacy := "unknown";
     recommendations := ["Monitor flight status"; "Allow extra time"];
     risk_factors := ["Fallback analysis used"];
     airport_specific := "Fallback analysis" |}.

(** One turn of the loop, [results[airport_code] = {...}]; an exception
    ends the loop, the function has no handler. *)
Definition fallback_step (results : result (gmap string fallback_entry))
    (layover_data : layover_data) : result (gmap string fallback_entry) :=
  match results with
  | Raise e => Raise e
  | Ok results =>
      let airport_code := default "Unknown" (airport_code layover_data) in
      let duration_str := default "1h" (duration_str layover_data) in
      match _fallback_parse_duration duration_str with
      | Raise e => Raise e
      | Ok duration_minutes =>
          Ok (<[airport_code := fallback_entry_of duration_minutes]> results)
      end
  end.

Definition _create_fallback_batch_analysis (layover_data_list : list layover_data)
    : result (gmap string fallback_entry) :=
  foldl fallback_step (Ok ∅) layover_data_list.

End Layover.

(** ** weather_intelligence_agent.py *)
Module Weather.

Definition high_risk_terms : list string :=
  ["thunderstorm"; "storm"; "heavy rain"; "heavy snow"; "fog"; "ice"].
Definition medium_risk_terms : list string :=
  ["rain"; "snow"; "cloudy"; "overcast"].
Definition low_risk_terms : list string :=
  ["partly cloudy"; "clear"; "sunny"; "fair"].

(** The [if]/[elif] chain of [_add_deterministic_risk_assessment] on the
    lower-cased conditions: [(risk_level, risk_description)]. *)
Definition deterministic_risk (conditions : string) : string * string :=
  if Py.any_in high_risk_terms conditions then
    ("high", "Severe weather conditions may cause significant flight delays and cancellations.")
  else if Py.any_in medium_risk_terms conditions then
    ("medium", "Moderate weather conditions may cause minor delays and require standard precautions.")
  else if Py.any_in low_risk_terms conditions then
    ("low", "Good weather conditions with minimal impact on flight operations.")
  else
    ("low", "Good flying conditions with minimal weather impact.").

(** [weather_data] is a dict at the only call site.  A [conditions] value
    that is not a string has no [lower] method; the [except] branch then
    records a medium risk. *)
Definition _add_deterministic_risk_assessment (weather_data : pydict) : pydict :=
  let conditions :=
    match Dict.get "conditions" weather_data with
    | None => Ok (Py.lower "")
    | Some (PStr s) => Ok (Py.lower s)
    | Some _ => Raise AttributeError
    end in
  match conditions with
  | Ok conditions =>
      let '(risk_level, risk_description) := deterministic_risk conditions in
      Dict.set "deterministic_risk"
        (PDict [("level", PStr risk_level); ("description", PStr risk_description)])
        weather_data
  | Raise _ =>
      Dict.set "deterministic_risk"
        (PDict [("level", PStr "medium");
                ("description", PStr "Weather assessment temporarily unavailable")])
        weather_data
  end.

(** The level recorded for a weather description. *)
Definition classify_weather (conditions : string) : option pyval :=
  match Dict.get "deterministic_risk"
          (_add_deterministic_risk_assessment [("conditions", PStr conditions)]) with
  | Some (PDict risk) => Dict.get "level" risk
  | _ => None
  end.

Definition _get_fallback_weather_analysis (airport_code analysis_type : string) : pyval :=
  PDict [
    ("weather_risk", PDict [
       ("level", PStr "medium");
       ("description", PStr ("Weather analysis for " +:+ airport_code +:+
          " currently unavailable, using standard seasonal patterns"))]);
    ("weather_conditions", PDict [
       ("conditions", PStr "Weather conditions analysis pending")]);
    ("airport_complexity", PDict [
       ("complexity", PStr "medium");
       ("description", PStr ("Airport complexity analysis for " +:+ airport_code +:+
          " currently unavailable, standard operational assessment applied"));
       ("concerns", PList [PStr "Analysis temporarily unavailable"])]);
    ("data_source", PStr ("Fallback " +:+ analysis_type +:+ " analysis"))].

Definition _get_season (month : Z) : string :=
  if (month =? 12) || (month =? 1) || (month =? 2) then "Winter"
  else if (month =? 3) || (month =? 4) || (month =? 5) then "Spring"
  else if (month =? 6) || (month =? 7) || (month =? 8) then "Summer"
  else "Fall".

Section WithLibraries.

(** [json.loads]; [None] stands for [json.JSONDecodeError]. *)
Variable json_loads : string -> option pyval.

(** [datetime.strptime(flight_date, "%Y-%m-%d").month]; [None] stands
    for the [ValueError] of a date that does not parse. *)
Variable strptime_month : string -> option Z.

Definition _analyze_seasonal_patterns (airport_code flight_date : string) : M pyval :=
  match strptime_month flight_date with
  | None => ret (_get_fallback_weather_analysis airport_code "seasonal")
  | Some month =>
      let season := _get_season month in
      do response <- generate_content (SeasonalWeatherPrompt airport_code season month);
      match response with
      | Failure => ret (_get_fallback_weather_analysis airport_code "seasonal")
      | Text text =>
          let response_text := Py.strip (strip_fences (Py.strip text)) in
          match json_loads response_text with
          | None => ret (_get_fallback_weather_analysis airport_code "seasonal")
          | Some (PDict analysis) =>
              ret (PDict (Dict.set "data_source"
                            (PStr "Seasonal weather patterns analysis") analysis))
          | Some _ =>                       (* [**analysis] needs a mapping *)
              ret (_get_fallback_weather_analysis airport_code "seasonal")
          end
      end
  end.

(** [_get_serpapi_weather] catches all its exceptions and its result is
    only interpolated into the prompt, so it is part of the prompt here. *)
Definition _analyze_realtime_weather (airport_code flight_date : string) : M pyval :=
  do response <- generate_content (RealtimeWeatherPrompt airport_code flight_date);
  match response with
  | Failure => _analyze_seasonal_patterns airport_code flight_date
  | Text text =>
      let response_text := Py.strip (strip_fences (Py.strip text)) in
      match json_loads response_text with
      | None => ret (_get_fallback_weather_analysis airport_code "real-time")
      | Some analysis => ret analysis
      end
  end.

End WithLibraries.

(** *** Airports *)

(** An entry of [self._airport_mapping]. *)
Record airport_info : Type := {
  city : string;
  state : string;
  name : string;
  country : string
}.

Definition _airport_mapping : list (string * airport_info) :=
  [
   ("ATL", {| city := "Atlanta"; state := "GA";
            name := "Hartsfield-Jackson Atlanta International Airport";
            country := "United States" |});
   ("LAX", {| city := "Los Angeles"; state := "CA";
            name := "Los Angeles International Airport";
            country := "United States" |});
   ("ORD", {| city := "Chicago"; state := "IL";
            name := "Chicago O'Hare International Airport";
            country := "United States" |});
   ("DFW", {| city := "Dallas"; state := "TX";
            name := "Dallas/Fort Worth International Airport";
            country := "United States" |});
   ("DEN", {| city := "Denver"; state := "CO";
            name := "Denver International Airport";
            country := "United States" |});
   ("JFK", {| city := "New York"; state := "NY";
            name := "John F. Kennedy International Airport";
            country := "United States" |});
   ("SFO", {| city := "San Francisco"; state := "CA";
            name := "San Francisco International Airport";
            country := "United States" |});
   ("SEA", {| city := "Seattle"; state := "WA";
            name := "Seattle-Tacoma International Airport";
            country := "United States" |});
   ("LAS", {| city := "Las Vegas"; state := "NV";
            name := "McCarran International Airport";
            country := "United States" |});
   ("BOS", {| city := "Boston"; state := "MA";
            name := "Boston Logan International Airport";
            country := "United States" |});
   ("EWR", {| city := "Newark"; state := "NJ";
            name := "Newark Liberty International Airport";
            country := "United States" |});
   ("LGA", {| city := "New York"; state := "NY";
            name := "LaGuardia Airport";
            country := "United States" |});
   ("CLT", {| city := "Charlotte"; state := "NC";
            name := "Charlotte Douglas International Airport";
            country := "United States" |});
   ("PHX", {| city := "Phoenix"; state := "AZ";
            name := "Phoenix Sky Harbor International Airport";
            country := "United States" |});
   ("IAH", {| city := "Houston"; state := "TX";
            name := "George Bush Intercontinental Airport";
            country := "United States" |});
   ("MIA", {| city := "Miami"; state := "FL";
            name := "Miami International Airport";
            country := "United States" |});
   ("MCO", {| city := "Orlando"; state := "FL";
            name := "Orlando International Airport";
            country := "United States" |});
   ("MSP", {| city := "Minneapolis"; state := "MN";
            name := "Minneapolis-St. Paul International Airport";
            country := "United States" |});
   ("DTW", {| city := "Detroit"; state := "MI";
            name := "Detroit Metropolitan Airport";
            country := "United States" |});
   ("PHL", {| city := "Philadelphia"; state := "PA";
            name := "Philadelphia International Airport";
            country := "United States" |});
   ("BWI", {| city := "Baltimore"; state := "MD";
            name := "Baltimore/Washington International Airport";
            country := "United States" |});
   ("SAN", {| city := "San Diego"; state := "CA";
            name := "San Diego International Airport";
            country := "United States" |});
   ("DCA", {| city := "Washington"; state := "DC";
            name := "Ronald Reagan Washington National Airport";
            country := "United States" |});
   ("IAD", {| city := "Washington"; state := "DC";
            name := "Washington Dulles International Airport";
            country := "United States" |});
   ("TPA", {| city := "Tampa"; state := "FL";
            name := "Tampa International Airport";
            country := "United States" |});
   ("PDX", {| city := "Portland"; state := "OR";
            name := "Portland International Airport";
            country := "United States" |});
   ("STL", {| city := "St. Louis"; state := "MO";
            name := "Lambert-St. Louis International Airport";
            country := "United States" |});
   ("HNL", {| city := "Honolulu"; state := "HI";
            name := "Daniel K. Inouye International Airport";
            country := "United States" |})
  ].

Definition _get_airport_info (airport_code : string) : airport_info :=
  let airport_code := Py.upper airport_code in
  match Dict.get airport_code _airport_mapping with
  | Some airport_info => airport_info
  | None =>
      {| city := "Unknown City";
         state := "Unknown";
         name := airport_code +:+ " Airport";
         country := "United States" |}
  end.

(** *** Real-time weather data *)

(** What the weather request comes to: a response whose JSON body is an
    object, or anything that raises inside the [try] (a failed request, an
    error status, a body that is no JSON object). *)
Inductive weather_outcome : Type :=
| WeatherData (data : pydict)
| WeatherRequestFailed.

(** The structure returned by the [except] handler of
    [_get_serpapi_weather]. *)
Definition weather_unavailable : pydict :=
  [("conditions", PStr "Weather data unavailable");
   ("temperature", PStr "N/A");
   ("wind_speed", PStr "N/A");
   ("visibility", PStr "N/A");
   ("deterministic_risk",
    PDict [("level", PStr "medium");
           ("description",
            PStr "Weather data temporarily unavailable, using standard assessment")])].

(** The mapping of the provider's fields, the same for [weather_result] and
    for an [answer_box] of that type. *)
Definition weather_fields (raw : pydict) : pydict :=
  [("conditions", default (PStr "Unknown") (Dict.get "weather" raw));
   ("temperature", default (PStr "N/A") (Dict.get "temperature" raw));
   ("wind_speed", default (PStr "N/A") (Dict.get "wind" raw));
   ("humidity", default (PStr "N/A") (Dict.get "humidity" raw));
   ("precipitation", default (PStr "N/A") (Dict.get "precipitation" raw));
   ("location", default (PStr "Unknown") (Dict.get "location" raw));
   ("date", default (PStr "Unknown") (Dict.get "date" raw))].

(** [_get_serpapi_weather], from the outcome of the request on.  The
    logging line [data['weather_result']['weather']] raises when
    [weather_result] is no dict or has no [weather]; listing the keys of
    [answer_box] raises when it is no dict. *)
Definition _get_serpapi_weather (outcome : weather_outcome) : pydict :=
  match outcome with
  | WeatherRequestFailed => weather_unavailable
  | WeatherData data =>
      match Dict.get "weather_result" data with
      | Some (PDict raw_weather) =>
          match Dict.get "weather" raw_weather with
          | Some _ => _add_deterministic_risk_assessment (weather_fields raw_weather)
          | None => weather_unavailable
          end
      | Some _ => weather_unavailable
      | None =>
          match Dict.get "answer_box" data with
          | Some (PDict answer_box) =>
              let is_weather :=
                match Dict.get "type" answer_box with
                | Some (PStr type) => String.eqb type "weather_result"
                | _ => false
                end in
              if is_weather
              then _add_deterministic_risk_assessment (weather_fields answer_box)
              else _add_deterministic_risk_assessment []
          | Some _ => weather_unavailable
          | None => _add_deterministic_risk_assessment []
          end
      end
  end.

(** *** The entry point *)

(** The agent's [_serpapi_key]: the environment variable, [None] when it is
    not set. *)
Record WeatherIntelligenceAgent : Type := { _serpapi_key : option string }.

Section WithClock.

Variable json_loads : string -> option pyval.
Variable strptime_month : string -> option Z.

(** [(datetime.strptime(flight_date, "%Y-%m-%d").date() -
    datetime.now().date()).days]; [None] stands for the [ValueError] of a
    date that does not parse. *)
Variable days_until_flight : string -> option Z.

Definition analyze_weather_conditions (self : WeatherIntelligenceAgent)
    (airport_code flight_date : string) : M pyval :=
  let airport_info := _get_airport_info airport_code in
  match days_until_flight flight_date with
  | None => ret (_get_fallback_weather_analysis airport_code "error")
  | Some days_until_flight =>
      let is_within_7_days := (0 <=? days_until_flight) && (days_until_flight <=? 7) in
      let has_key :=
        match _serpapi_key self with
        | Some key => negb (String.eqb key "")
        | None => false
        end in
      do result <-
        (if is_within_7_days && has_key
         then _analyze_realtime_weather json_loads strptime_month airport_code flight_date
         else _analyze_seasonal_patterns json_loads strptime_month airport_code flight_date);
      match result with
      | PDict result =>
          let result := Dict.set "airport_code" (PStr airport_code) result in
          let result := Dict.set "city" (PStr (city airport_info)) result in
          let result := Dict.set "state" (PStr (state airport_info)) result in
          let result := Dict.set "airport_name" (PStr (name airport_info)) result in
          let result := Dict.set "country" (PStr (country airport_info)) result in
          ret (PDict result)
      | _ => ret (_get_fallback_weather_analysis airport_code "error")
      end
  end.

End WithClock.

End Weather.

(** ** data_analyst_agent.py *)
Module DataAnalyst.

(** *** Provider payloads (an absent key is [None]) *)

Record airport : Type := {
  ap_id : option string;
  ap_name : option string;
  ap_time : option string
}.

(** The [{}] default of [segment.get('departure_airport', {})]. *)
Definition no_airport : airport :=
  {| ap_id := None; ap_name := None; ap_time := None |}.

Record segment : Type := {
  seg_departure_airport : option airport;
  seg_arrival_airport : option airport;
  seg_airline : option string;
  seg_flight_number : option string;
  seg_duration : option Z;
  seg_airplane : option string;
  seg_aircraft : option string;
  seg_aircraft_type : option string
}.

Record layover : Type := {
  lay_duration : option Z;
  lay_id : option string;
  lay_name : option string;
  lay_overnight : option bool
}.

Record flight_data : Type := {
  fd_flights : option (list segment);
  fd_layovers : option (list layover);
  fd_total_duration : option Z;
  fd_price : option pyval;
  fd_type : option string
}.

(** The JSON object of a search response; the rate-limit payload built by
    [_call_serpapi_flights] is a dict of the same kind. *)
Record serp_data : Type := {
  sd_best_flights : option (list flight_data);
  sd_other_flights : option (list flight_data);
  sd_flights : option (list flight_data);
  sd_error : option string;
  sd_message : option string;
  sd_account_status : option string;
  sd_other_keys : list string          (* keys that the agent never reads *)
}.

(** *** Normalised records *)

Record airport_ref : Type := {
  code : string;
  name : string;
  city : string
}.

Record endpoint : Type := {
  ep_airport : airport_ref;
  ep_time : string
}.

Record layover_info : Type := {
  li_airport : string;
  li_airport_name : string;
  li_city : string;
  li_duration : string;
  li_arrival_time : string;
  li_departure_time : string;
  li_overnight : bool
}.

Record connection : Type := {
  conn_id : string;
  conn_flight_number : string;
  conn_aircraft : string;
  conn_duration : string;
  conn_departure : endpoint;
  conn_arrival : endpoint;
  layoverInfo : option layover_info
}.

(** An entry of the [layovers] list of a flight record. *)
Record layover_entry : Type := {
  le_airport : string;
  le_airport_name : string;
  le_city : string;
  le_duration : string;
  le_arrival_time : string;
  le_departure_time : string;
  le_travel_date : string
}.

Record flight_info : Type := {
  airline_name : string;
  airline_code : string;
  flight_number : string;
  origin : string;
  destination : string;
  origin_airport_code : string;
  destination_airport_code : string;
  departure_time : string;
  arrival_time : string;
  duration : string;
  price : pyval;
  aircraft : string;
  layovers : list layover_entry;
  connections : list connection;
  flights : list segment;
  number_of_stops : nat;
  total_duration : Z;
  date : string;
  data_source : string;
  type : string
}.

Record route_info : Type := {
  ri_origin : string;
  ri_destination : string;
  ri_date : string;
  ri_connections : list pyval
}.

(** What [analyze_route] returns: [message] is present on failure,
    [route_info] on success. *)
Record route_result : Type := {
  success : bool;
  message : option string;
  rr_flights : list flight_info;
  rr_route_info : option route_info
}.

(** *** Duration formatting *)

(** The three-way [if] shared by both formatters. *)
Definition hours_minutes (minutes : Z) : string :=
  let hours := minutes / 60 in
  let mins := minutes mod 60 in
  if (0 <? hours) && (0 <? mins) then Py.str_of_int hours +:+ "h " +:+ Py.str_of_int mins +:+ "m"
  else if 0 <? hours then Py.str_of_int hours +:+ "h"
  else Py.str_of_int mins +:+ "m".

(** The legacy formatter: [int(minutes)] first; [ValueError] and
    [TypeError] are caught, any other exception propagates. *)
Definition _format_duration (minutes : pyval) : result string :=
  match py_int minutes with
  | Ok minutes => Ok (hours_minutes minutes)
  | Raise ValueError => Ok "0m"
  | Raise TypeError => Ok "0m"
  | Raise e => Raise e
  end.

Definition _format_duration_from_minutes (minutes : Z) : string :=
  if minutes <=? 0 then "Unknown" else hours_minutes minutes.

(** *** Airports and cities *)

Definition airport_city_mapping : list (string * string) :=
  [("JFK", "New York"); ("SFO", "San Francisco");
   ("LAX", "Los Angeles"); ("ORD", "Chicago"); ("DFW", "Dallas");
   ("ATL", "Atlanta"); ("DEN", "Denver"); ("SEA", "Seattle");
   ("LAS", "Las Vegas"); ("IAD", "Washington"); ("DCA", "Washington");
   ("LGA", "New York"); ("BWI", "Baltimore"); ("MDW", "Chicago");
   ("SAN", "San Diego"); ("TPA", "Tampa"); ("PDX", "Portland");
   ("AUS", "Austin"); ("CLT", "Charlotte"); ("MSP", "Minneapolis");
   ("DTW", "Detroit"); ("BOS", "Boston"); ("FLL", "Fort Lauderdale");
   ("SJC", "San Jose"); ("HNL", "Honolulu"); ("ANC", "Anchorage");
   ("MIA", "Miami"); ("MCO", "Orlando"); ("PHL", "Philadelphia");
   ("IAH", "Houston"); ("PHX", "Phoenix"); ("EWR", "Newark");
   ("STL", "St. Louis"); ("DAL", "Dallas"); ("BNA", "Nashville");
   ("MCI", "Kansas City"); ("CVG", "Cincinnati");
   ("SLC", "Salt Lake City"); ("CLE", "Cleveland");
   ("SMF", "Sacramento"); ("OAK", "Oakland"); ("SNA", "Santa Ana");
   ("RDU", "Raleigh"); ("IND", "Indianapolis"); ("CMH", "Columbus");
   ("JAX", "Jacksonville"); ("RSW", "Fort Myers");
   ("COS", "Colorado Springs"); ("PIT", "Pittsburgh");
   ("BUF", "Buffalo"); ("BUR", "Burbank"); ("ABQ", "Albuquerque");
   ("LGB", "Long Beach"); ("ONT", "Ontario"); ("OGG", "Kahului");
   ("KOA", "Kona"); ("MKE", "Milwaukee"); ("OMA", "Omaha");
   ("OKC", "Oklahoma City"); ("TUL", "Tulsa"); ("ICT", "Wichita");
   ("DSM", "Des Moines"); ("ROC", "Rochester"); ("ALB", "Albany");
   ("SYR", "Syracuse"); ("PVD", "Providence"); ("BDL", "Hartford");
   ("PWM", "Portland"); ("BGR", "Bangor"); ("MHT", "Manchester");
   ("BTV", "Burlington"); ("GRR", "Grand Rapids"); ("FNT", "Flint");
   ("LAN", "Lansing"); ("MSN", "Madison"); ("GRB", "Green Bay");
   ("FAR", "Fargo"); ("BIS", "Bismarck"); ("FSD", "Sioux Falls");
   ("RAP", "Rapid City"); ("BIL", "Billings"); ("MSO", "Missoula");
   ("GTF", "Great Falls"); ("BOI", "Boise"); ("GEG", "Spokane");
   ("FAI", "Fairbanks"); ("JNU", "Juneau")].

Definition _extract_city_from_airport_code (airport_code : string) : string :=
  default airport_code (Dict.get airport_code airport_city_mapping).

Definition airport_suffixes : list string :=
  ["International Airport"; "International"; "Airport"; "Regional"; "Municipal"; "Field"].

Definition _extract_city_from_airport_name (airport_name : string) : string :=
  if String.eqb airport_name "" || String.eqb airport_name "Unknown" then "Unknown"
  else
    let city :=
      foldl (fun city suffix =>
               if Py.endswith city suffix
               then Py.strip (Py.drop_end (String.length suffix) city)
               else city)
            airport_name airport_suffixes in
    if String.eqb city "" then "Unknown" else city.

(** *** Airline codes and flight numbers *)

Definition is_code_char (c : ascii) : bool := Py.isupper c || Py.isdigit c.

(** [re.match(r'^([A-Z0-9]{1,3})', s)]: the longest prefix of at most
    three characters of [A-Z0-9]; the match fails when it is empty. *)
Fixpoint code_prefix (n : nat) (s : string) : string :=
  match n, s with
  | S n', String c s' => if is_code_char c then String c (code_prefix n' s') else EmptyString
  | _, _ => EmptyString
  end.

Definition airline_mapping : list (string * string) :=
  [("delta air lines", "DL"); ("delta", "DL");
   ("american airlines", "AA"); ("american", "AA");
   ("united airlines", "UA"); ("united", "UA");
   ("southwest airlines", "WN"); ("southwest", "WN");
   ("jetblue airways", "B6"); ("jetblue", "B6");
   ("alaska airlines", "AS"); ("alaska", "AS");
   ("spirit airlines", "NK"); ("spirit", "NK");
   ("frontier airlines", "F9"); ("frontier", "F9");
   ("hawaiian airlines", "HA"); ("hawaiian", "HA");
   ("allegiant air", "G4"); ("allegiant", "G4")].

Definition _extract_airline_code (flight_number airline_name : string) : string :=
  let from_number :=
    if (2 <=? String.length flight_number)%nat
    then code_prefix 3 (Py.upper flight_number)
    else EmptyString in
  if negb (String.eqb from_number "") then from_number
  else
    let airline_key := Py.strip (Py.lower airline_name) in
    match Dict.get airline_key airline_mapping with
    | Some airline_code => airline_code
    | None =>
        if (2 <=? String.length airline_name)%nat then
          match Py.split (Py.upper airline_name) with
          | w0 :: w1 :: _ => Py.take 1 w0 +:+ Py.take 1 w1
          | _ => "Unknown"
          end
        else "Unknown"
    end.

(** [re.sub(r'^[^A-Z0-9]+', '', s)]. *)
Fixpoint drop_separators (s : string) : string :=
  match s with
  | EmptyString => EmptyString
  | String c s' => if is_code_char c then s else drop_separators s'
  end.

Definition _clean_flight_number (flight_number airline_code : string) : string :=
  if String.eqb flight_number "" || String.eqb airline_code ""
     || String.eqb airline_code "Unknown"
  then flight_number
  else
    let flight_upper := Py.strip (Py.upper flight_number) in
    let airline_upper := Py.strip (Py.upper airline_code) in
    if Py.startswith flight_upper airline_upper then
      let clean_number :=
        drop_separators (Py.strip (Py.drop (String.length airline_upper) flight_upper)) in
      if negb (String.eqb clean_number "") then clean_number else flight_number
    else flight_number.

Definition is_Some_bool {A : Type} (o : option A) : bool :=
  match o with Some _ => true | None => false end.

(** *** Clock times *)

(** [s.lstrip("0")]. *)
Fixpoint lstrip_zeros (s : string) : string :=
  match s with
  | String "0" s' => lstrip_zeros s'
  | _ => s
  end.

Section WithStrptime.

(** [datetime.strptime(s, "%Y-%m-%d %H:%M").strftime("%I:%M %p")];
    [None] stands for the [ValueError] of a text that does not parse. *)
Variable strptime_strftime : string -> option string.

Definition _format_serpapi_time (time_str : string) : string :=
  if String.eqb time_str "" || String.eqb time_str "Unknown" then "Unknown"
  else
    match strptime_strftime time_str with
    | Some clock => lstrip_zeros clock
    | None => time_str
    end.

(** *** Flight records *)

Definition airport_ref_of (a : airport) : airport_ref :=
  {| code := default "Unknown" (ap_id a);
     name := default "Unknown" (ap_name a);
     city := _extract_city_from_airport_code (default "Unknown" (ap_id a)) |}.

(** A layover that the provider supplied for the gap after a segment. *)
Definition provided_layover_info (layover_data : layover)
    (segment_arrival : airport) (next_segment : segment) : layover_info :=
  let layover_duration_minutes := default 0 (lay_duration layover_data) in
  let layover_duration_minutes :=
    if layover_duration_minutes <=? 0 then 90 else layover_duration_minutes in
  let layover_airport_code := default "" (lay_id layover_data) in
  let layover_airport_name := default "" (lay_name layover_data) in
  let layover_city := _extract_city_from_airport_code layover_airport_code in
  let layover_city :=
    if String.eqb layover_city layover_airport_code
       && negb (String.eqb layover_airport_name "")
    then _extract_city_from_airport_name layover_airport_name
    else layover_city in
  {| li_airport :=
       if String.eqb layover_airport_code "" then "Unknown" else layover_airport_code;
     li_airport_name :=
       if String.eqb layover_airport_name "" then "Unknown Airport" else layover_airport_name;
     li_city := if String.eqb layover_city "" then "Unknown City" else layover_city;
     li_duration := _format_duration_from_minutes layover_duration_minutes;
     li_arrival_time := _format_serpapi_time (default "" (ap_time segment_arrival));
     li_departure_time :=
       _format_serpapi_time
         (default "" (ap_time (default no_airport (seg_departure_airport next_segment))));
     li_overnight := default false (lay_overnight layover_data) |}.

(** A layover made up for a gap that the provider did not describe. *)
Definition synthesized_layover_info (segment_arrival : airport)
    (next_segment : segment) : layover_info :=
  let next_departure := default no_airport (seg_departure_airport next_segment) in
  {| li_airport := default "Unknown" (ap_id next_departure);
     li_airport_name := default "Unknown Airport" (ap_name next_departure);
     li_city := _extract_city_from_airport_code (default "Unknown" (ap_id next_departure));
     li_duration := "Unknown";
     li_arrival_time := _format_serpapi_time (default "" (ap_time segment_arrival));
     li_departure_time := _format_serpapi_time (default "" (ap_time next_departure));
     li_overnight := false |}.

Definition layover_entry_of (layover_info : layover_info) (date : string) : layover_entry :=
  {| le_airport := li_airport layover_info;
     le_airport_name := li_airport_name layover_info;
     le_city := li_city layover_info;
     le_duration := li_duration layover_info;
     le_arrival_time := li_arrival_time layover_info;
     le_departure_time := li_departure_time layover_info;
     le_travel_date := date |}.

(** The layover after segment [i]: none after the last segment
    ([i < len(flights) - 1] fails), the provider's entry when
    [i < len(serpapi_layovers)], a made-up one otherwise. *)
Definition layover_after (flights : list segment) (serpapi_layovers : list layover)
    (i : nat) (segment_arrival : airport) : option layover_info :=
  match flights !! S i with
  | None => None
  | Some next_segment =>
      match serpapi_layovers !! i with
      | Some layover_data =>
          Some (provided_layover_info layover_data segment_arrival next_segment)
      | None => Some (synthesized_layover_info segment_arrival next_segment)
      end
  end.

(** One turn of the loop over the segments: the connection, which
    carries the layover that follows it, if any. *)
Definition connection_of (flights : list segment) (serpapi_layovers : list layover)
    (airline_name : string) (i : nat) (segment : segment) : connection :=
  let segment_departure := default no_airport (seg_departure_airport segment) in
  let segment_arrival := default no_airport (seg_arrival_airport segment) in
  let segment_duration := default 0 (seg_duration segment) in
  let segment_aircraft :=
    default (default "Unknown" (seg_aircraft segment)) (seg_airplane segment) in
  let segment_flight_number := default "Unknown" (seg_flight_number segment) in
  let segment_airline_code :=
    _extract_airline_code segment_flight_number
      (default airline_name (seg_airline segment)) in
  let segment_clean_number :=
    _clean_flight_number segment_flight_number segment_airline_code in
  {| conn_id := "segment_" +:+ Py.str_of_int (Z.of_nat i);
     conn_flight_number := segment_airline_code +:+ segment_clean_number;
     conn_aircraft := segment_aircraft;
     conn_duration := _format_duration_from_minutes segment_duration;
     conn_departure :=
       {| ep_airport := airport_ref_of segment_departure;
          ep_time := _format_serpapi_time (default "Unknown" (ap_time segment_departure)) |};
     conn_arrival :=
       {| ep_airport := airport_ref_of segment_arrival;
          ep_time := _format_serpapi_time (default "Unknown" (ap_time segment_arrival)) |};
     layoverInfo := layover_after flights serpapi_layovers i segment_arrival |}.

Definition _parse_flight_info (flight_data : flight_data)
    (origin destination date : string) : option flight_info :=
  let flights := default [] (fd_flights flight_data) in
  match flights with
  | [] => None
  | first_flight :: _ =>
      let airline_name := default "Unknown" (seg_airline first_flight) in
      let flight_number := default "Unknown" (seg_flight_number first_flight) in
      let airline_code := _extract_airline_code flight_number airline_name in
      let clean_flight_number := _clean_flight_number flight_number airline_code in
      let formatted_flight_number := airline_code +:+ clean_flight_number in
      let departure_airport := default no_airport (seg_departure_airport first_flight) in
      let arrival_airport :=
        default no_airport (seg_arrival_airport (List.last flights first_flight)) in
      let departure_time :=
        _format_serpapi_time (default "Unknown" (ap_time departure_airport)) in
      let arrival_time :=
        _format_serpapi_time (default "Unknown" (ap_time arrival_airport)) in
      let total_duration_minutes := default 0 (fd_total_duration flight_data) in
      let duration :=
        if 0 <? total_duration_minutes
        then _format_duration_from_minutes total_duration_minutes
        else "Unknown" in
      let price_info := default (PInt 0) (fd_price flight_data) in
      let aircraft :=
        default (default (default "Unknown" (seg_aircraft_type first_flight))
                   (seg_aircraft first_flight))
                (seg_airplane first_flight) in
      let serpapi_layovers := default [] (fd_layovers flight_data) in
      let has_layovers :=
        (0 <? length serpapi_layovers)%nat || (1 <? length flights)%nat in
      let connections :=
        if has_layovers
        then imap (connection_of flights serpapi_layovers airline_name) flights
        else [] in
      let layovers :=
        omap (fun connection =>
                (fun layover_info => layover_entry_of layover_info date)
                  <$> layoverInfo connection)
             connections in
      Some {| airline_name := airline_name;
              airline_code := airline_code;
              flight_number := formatted_flight_number;
              origin := origin;
              destination := destination;
              origin_airport_code := origin;
              destination_airport_code := destination;
              departure_time := departure_time;
              arrival_time := arrival_time;
              duration := duration;
              price := price_info;
              aircraft := aircraft;
              layovers := layovers;
              connections := connections;
              flights := flights;
              number_of_stops := length layovers;
              total_duration := total_duration_minutes;
              date := date;
              data_source := "SerpAPI";
              type := default "One way" (fd_type flight_data) |}
  end.

Definition _extract_flight_data (serpapi_data : serp_data)
    (origin destination date : string) : list flight_info :=
  let best_flights := default [] (sd_best_flights serpapi_data) in
  let other_flights := default [] (sd_other_flights serpapi_data) in
  let all_flights := (best_flights ++ other_flights)%list in
  match all_flights with
  | [] => []
  | _ :: _ =>
      omap (fun flight_data => _parse_flight_info flight_data origin destination date)
           all_flights
  end.

(** *** The search request *)

(** What [requests.get(...)], [response.raise_for_status()] and
    [response.json()] come to: a response with its decoded JSON object,
    a [requests.exceptions.RequestException] with its [str(e)], or any
    other exception. *)
Inductive request_outcome : Type :=
| Responded (status_code : Z) (reason url : string) (data : serp_data)
| RequestException (error_message : string)
| OtherException.

(** [str(e)] of the [HTTPError] that [raise_for_status] raises for a
    4xx or 5xx status; [None] when it does not raise. *)
Definition raise_for_status (status_code : Z) (reason url : string) : option string :=
  if (400 <=? status_code) && (status_code <? 500) then
    Some (Py.str_of_int status_code +:+ " Client Error: " +:+ reason +:+ " for url: " +:+ url)
  else if (500 <=? status_code) && (status_code <? 600) then
    Some (Py.str_of_int status_code +:+ " Server Error: " +:+ reason +:+ " for url: " +:+ url)
  else None.

Definition rate_limit_payload : serp_data :=
  {| sd_best_flights := None;
     sd_other_flights := None;
     sd_flights := None;
     sd_error := Some "SerpAPI rate limit exceeded";
     sd_message := Some "Please upgrade your SerpAPI plan or try again later";
     sd_account_status := Some "Rate limit exceeded";
     sd_other_keys := [] |}.

(** The [except requests.exceptions.RequestException as e] handler. *)
Definition on_request_exception (error_message : string) : option serp_data :=
  if Py.contains "429" error_message || Py.contains "Too Many Requests" error_message
  then Some rate_limit_payload
  else None.

(** Truth value of [data.get(key)]: present and not the empty list. *)
Definition has_items {A : Type} (l : option (list A)) : bool :=
  match l with
  | Some (_ :: _) => true
  | _ => false
  end.

(** [_call_serpapi_flights], from the outcome of the request on; [None] is
    Python's [None]. *)
Definition _call_serpapi_flights (outcome : request_outcome) : option serp_data :=
  match outcome with
  | Responded status_code reason url data =>
      match raise_for_status status_code reason url with
      | Some error_message => on_request_exception error_message
      | None =>
          if has_items (sd_best_flights data) then Some data
          else if has_items (sd_other_flights data) then Some data
          else if has_items (sd_flights data) then Some data
          else None
      end
  | RequestException error_message => on_request_exception error_message
  | OtherException => None
  end.

(** [bool(d)] for a response object: it has at least one key. *)
Definition serp_data_truthy (d : serp_data) : bool :=
  is_Some_bool (sd_best_flights d) || is_Some_bool (sd_other_flights d)
  || is_Some_bool (sd_flights d) || is_Some_bool (sd_error d)
  || is_Some_bool (sd_message d) || is_Some_bool (sd_account_status d)
  || negb (Nat.eqb (length (sd_other_keys d)) 0).

(** [analyze_route]; [outcome] is what the search request comes to.  With
    the payloads typed as above nothing in the [try] raises, so the
    [except Exception] handler is not reached. *)
Definition analyze_route (outcome : request_outcome)
    (origin destination date : string) (connections : option (list pyval))
    : route_result :=
  match _call_serpapi_flights outcome with
  | None =>
      {| success := false;
         message := Some "No flights found for this route";
         rr_flights := [];
         rr_route_info := None |}
  | Some flight_data =>
      if negb (serp_data_truthy flight_data) then
        {| success := false;
           message := Some "No flights found for this route";
           rr_flights := [];
           rr_route_info := None |}
      else
        let structured_flights := _extract_flight_data flight_data origin destination date in
        let structured_flights :=
          if (10 <? length structured_flights)%nat
          then take 10 structured_flights
          else structured_flights in
        {| success := true;
           message := None;
           rr_flights := structured_flights;
           rr_route_info :=
             Some {| ri_origin := origin;
                     ri_destination := destination;
                     ri_date := date;
                     ri_connections := default [] connections |} |}
  end.

End WithStrptime.

(** *** Layover minutes from two timestamps *)

Section WithTimestamps.

(** The naive time, in seconds, that [datetime.strptime] reads from a text
    with the first of the four formats tried that parses it; [None] when
    none does. *)
Variable strptime_seconds : string -> option Z.

(** [int(diff.total_seconds() / 60)] is the quotient truncated towards
    zero.  The [except Exception] handler is not reached. *)
Definition _calculate_layover_minutes (arrival_time departure_time : string) : Z :=
  if String.eqb arrival_time "" || String.eqb departure_time "" then 90
  else
    match strptime_seconds arrival_time, strptime_seconds departure_time with
    | Some arrival_dt, Some departure_dt =>
        let minutes := Z.quot (departure_dt - arrival_dt) 60 in
        if minutes <? 30 then minutes + 24 * 60 else minutes
    | _, _ => 90
    end.

End WithTimestamps.

End DataAnalyst.

(** ** Vocabulary of the properties *)

(** The four connection types, in the order of growing slack. *)
Definition tier_rank (tier : string) : Z :=
  if String.eqb tier "tight" then 0
  else if String.eqb tier "standard" then 1
  else if String.eqb tier "comfortable" then 2
  else if String.eqb tier "plenty_of_time" then 3
  else -1.

(** The value a payload gives under a key, when the payload is a dict. *)
Definition field (key : string) (payload : pyval) : option pyval :=
  match payload with
  | PDict items => Dict.get key items
  | _ => None
  end.

(** A payload that carries a number somewhere. *)
Fixpoint has_number (v : pyval) : bool :=
  match v with
  | PInt _ => true
  | PFloat _ => true
  | PList items => existsb has_number items
  | PDict items => existsb (fun item => has_number (snd item)) items
  | _ => false
  end.

Definition is_layover_prompt (p : prompt) : bool :=
  match p with
  | LayoverPrompt _ _ _ _ _ _ _ _ => true
  | _ => false
  end.

(** Generated text [body] inside a json code fence. *)
Definition fenced (body : string) : string := "```json" +:+ body +:+ "```".

(** A parser that accepts the empty JSON object only; it instantiates
    [json_loads] in closed examples. *)
Definition loads_empty_object (text : string) : option pyval :=
  if String.eqb text "{}" then Some (PDict []) else None.

(** The risk level of a weather assessment. *)
Definition weather_risk_level (assessment : pyval) : option pyval :=
  match field "weather_risk" assessment with
  | Some risk => field "level" risk
  | None => None
  end.

(** A descriptor of a two-hour layover in Atlanta. *)
Definition example_descriptor : Layover.layover_data :=
  {| Layover.airport_code := Some "ATL";
     Layover.duration_str := Some "2h";
     Layover.weather_risk := None;
     Layover.airport_complexity := None;
     Layover.arrival_time := None;
     Layover.travel_date := None |}.

(** Text of ASCII characters only: on it [str.lower] and [str.upper] are
    the character-wise [Py.lower] and [Py.upper]. *)
Definition is_ascii (s : string) : bool :=
  forallb (fun c => (N_of_ascii c <? 128)%N) (list_ascii_of_string s).

(** The flight number yields no airline code: it is shorter than two
    characters or does not start with a character of [A-Z0-9]. *)
Definition no_code_in_number (flight_number : string) : Prop :=
  (String.length flight_number < 2)%nat \/
  DataAnalyst.code_prefix 3 (Py.upper flight_number) = "".

(** An itinerary JFK - ATL - DEN - LAX for which the provider describes
    the first layover only, and that one without a usable duration. *)
Definition example_segment (number from_code to_code : string) : DataAnalyst.segment :=
  {| DataAnalyst.seg_departure_airport :=
       Some {| DataAnalyst.ap_id := Some from_code; DataAnalyst.ap_name := None;
               DataAnalyst.ap_time := None |};
     DataAnalyst.seg_arrival_airport :=
       Some {| DataAnalyst.ap_id := Some to_code; DataAnalyst.ap_name := None;
               DataAnalyst.ap_time := None |};
     DataAnalyst.seg_airline := Some "Delta";
     DataAnalyst.seg_flight_number := Some number;
     DataAnalyst.seg_duration := Some 130;
     DataAnalyst.seg_airplane := None;
     DataAnalyst.seg_aircraft := None;
     DataAnalyst.seg_aircraft_type := None |}.

Definition example_itinerary : DataAnalyst.flight_data :=
  {| DataAnalyst.fd_flights :=
       Some [example_segment "DL 100" "JFK" "ATL";
             example_segment "DL 200" "ATL" "DEN";
             example_segment "DL 300" "DEN" "LAX"];
     DataAnalyst.fd_layovers :=
       Some [{| DataAnalyst.lay_duration := Some 0;
                DataAnalyst.lay_id := Some "ATL";
                DataAnalyst.lay_name := Some "Hartsfield-Jackson Atlanta International Airport";
                DataAnalyst.lay_overnight := None |}];
     DataAnalyst.fd_total_duration := Some 600;
     DataAnalyst.fd_price := Some (PInt 321);
     DataAnalyst.fd_type := None |}.

(** A clock-time formatter that parses nothing. *)
Definition no_clock (time_str : string) : option string := None.

(** The ways in which the batch call fails: no model, a failing call, or
    generated text that is not a JSON object once cleaned. *)
Inductive batch_failure (json_loads : string -> option pyval)
    (self : Layover.LayoverAnalysisAgent) (w : world) : Prop :=
| ModelUnavailable :
    Layover.gemini_model self = None -> batch_failure json_loads self w
| CallFails :
    hd Failure (replies w) = Failure -> batch_failure json_loads self w
| NotAJsonObject (text : string) :
    hd Failure (replies w) = Text text ->
    (forall items,
       json_loads (Py.strip (strip_fences (Py.strip text))) <> Some (PDict items)) ->
    batch_failure json_loads self w.

(** A response of the search that lists one offer, under [flights] only. *)
Definition flights_only_response : DataAnalyst.serp_data :=
  {| DataAnalyst.sd_best_flights := None;
     DataAnalyst.sd_other_flights := None;
     DataAnalyst.sd_flights := Some [example_itinerary];
     DataAnalyst.sd_error := None;
     DataAnalyst.sd_message := None;
     DataAnalyst.sd_account_status := None;
     DataAnalyst.sd_other_keys := [] |}.

(** The offer [flight_data] with another list of provider layovers. *)
Definition with_layovers (flight_data : DataAnalyst.flight_data)
    (serpapi_layovers : list DataAnalyst.layover) : DataAnalyst.flight_data :=
  {| DataAnalyst.fd_flights := DataAnalyst.fd_flights flight_data;
     DataAnalyst.fd_layovers := Some serpapi_layovers;
     DataAnalyst.fd_total_duration := DataAnalyst.fd_total_duration flight_data;
     DataAnalyst.fd_price := DataAnalyst.fd_price flight_data;
     DataAnalyst.fd_type := DataAnalyst.fd_type flight_data |}.

Definition example_layover (airport_code : string) (minutes : Z) : DataAnalyst.layover :=
  {| DataAnalyst.lay_duration := Some minutes;
     DataAnalyst.lay_id := Some airport_code;
     DataAnalyst.lay_name := None;
     DataAnalyst.lay_overnight := None |}.

(** A direct flight whose only segment names the airline and nothing else. *)
Definition example_unnumbered : DataAnalyst.flight_data :=
  {| DataAnalyst.fd_flights :=
       Some [{| DataAnalyst.seg_departure_airport := None;
                DataAnalyst.seg_arrival_airport := None;
                DataAnalyst.seg_airline := Some "Delta";
                DataAnalyst.seg_flight_number := None;
                DataAnalyst.seg_duration := None;
                DataAnalyst.seg_airplane := None;
                DataAnalyst.seg_aircraft := None;
                DataAnalyst.seg_aircraft_type := None |}];
     DataAnalyst.fd_layovers := None;
     DataAnalyst.fd_total_duration := None;
     DataAnalyst.fd_price := None;
     DataAnalyst.fd_type := None |}.

(** A clock that knows two moments of one morning, fifteen minutes apart,
    by their seconds since midnight. *)
Definition example_timestamps (time_str : string) : option Z :=
  if String.eqb time_str "2025-07-18 09:30" then Some 34200
  else if String.eqb time_str "2025-07-18 09:45" then Some 35100
  else None.

(** The assessment that [_add_deterministic_risk_assessment] records. *)
Definition risk_entry (level description : string) : pyval :=
  PDict [("level", PStr level); ("description", PStr description)].

Definition is_risk_level (level : string) : Prop :=
  level = "low" \/ level = "medium" \/ level = "high".

(** The text [t] is a piece of the text [s]. *)
Definition part_of (t s : string) : Prop :=
  exists before after, s = before +:+ t +:+ after.

(** * Properties *)

(** ** Strings *)

Lemma app_cons (c : ascii) (s t : string) : String c s +:+ t = String c (s +:+ t).
Proof. reflexivity. Qed.

Lemma app_empty_l (t : string) : "" +:+ t = t.
Proof. reflexivity. Qed.

Lemma app_not_empty (s t : string) : t <> "" -> s +:+ t <> "".
Proof. destruct s; [now rewrite app_empty_l | rewrite app_cons; discriminate]. Qed.

Lemma length_app (s t : string) :
  String.length (s +:+ t) = (String.length s + String.length t)%nat.
Proof. induction s as [|c s IH]; [reflexivity | rewrite app_cons; simpl; now rewrite IH]. Qed.

Lemma drop_app (s t : string) : Py.drop (String.length s) (s +:+ t) = t.
Proof. induction s as [|c s IH]; [now destruct t | rewrite app_cons; simpl; exact IH]. Qed.

Lemma take_app (s t : string) : Py.take (String.length s) (s +:+ t) = s.
Proof. induction s as [|c s IH]; [now destruct t | rewrite app_cons; simpl; now rewrite IH]. Qed.

Lemma startswith_app (p s : string) : Py.startswith (p +:+ s) p = true.
Proof.
  induction p as [|c p IH]; [now destruct s |].
  rewrite app_cons; simpl. now rewrite Ascii.eqb_refl, IH.
Qed.

Lemma endswith_app (s p : string) : Py.endswith (s +:+ p) p = true.
Proof.
  unfold Py.endswith. rewrite length_app.
  replace (String.length s + String.length p - String.length p)%nat
    with (String.length s) by lia.
  rewrite drop_app, String.eqb_refl, andb_true_r.
  apply Nat.leb_le; lia.
Qed.

Lemma drop_end_app (s p : string) : Py.drop_end (String.length p) (s +:+ p) = s.
Proof.
  unfold Py.drop_end. rewrite length_app.
  replace (String.length s + String.length p - String.length p)%nat
    with (String.length s) by lia.
  apply take_app.
Qed.

(** [rstrip] leaves alone a text whose tail it leaves alone. *)
Lemma rstrip_app_keep (s t : string) :
  t <> "" -> Py.rstrip t = t -> Py.rstrip (s +:+ t) = s +:+ t.
Proof.
  unfold Py.rstrip. intros Hne Ht. induction s as [|c s IH]; [exact Ht |].
  rewrite app_cons. simpl. rewrite IH.
  destruct (s +:+ t) eqn:E; [|reflexivity].
  exfalso. now apply (app_not_empty s t).
Qed.

(** A fenced text starts and ends with a backquote: [strip] keeps it. *)
Lemma strip_fenced (body : string) : Py.strip (fenced body) = fenced body.
Proof.
  unfold Py.strip, fenced.
  rewrite (rstrip_app_keep "```json" (body +:+ "```")).
  - reflexivity.
  - now apply app_not_empty.
  - now apply rstrip_app_keep.
Qed.

(** Removing the fences of a fenced text gives back its body. *)
Lemma strip_fences_fenced (body : string) : strip_fences (fenced body) = body.
Proof.
  unfold strip_fences, fenced.
  rewrite startswith_app.
  change 7%nat with (String.length "```json"). rewrite drop_app.
  rewrite endswith_app.
  change 3%nat with (String.length "```"). apply drop_end_app.
Qed.

(** ** Connection types *)

Lemma connection_type_cases (d : Z) :
  (d < 45 /\ Layover.connection_type d = "tight") \/
  (45 <= d < 120 /\ Layover.connection_type d = "standard") \/
  (120 <= d < 360 /\ Layover.connection_type d = "comfortable") \/
  (360 <= d /\ Layover.connection_type d = "plenty_of_time").
Proof.
  unfold Layover.connection_type.
  destruct (Z.ltb_spec d 45); [left; split; [lia | reflexivity] |].
  destruct (Z.ltb_spec d 120); [right; left; split; [lia | reflexivity] |].
  destruct (Z.ltb_spec d 360); [right; right; left; split; [lia | reflexivity] |].
  right; right; right; split; [lia | reflexivity].
Qed.

(** What [analyze_layover_feasibility] reports under [connection_type] is
    the connection type of the parsed duration. *)
Lemma analyze_reports_connection_type (json_loads : string -> option pyval)
    (self : Layover.LayoverAnalysisAgent) (duration_str airport_code : string)
    (arrival_time travel_date : option string) (weather_data : option pydict) (w : world) :
  let payload :=
    fst (Layover.analyze_layover_feasibility json_loads self duration_str airport_code
           arrival_time travel_date weather_data w) in
  field "connection_type" payload = None \/
  exists d, fst (Layover._parse_duration_with_ai self duration_str w) = Some d /\
            field "connection_type" payload = Some (PStr (Layover.connection_type d)).
Proof.
  unfold Layover.analyze_layover_feasibility, bind.
  destruct (Layover._parse_duration_with_ai self duration_str w) as [[d|] w1]; simpl;
    [| now left].
  destruct (Layover.gemini_model self); [| right; exists d; split; reflexivity].
  destruct (Layover._get_ai_layover_analysis _ _ _ _ _ _ _ _ w1) as [ai w2].
  destruct (py_contains_str "error" ai) as [[|]|]; simpl.
  - destruct (py_getitem_str "error" ai); simpl; [now left | right; exists d; split; reflexivity].
  - right; exists d; split; reflexivity.
  - now left.
Qed.

(** C1. For every integer duration [d] the connection type is exactly one
    of the four tiers, by the thresholds 45, 120 and 360: [d < 45] is
    tight, [45 <= d < 120] standard, [120 <= d < 360] comfortable,
    [360 <= d] plenty_of_time; the tier never decreases when [d] grows; and
    the connection type that [analyze_layover_feasibility] reports is this
    function of the parsed duration. *)
Theorem connection_type_step_function (d : Z) :
  (Layover.connection_type d = "tight" <-> d < 45) /\
  (Layover.connection_type d = "standard" <-> 45 <= d < 120) /\
  (Layover.connection_type d = "comfortable" <-> 120 <= d < 360) /\
  (Layover.connection_type d = "plenty_of_time" <-> 360 <= d) /\
  (forall d', d <= d' ->
     tier_rank (Layover.connection_type d) <= tier_rank (Layover.connection_type d')) /\
  (forall json_loads self duration_str airport_code arrival_time travel_date weather_data w,
     fst (Layover._parse_duration_with_ai self duration_str w) = Some d ->
     forall reported,
       field "connection_type"
         (fst (Layover.analyze_layover_feasibility json_loads self duration_str airport_code
                 arrival_time travel_date weather_data w)) = Some reported ->
       reported = PStr (Layover.connection_type d)).
Proof.
  split; [|split; [|split; [|split; [|split]]]].
  1-4: destruct (connection_type_cases d) as [[H E]|[[H E]|[[H E]|[H E]]]];
       rewrite E; split; intros G; try discriminate G; try reflexivity; lia.
  - intros d' Hle.
    destruct (connection_type_cases d) as [[H E]|[[H E]|[[H E]|[H E]]]];
      destruct (connection_type_cases d') as [[H' E']|[[H' E']|[[H' E']|[H' E']]]];
      rewrite E, E'; unfold tier_rank; simpl; lia.
  - intros json_loads self duration_str airport_code arrival_time travel_date weather_data w
           Hparse reported Hrep.
    destruct (analyze_reports_connection_type json_loads self duration_str airport_code
                arrival_time travel_date weather_data w) as [Hnone|[d0 [Hd0 Hsome]]];
      simpl in *; congruence.
Qed.

(** ** Single layover analysis: failure paths *)

(** Parsing a duration sends at most the one duration prompt. *)
Lemma parse_duration_calls (self : Layover.LayoverAnalysisAgent) (duration_str : string)
    (w : world) :
  calls (snd (Layover._parse_duration_with_ai self duration_str w)) =
  (calls w ++ match Layover.gemini_model self with
              | Some _ => [DurationPrompt duration_str]
              | None => []
              end)%list.
Proof.
  unfold Layover._parse_duration_with_ai.
  destruct (Layover.gemini_model self); simpl.
  - unfold bind, generate_content. destruct (replies w); reflexivity.
  - now rewrite app_nil_r.
Qed.

(** Without a model no duration is parsed. *)
Lemma parse_duration_unavailable (self : Layover.LayoverAnalysisAgent)
    (duration_str : string) (w : world) :
  Layover.gemini_model self = None ->
  Layover._parse_duration_with_ai self duration_str w = (None, w).
Proof. intros H. unfold Layover._parse_duration_with_ai. now rewrite H. Qed.

(** C4. When the model is unavailable or the duration does not parse,
    [analyze_layover_feasibility] returns the error payload
    [{error, airport_code, analysis_failed: True}], which carries no number,
    and sends no analysis prompt: the only call, if any, is the one that
    tried to parse the duration, and there is none without a model. *)
Theorem layover_analysis_fails_closed (json_loads : string -> option pyval)
    (self : Layover.LayoverAnalysisAgent) (duration_str airport_code : string)
    (arrival_time travel_date : option string) (weather_data : option pydict) (w : world) :
  Layover.gemini_model self = None \/
  fst (Layover._parse_duration_with_ai self duration_str w) = None ->
  let outcome :=
    Layover.analyze_layover_feasibility json_loads self duration_str airport_code
      arrival_time travel_date weather_data w in
  fst outcome =
    PDict [("error", PStr ("Unable to parse duration: " +:+ duration_str));
           ("airport_code", PStr airport_code);
           ("analysis_failed", PBool true)] /\
  field "analysis_failed" (fst outcome) = Some (PBool true) /\
  field "risk_score" (fst outcome) = None /\
  has_number (fst outcome) = false /\
  exists sent,
    calls (snd outcome) = (calls w ++ sent)%list /\
    existsb is_layover_prompt sent = false /\
    (Layover.gemini_model self = None -> sent = []).
Proof.
  intros Hfail.
  assert (Hnone : fst (Layover._parse_duration_with_ai self duration_str w) = None).
  { destruct Hfail as [H|H]; [now rewrite parse_duration_unavailable | exact H]. }
  pose proof (parse_duration_calls self duration_str w) as Hcalls.
  unfold Layover.analyze_layover_feasibility, bind.
  destruct (Layover._parse_duration_with_ai self duration_str w) as [parsed w1].
  simpl in Hnone, Hcalls. subst parsed. simpl.
  repeat split.
  eexists; split; [exact Hcalls |].
  destruct (Layover.gemini_model self); split; try reflexivity; discriminate.
Qed.

(** No failure payload of [analyze_layover_feasibility] has a risk score
    or an analysis in it. *)
Lemma failed_analysis_has_no_score (json_loads : string -> option pyval)
    (self : Layover.LayoverAnalysisAgent) (duration_str airport_code : string)
    (arrival_time travel_date : option string) (weather_data : option pydict) (w : world) :
  let payload :=
    fst (Layover.analyze_layover_feasibility json_loads self duration_str airport_code
           arrival_time travel_date weather_data w) in
  field "analysis_failed" payload = Some (PBool true) ->
  field "risk_score" payload = None /\ field "ai_analysis" payload = None.
Proof.
  unfold Layover.analyze_layover_feasibility, bind.
  destruct (Layover._parse_duration_with_ai self duration_str w) as [[d|] w1]; simpl;
    [| now split].
  destruct (Layover.gemini_model self); [| now split].
  destruct (Layover._get_ai_layover_analysis _ _ _ _ _ _ _ _ w1) as [ai w2].
  destruct (py_contains_str "error" ai) as [[|]|]; simpl; try (now split).
  destruct (py_getitem_str "error" ai); simpl; now split.
Qed.

Lemma layover_analysis_fails_closed_witness :
  let self := {| Layover.gemini_model := Some (Layover.GenerativeModelNamed "gemini-2.0-flash") |} in
  let w := {| replies := [Text "about two hours"]; calls := []; utcnow := "" |} in
  let outcome :=
    Layover.analyze_layover_feasibility loads_empty_object self "2h-ish" "ATL" None None None w in
  fst (Layover._parse_duration_with_ai self "2h-ish" w) = None /\
  fst outcome =
    PDict [("error", PStr "Unable to parse duration: 2h-ish");
           ("airport_code", PStr "ATL");
           ("analysis_failed", PBool true)] /\
  calls (snd outcome) = [DurationPrompt "2h-ish"].
Proof.
  intros self w outcome.
  assert (Hparse : fst (Layover._parse_duration_with_ai self "2h-ish" w) = None)
    by reflexivity.
  destruct (layover_analysis_fails_closed loads_empty_object self "2h-ish" "ATL"
              None None None w (or_intror Hparse)) as (Hpayload & _ & _ & _ & _).
  split; [exact Hparse | split; [exact Hpayload | reflexivity]].
Defined.

(** ** Batch layover analysis *)

(** C7. For every list of layover descriptors, the batch analysis returns
    the empty mapping when the model is unavailable, when the call fails,
    and when the cleaned response is not a JSON object; no per-airport entry
    is made up. *)
Theorem batch_failure_gives_empty_mapping (json_loads : string -> option pyval)
    (self : Layover.LayoverAnalysisAgent)
    (layover_data_list : list Layover.layover_data) (w : world) :
  batch_failure json_loads self w ->
  fst (Layover.analyze_batch_layover_feasibility json_loads self layover_data_list w) = [].
Proof.
  intros Hfail. unfold Layover.analyze_batch_layover_feasibility.
  destruct layover_data_list as [|ld rest]; [reflexivity |].
  destruct (Layover.gemini_model self) as [model|] eqn:Hmodel; [| reflexivity].
  unfold bind, generate_content.
  destruct Hfail as [H | H | text H Hjson]; [congruence | |].
  - destruct (replies w) as [|r rs]; [reflexivity |]. simpl in H. subst r. reflexivity.
  - destruct (replies w) as [|r rs]; [discriminate H |]. simpl in H. subst r. simpl.
    destruct (json_loads _) as [[]|] eqn:E; try reflexivity.
    exfalso. eapply Hjson. reflexivity.
Qed.

Lemma batch_failure_gives_empty_mapping_witness :
  let self := {| Layover.gemini_model := Some (Layover.GenerativeModelNamed "gemini-2.0-flash") |} in
  let w := {| replies := [Text "Sorry, I cannot help with that."]; calls := []; utcnow := "" |} in
  let layover_data :=
    {| Layover.airport_code := Some "ATL"; Layover.duration_str := Some "35m";
       Layover.weather_risk := None; Layover.airport_complexity := None;
       Layover.arrival_time := None; Layover.travel_date := None |} in
  fst (Layover.analyze_batch_layover_feasibility loads_empty_object self [layover_data] w) = [].
Proof.
  intros self w layover_data.
  apply (batch_failure_gives_empty_mapping loads_empty_object self [layover_data] w).
  apply (NotAJsonObject _ _ _ "Sorry, I cannot help with that."); [reflexivity |].
  intros items. vm_compute. discriminate.
Defined.

(** A JSON object, on the other hand, is handed back as it is. *)
Lemma batch_success_returns_object (json_loads : string -> option pyval)
    (self : Layover.LayoverAnalysisAgent) (model : Layover.GenerativeModel)
    (ld : Layover.layover_data) (rest : list Layover.layover_data)
    (text : string) (rs : list reply) (items : pydict) (w : world) :
  Layover.gemini_model self = Some model ->
  replies w = Text text :: rs ->
  json_loads (Py.strip (strip_fences (Py.strip text))) = Some (PDict items) ->
  fst (Layover.analyze_batch_layover_feasibility json_loads self (ld :: rest) w) = items.
Proof.
  intros Hm Hr Hj. unfold Layover.analyze_batch_layover_feasibility, bind, generate_content.
  rewrite Hm, Hr. simpl. now rewrite Hj.
Qed.

(** ** Parsing generated text *)

Section ResponseParsing.

(** [json.loads]; [None] stands for [json.JSONDecodeError]. *)
Variable json_loads : string -> option pyval.
Variable strptime_month : string -> option Z.

(** [json.loads] skips blanks around a JSON text, so a text that it parses
    still parses, to the same value, once stripped. *)
Hypothesis json_loads_strip :
  forall text v, json_loads text = Some v -> json_loads (Py.strip text) = Some v.

(** A JSON text is no fenced text: it neither starts with the opening
    fence nor ends with the closing one. *)
Hypothesis json_text_unfenced :
  forall text v, json_loads text = Some v ->
    Py.startswith text "```json" = false /\ Py.endswith text "```" = false.

(** Cleaning a JSON text leaves a text that parses to the same value. *)
Lemma json_loads_cleaned (b : string) (v : pyval) :
  json_loads b = Some v ->
  json_loads (strip_fences (Py.strip b)) = Some v /\
  json_loads (Py.strip (strip_fences (Py.strip b))) = Some v.
Proof.
  intros Hb. pose proof (json_loads_strip b v Hb) as Hs.
  destruct (json_text_unfenced _ _ Hs) as [Hstart Hend].
  unfold strip_fences. rewrite Hstart, Hend.
  split; [exact Hs | now apply json_loads_strip].
Qed.

(** What the layover call site makes of the text of the analysis response
    (the response before it answered the duration prompt). *)
Lemma layover_site_result (self : Layover.LayoverAnalysisAgent)
    (model : Layover.GenerativeModel)
    (duration_str airport_code connection_type : string)
    (arrival_time travel_date : option string) (weather_data : pydict)
    (first : reply) (text : string) (rest : list reply) (w : world) :
  Layover.gemini_model self = Some model ->
  replies w = first :: Text text :: rest ->
  fst (Layover._get_ai_layover_analysis json_loads self duration_str airport_code
         connection_type arrival_time travel_date (Some weather_data) w) =
  match json_loads (strip_fences (Py.strip text)) with
  | Some analysis => analysis
  | None => Layover.invalid_response_format
  end.
Proof.
  intros Hm Hr.
  unfold Layover._get_ai_layover_analysis, Layover._parse_duration_with_ai.
  rewrite Hm. unfold bind, generate_content. rewrite Hr. simpl.
  now destruct (json_loads _).
Qed.

(** The same for the real-time weather call site. *)
Lemma weather_site_result (airport_code flight_date text : string)
    (rest : list reply) (w : world) :
  replies w = Text text :: rest ->
  fst (Weather._analyze_realtime_weather json_loads strptime_month airport_code flight_date w) =
  match json_loads (Py.strip (strip_fences (Py.strip text))) with
  | Some analysis => analysis
  | None => Weather._get_fallback_weather_analysis airport_code "real-time"
  end.
Proof.
  intros Hr. unfold Weather._analyze_realtime_weather, bind, generate_content.
  rewrite Hr. simpl. now destruct (json_loads _).
Qed.

(** C5. A JSON body [b] parses, at both call sites, to the same structure
    whether the response is [b] itself or [b] wrapped in a json code fence;
    and a response that is not valid JSON once its fences are removed makes
    the layover call site return its error marker and the weather call site
    its fixed medium-risk assessment: every case yields a value, no
    exception reaches the caller. *)
Theorem fenced_response_parsing :
  (forall b v text,
     json_loads b = Some v ->
     text = b \/ text = fenced b ->
     (forall self model duration_str airport_code connection_type arrival_time travel_date
             weather_data first rest w,
        Layover.gemini_model self = Some model ->
        replies w = first :: Text text :: rest ->
        fst (Layover._get_ai_layover_analysis json_loads self duration_str airport_code
               connection_type arrival_time travel_date (Some weather_data) w) = v) /\
     (forall airport_code flight_date rest w,
        replies w = Text text :: rest ->
        fst (Weather._analyze_realtime_weather json_loads strptime_month
               airport_code flight_date w) = v)) /\
  (forall text,
     json_loads (strip_fences (Py.strip text)) = None ->
     forall self model duration_str airport_code connection_type arrival_time travel_date
            weather_data first rest w,
       Layover.gemini_model self = Some model ->
       replies w = first :: Text text :: rest ->
       let analysis :=
         fst (Layover._get_ai_layover_analysis json_loads self duration_str airport_code
                connection_type arrival_time travel_date (Some weather_data) w) in
       analysis = Layover.invalid_response_format /\
       field "error" analysis =
         Some (PStr "❌ AI layover analysis failed - invalid response format")) /\
  (forall text,
     json_loads (Py.strip (strip_fences (Py.strip text))) = None ->
     forall airport_code flight_date rest w,
       replies w = Text text :: rest ->
       let analysis :=
         fst (Weather._analyze_realtime_weather json_loads strptime_month
                airport_code flight_date w) in
       analysis = Weather._get_fallback_weather_analysis airport_code "real-time" /\
       weather_risk_level analysis = Some (PStr "medium")).
Proof.
  split; [| split].
  - intros b v text Hb Htext.
    assert (Hclean : json_loads (strip_fences (Py.strip text)) = Some v /\
                     json_loads (Py.strip (strip_fences (Py.strip text))) = Some v).
    { destruct Htext as [->| ->]; [now apply json_loads_cleaned |].
      rewrite strip_fenced, strip_fences_fenced.
      split; [exact Hb | now apply json_loads_strip]. }
    destruct Hclean as [Hlayover Hweather]. split.
    + intros self model duration_str airport_code connection_type arrival_time travel_date
             weather_data first rest w Hm Hr.
      now rewrite (layover_site_result self model _ _ _ _ _ _ first text rest w Hm Hr),
        Hlayover.
    + intros airport_code flight_date rest w Hr.
      now rewrite (weather_site_result _ _ text rest w Hr), Hweather.
  - intros text Hnone self model duration_str airport_code connection_type arrival_time
           travel_date weather_data first rest w Hm Hr analysis.
    subst analysis.
    rewrite (layover_site_result self model _ _ _ _ _ _ first text rest w Hm Hr), Hnone.
    split; reflexivity.
  - intros text Hnone airport_code flight_date rest w Hr analysis.
    subst analysis.
    rewrite (weather_site_result _ _ text rest w Hr), Hnone.
    split; reflexivity.
Qed.

End ResponseParsing.

Lemma loads_empty_object_strip (text : string) (v : pyval) :
  loads_empty_object text = Some v -> loads_empty_object (Py.strip text) = Some v.
Proof.
  unfold loads_empty_object.
  destruct (String.eqb_spec text "{}") as [->|]; [trivial | discriminate].
Qed.

Lemma loads_empty_object_unfenced (text : string) (v : pyval) :
  loads_empty_object text = Some v ->
  Py.startswith text "```json" = false /\ Py.endswith text "```" = false.
Proof.
  unfold loads_empty_object.
  destruct (String.eqb_spec text "{}") as [->|]; [now split | discriminate].
Qed.

Lemma fenced_response_parsing_witness :
  let fixed_month (flight_date : string) := Some 7 in
  let answering (text : string) :=
    {| replies := [Text text; Text "left over"]; calls := []; utcnow := "" |} in
  fst (Weather._analyze_realtime_weather loads_empty_object fixed_month "ATL" "2025-07-12"
         (answering (fenced "{}"))) = PDict [] /\
  fst (Weather._analyze_realtime_weather loads_empty_object fixed_month "ATL" "2025-07-12"
         (answering "{}")) = PDict [] /\
  fst (Weather._analyze_realtime_weather loads_empty_object fixed_month "ATL" "2025-07-12"
         (answering "it looks like rain"))
    = Weather._get_fallback_weather_analysis "ATL" "real-time".
Proof.
  intros fixed_month answering.
  destruct (fenced_response_parsing loads_empty_object fixed_month
              loads_empty_object_strip loads_empty_object_unfenced)
    as (Hbody & _ & Hweather).
  split; [| split].
  - destruct (Hbody "{}" (PDict []) (fenced "{}") eq_refl (or_intror eq_refl)) as [_ H].
    apply (H "ATL" "2025-07-12" [Text "left over"]). reflexivity.
  - destruct (Hbody "{}" (PDict []) "{}" eq_refl (or_introl eq_refl)) as [_ H].
    apply (H "ATL" "2025-07-12" [Text "left over"]). reflexivity.
  - apply (Hweather "it looks like rain" eq_refl "ATL" "2025-07-12" [Text "left over"]).
    reflexivity.
Defined.

(** ** The rate limit of the search provider *)

(** The message of the [HTTPError] for status 429 names the status. *)
Lemma http_429_message (reason url : string) :
  exists error_message,
    DataAnalyst.raise_for_status 429 reason url = Some error_message /\
    Py.contains "429" error_message = true.
Proof. eexists. split; reflexivity. Qed.

(** [_call_serpapi_flights] answers a 429 with the rate-limit payload. *)
Lemma call_serpapi_flights_429 (reason url : string) (data : DataAnalyst.serp_data) :
  DataAnalyst._call_serpapi_flights (DataAnalyst.Responded 429 reason url data) =
  Some DataAnalyst.rate_limit_payload.
Proof. reflexivity. Qed.

(** C6 (as the code behaves). On HTTP 429 [_call_serpapi_flights] builds
    the payload that names the rate limit, but [analyze_route] takes that
    payload for search data: it finds no flights in it and reports success
    with an empty flight list and no message, so its caller cannot tell the
    rate limit from a route without flights. *)
Theorem rate_limit_lost_in_analyze_route (strptime_strftime : string -> option string)
    (reason url : string) (data : DataAnalyst.serp_data)
    (origin destination date : string) (connections : option (list pyval)) :
  DataAnalyst._call_serpapi_flights (DataAnalyst.Responded 429 reason url data) =
    Some DataAnalyst.rate_limit_payload /\
  DataAnalyst.sd_error DataAnalyst.rate_limit_payload = Some "SerpAPI rate limit exceeded" /\
  DataAnalyst.analyze_route strptime_strftime (DataAnalyst.Responded 429 reason url data)
      origin destination date connections =
    {| DataAnalyst.success := true;
       DataAnalyst.message := None;
       DataAnalyst.rr_flights := [];
       DataAnalyst.rr_route_info :=
         Some {| DataAnalyst.ri_origin := origin;
                 DataAnalyst.ri_destination := destination;
                 DataAnalyst.ri_date := date;
                 DataAnalyst.ri_connections := default [] connections |} |}.
Proof. repeat split. Qed.

(** A request that fails for another reason gives the plain failure. *)
Lemma analyze_route_other_failure (strptime_strftime : string -> option string)
    (origin destination date : string) (connections : option (list pyval)) :
  DataAnalyst.analyze_route strptime_strftime (DataAnalyst.RequestException "Read timed out.")
      origin destination date connections =
    {| DataAnalyst.success := false;
       DataAnalyst.message := Some "No flights found for this route";
       DataAnalyst.rr_flights := [];
       DataAnalyst.rr_route_info := None |}.
Proof. reflexivity. Qed.

(** ** The fallback batch analysis *)

Lemma fallback_entry_thresholds (d : Z) :
  (120 <= d ->
     Layover.risk_level (Layover.fallback_entry_of d) = "low" /\
     Layover.risk_score (Layover.fallback_entry_of d) = 30) /\
  (60 <= d < 120 ->
     Layover.risk_level (Layover.fallback_entry_of d) = "medium" /\
     Layover.risk_score (Layover.fallback_entry_of d) = 50) /\
  (d < 60 ->
     Layover.risk_level (Layover.fallback_entry_of d) = "high" /\
     Layover.risk_score (Layover.fallback_entry_of d) = 75).
Proof.
  unfold Layover.fallback_entry_of.
  destruct (Z.leb_spec 120 d); [| destruct (Z.leb_spec 60 d)]; simpl;
    repeat split; intros; try reflexivity; lia.
Qed.

(** Once an exception is raised the loop does not recover. *)
Lemma fallback_loop_stays_raised (e : exn) (layover_data_list : list Layover.layover_data) :
  foldl Layover.fallback_step (Raise e) layover_data_list = Raise e.
Proof. induction layover_data_list as [|ld l IH]; [reflexivity | exact IH]. Qed.

(** C8. The fallback batch analysis never gets to its thresholds: the
    duration parser [_fallback_parse_duration] that the loop calls is not an
    attribute of the agent, so the first descriptor raises [AttributeError]
    and no airport is given an entry.  Only the empty list returns a
    mapping, the empty one.  The [if]/[elif] chain that follows the failing
    call would give low with score 30 for [d >= 120], medium with score 50
    for [60 <= d < 120] and high with score 75 for [d < 60]. *)
Theorem fallback_batch_raises_attribute_error :
  (existsb (String.eqb "_fallback_parse_duration") Layover.instance_attributes = false) /\
  Layover._create_fallback_batch_analysis [] = Ok ∅ /\
  (forall layover_data rest,
     Layover._create_fallback_batch_analysis (layover_data :: rest) = Raise AttributeError) /\
  (forall layover_data_list results airport_code,
     Layover._create_fallback_batch_analysis layover_data_list = Ok results ->
     layover_data_list = [] /\ results !! airport_code = None) /\
  Layover._create_fallback_batch_analysis [example_descriptor] = Raise AttributeError /\
  (forall d,
     (120 <= d ->
        Layover.risk_level (Layover.fallback_entry_of d) = "low" /\
        Layover.risk_score (Layover.fallback_entry_of d) = 30) /\
     (60 <= d < 120 ->
        Layover.risk_level (Layover.fallback_entry_of d) = "medium" /\
        Layover.risk_score (Layover.fallback_entry_of d) = 50) /\
     (d < 60 ->
        Layover.risk_level (Layover.fallback_entry_of d) = "high" /\
        Layover.risk_score (Layover.fallback_entry_of d) = 75)).
Proof.
  assert (Hraise : forall layover_data rest,
            Layover._create_fallback_batch_analysis (layover_data :: rest)
            = Raise AttributeError).
  { intros layover_data rest. unfold Layover._create_fallback_batch_analysis.
    cbn [foldl]. apply fallback_loop_stays_raised. }
  split; [reflexivity |]. split; [reflexivity |]. split; [exact Hraise |].
  split; [| split; [apply Hraise | exact fallback_entry_thresholds]].
  intros [|layover_data rest] results airport_code Hok.
  - injection Hok as <-. split; [reflexivity | apply lookup_empty].
  - rewrite Hraise in Hok. discriminate Hok.
Qed.

(** ** Duration formatting *)

Lemma py_int_of_int (d : Z) : py_int (PInt d) = Ok d.
Proof. reflexivity. Qed.

(** On positive minutes both formatters run the same three-way [if]. *)
Lemma formatters_agree_on_positive (d : Z) :
  0 < d ->
  DataAnalyst._format_duration (PInt d) = Ok (DataAnalyst._format_duration_from_minutes d).
Proof.
  intros Hd. unfold DataAnalyst._format_duration, DataAnalyst._format_duration_from_minutes.
  simpl. destruct (Z.leb_spec d 0); [lia | reflexivity].
Qed.

(** The legacy formatter truncates a fractional number instead of
    answering "0m": 2.5 minutes come out as "2m". *)
Lemma legacy_format_truncates_fraction :
  DataAnalyst._format_duration (PFloat (Finite (5 # 2))) = Ok "2m" /\
  DataAnalyst._format_duration (PFloat (Finite (5 # 2))) <> Ok "0m".
Proof. split; [reflexivity | discriminate]. Qed.

(** C9 (amended). The two formatters agree on positive integer minutes
    (125 is "2h 5m", 60 is "1h", 5 is "5m"); [_format_duration_from_minutes]
    answers "Unknown" for every [d <= 0]; the legacy [_format_duration]
    answers "0m" for 0 and for every input that [int] rejects with a
    [ValueError] or a [TypeError] (such as [None] or a text that is no
    number), while a finite fractional number is truncated by [int] and
    formatted like an integer. *)
Theorem duration_formatters :
  (forall d, 0 < d ->
     DataAnalyst._format_duration (PInt d) =
     Ok (DataAnalyst._format_duration_from_minutes d)) /\
  DataAnalyst._format_duration_from_minutes 125 = "2h 5m" /\
  DataAnalyst._format_duration_from_minutes 60 = "1h" /\
  DataAnalyst._format_duration_from_minutes 5 = "5m" /\
  (forall d, d <= 0 -> DataAnalyst._format_duration_from_minutes d = "Unknown") /\
  DataAnalyst._format_duration (PInt 0) = Ok "0m" /\
  (forall x, py_int x = Raise ValueError \/ py_int x = Raise TypeError ->
     DataAnalyst._format_duration x = Ok "0m") /\
  DataAnalyst._format_duration PNone = Ok "0m" /\
  DataAnalyst._format_duration (PStr "soon") = Ok "0m" /\
  (forall q, DataAnalyst._format_duration (PFloat (Finite q)) =
             DataAnalyst._format_duration (PInt (Z.quot (Qnum q) (Z.pos (Qden q))))).
Proof.
  split; [exact formatters_agree_on_positive |].
  do 3 (split; [reflexivity |]).
  split.
  { intros d Hd. unfold DataAnalyst._format_duration_from_minutes.
    destruct (Z.leb_spec d 0); [reflexivity | lia]. }
  split; [reflexivity |].
  split.
  { intros x [H|H]; unfold DataAnalyst._format_duration; now rewrite H. }
  repeat split.
Qed.

(** ** Layovers of a flight record *)

(** The decimal text of a positive integer starts with a digit. *)
Lemma str_of_int_positive (n : Z) :
  0 < n -> exists c s, Py.str_of_int n = String c s /\ Py.isdigit c = true.
Proof.
  intros Hn. destruct n as [|p|p]; try lia.
  unfold Py.str_of_int. simpl.
  destruct (Pos.to_uint p); simpl; eexists; eexists; split; reflexivity.
Qed.

Lemma starts_with_digit_not_unknown (c : ascii) (s t : string) :
  Py.isdigit c = true -> String c s +:+ t <> "Unknown".
Proof.
  intros Hc. rewrite app_cons. intros E. injection E as -> _. discriminate Hc.
Qed.

(** A positive duration never formats as "Unknown". *)
Lemma format_positive_not_unknown (d : Z) :
  0 < d -> DataAnalyst._format_duration_from_minutes d <> "Unknown".
Proof.
  intros Hd. unfold DataAnalyst._format_duration_from_minutes, DataAnalyst.hours_minutes.
  destruct (Z.leb_spec d 0); [lia |].
  assert (Hh : 0 <= d / 60) by (apply Z.div_pos; lia).
  assert (Hm : 0 <= d mod 60 < 60) by (apply Z.mod_pos_bound; lia).
  destruct (Z.ltb_spec 0 (d / 60)) as [Hpos|Hzero]; simpl.
  - destruct (str_of_int_positive (d / 60) Hpos) as (c & s & -> & Hc).
    destruct (0 <? d mod 60); now apply starts_with_digit_not_unknown.
  - assert (Hmod : 0 < d mod 60).
    { assert (d / 60 = 0) by lia.
      pose proof (Z.div_mod d 60 ltac:(lia)). lia. }
    destruct (str_of_int_positive (d mod 60) Hmod) as (c & s & -> & Hc).
    now apply starts_with_digit_not_unknown.
Qed.

Section FlightRecords.

Variable strptime_strftime : string -> option string.

(** The minutes that a provided layover is formatted from. *)
Lemma provided_layover_duration (layover_data : DataAnalyst.layover)
    (segment_arrival : DataAnalyst.airport) (next_segment : DataAnalyst.segment) :
  DataAnalyst.li_duration
    (DataAnalyst.provided_layover_info strptime_strftime layover_data segment_arrival
       next_segment) =
  DataAnalyst._format_duration_from_minutes
    (if default 0 (DataAnalyst.lay_duration layover_data) <=? 0
     then 90
     else default 0 (DataAnalyst.lay_duration layover_data)).
Proof. reflexivity. Qed.

(** The connections of a record are made segment by segment. *)
Lemma parsed_connection (flight_data : DataAnalyst.flight_data)
    (origin destination date : string) (info : DataAnalyst.flight_info)
    (i : nat) (conn : DataAnalyst.connection) :
  DataAnalyst._parse_flight_info strptime_strftime flight_data origin destination date
    = Some info ->
  DataAnalyst.connections info !! i = Some conn ->
  exists segment,
    default [] (DataAnalyst.fd_flights flight_data) !! i = Some segment /\
    conn = DataAnalyst.connection_of strptime_strftime
             (default [] (DataAnalyst.fd_flights flight_data))
             (default [] (DataAnalyst.fd_layovers flight_data))
             (default "Unknown"
                (DataAnalyst.seg_airline
                   (default segment (head (default [] (DataAnalyst.fd_flights flight_data))))))
             i segment.
Proof.
  unfold DataAnalyst._parse_flight_info.
  destruct (default [] (DataAnalyst.fd_flights flight_data)) as [|first rest] eqn:Hf;
    [discriminate |].
  intros [= <-]. cbn [DataAnalyst.connections].
  destruct (_ || _); [| now rewrite lookup_nil].
  intros Hconn.
  assert (Himap :
    imap (DataAnalyst.connection_of strptime_strftime (first :: rest)
            (default [] (DataAnalyst.fd_layovers flight_data))
            (default "Unknown" (DataAnalyst.seg_airline first)))
         (first :: rest) !! i = Some conn) by exact Hconn.
  rewrite list_lookup_imap in Himap.
  destruct ((first :: rest) !! i) as [segment|] eqn:Hs; [| discriminate Himap].
  simpl in Himap. injection Himap as <-. exists segment. split; reflexivity.
Qed.

(** C10. In a parsed flight record the layover after segment [i] comes
    from the provider's entry [i] when there is one, and is made up
    otherwise.  A provided layover is formatted from its duration, or from
    90 minutes when the duration is missing or not positive, so it shows
    "1h 30m" in that case and never "Unknown"; a made-up layover shows
    "Unknown".  The [layovers] list of the record repeats the durations of
    the connections. *)
Theorem provided_layover_defaults_to_90 (flight_data : DataAnalyst.flight_data)
    (origin destination date : string) (info : DataAnalyst.flight_info) :
  DataAnalyst._parse_flight_info strptime_strftime flight_data origin destination date
    = Some info ->
  (forall i conn layover_info,
     DataAnalyst.connections info !! i = Some conn ->
     DataAnalyst.layoverInfo conn = Some layover_info ->
     match default [] (DataAnalyst.fd_layovers flight_data) !! i with
     | Some layover_data =>
         DataAnalyst.li_duration layover_info <> "Unknown" /\
         (DataAnalyst.lay_duration layover_data = None \/
          (exists m, DataAnalyst.lay_duration layover_data = Some m /\ m <= 0) ->
          DataAnalyst.li_duration layover_info = "1h 30m") /\
         (forall m, DataAnalyst.lay_duration layover_data = Some m -> 0 < m ->
            DataAnalyst.li_duration layover_info =
            DataAnalyst._format_duration_from_minutes m)
     | None => DataAnalyst.li_duration layover_info = "Unknown"
     end) /\
  (forall entry, entry ∈ DataAnalyst.layovers info ->
     exists conn layover_info,
       conn ∈ DataAnalyst.connections info /\
       DataAnalyst.layoverInfo conn = Some layover_info /\
       DataAnalyst.le_duration entry = DataAnalyst.li_duration layover_info).
Proof.
  intros Hparse. split.
  - intros i conn layover_info Hconn Hlay.
    destruct (parsed_connection _ _ _ _ _ _ _ Hparse Hconn) as (segment & Hseg & ->).
    simpl in Hlay. unfold DataAnalyst.layover_after in Hlay.
    destruct (_ !! S i) as [next_segment|]; [| discriminate Hlay].
    destruct (default [] (DataAnalyst.fd_layovers flight_data) !! i) as [layover_data|];
      injection Hlay as <-; [| reflexivity].
    rewrite provided_layover_duration.
    split; [| split].
    + apply format_positive_not_unknown.
      destruct (Z.leb_spec (default 0 (DataAnalyst.lay_duration layover_data)) 0); lia.
    + intros [->|(m & -> & Hm)]; simpl; [reflexivity |].
      destruct (Z.leb_spec m 0); [reflexivity | lia].
    + intros m -> Hm. simpl. destruct (Z.leb_spec m 0); [lia | reflexivity].
  - intros entry Hin.
    unfold DataAnalyst._parse_flight_info in Hparse.
    destruct (default [] (DataAnalyst.fd_flights flight_data)); [discriminate |].
    injection Hparse as <-. simpl in *.
    apply list_elem_of_omap in Hin as (conn & Hconn & Hentry).
    destruct (DataAnalyst.layoverInfo conn) as [layover_info|] eqn:Hli; [| discriminate].
    simpl in Hentry. injection Hentry as <-.
    exists conn, layover_info. split; [exact Hconn | split; [exact Hli | reflexivity]].
Qed.

End FlightRecords.

Lemma provided_layover_defaults_to_90_witness :
  exists info conn0 conn1 layover0 layover1,
    DataAnalyst._parse_flight_info no_clock example_itinerary "JFK" "LAX" "2025-07-12"
      = Some info /\
    DataAnalyst.connections info !! 0%nat = Some conn0 /\
    DataAnalyst.layoverInfo conn0 = Some layover0 /\
    DataAnalyst.li_duration layover0 = "1h 30m" /\
    DataAnalyst.connections info !! 1%nat = Some conn1 /\
    DataAnalyst.layoverInfo conn1 = Some layover1 /\
    DataAnalyst.li_duration layover1 = "Unknown".
Proof.
  destruct (DataAnalyst._parse_flight_info no_clock example_itinerary "JFK" "LAX" "2025-07-12")
    as [info|] eqn:Hparse; [| discriminate Hparse].
  destruct (provided_layover_defaults_to_90 no_clock example_itinerary "JFK" "LAX"
              "2025-07-12" info Hparse) as [Hconn _].
  injection Hparse as <-.
  do 5 eexists.
  split; [reflexivity |].
  split; [reflexivity |].
  split; [reflexivity |].
  split.
  { refine (proj1 (proj2 (Hconn 0%nat _ _ eq_refl eq_refl)) _).
    right. exists 0. split; [reflexivity | lia]. }
  split; [reflexivity |].
  split; [reflexivity |].
  exact (Hconn 1%nat _ _ eq_refl eq_refl).
Defined.

(** ** Weather classification *)

Lemma contains_unfold (t s : string) :
  Py.contains t s =
  Py.startswith s t || match s with
                       | EmptyString => false
                       | String _ s' => Py.contains t s'
                       end.
Proof. now destruct s. Qed.

Lemma contains_of_startswith (t s : string) :
  Py.startswith s t = true -> Py.contains t s = true.
Proof. intros H. now rewrite contains_unfold, H. Qed.

Lemma contains_drop (n : nat) (t s : string) :
  Py.contains t (Py.drop n s) = true -> Py.contains t s = true.
Proof.
  revert s. induction n as [|n IH]; intros s H; [now destruct s |].
  destruct s as [|c s]; [exact H |].
  simpl in H. rewrite contains_unfold, (IH s H). apply orb_true_r.
Qed.

Lemma startswith_drop (p t s : string) :
  Py.startswith s (p +:+ t) = true -> Py.startswith (Py.drop (String.length p) s) t = true.
Proof.
  revert s. induction p as [|a p IH]; intros s H; [now destruct s |].
  rewrite app_cons in H. destruct s as [|b s]; [discriminate H |].
  simpl in H. apply andb_true_iff in H as [_ H]. simpl. now apply IH.
Qed.

(** A text that contains a phrase contains every ending of the phrase. *)
Lemma contains_suffix (p t s : string) :
  Py.contains (p +:+ t) s = true -> Py.contains t s = true.
Proof.
  induction s as [|c s IH]; rewrite contains_unfold; intros H;
    apply orb_true_iff in H as [H|H].
  - apply (contains_drop (String.length p) t "").
    apply contains_of_startswith. now apply startswith_drop.
  - discriminate H.
  - apply (contains_drop (String.length p) t (String c s)).
    apply contains_of_startswith. now apply startswith_drop.
  - rewrite contains_unfold, (IH H). apply orb_true_r.
Qed.

(** The level recorded for a description is the first component of the
    [if]/[elif] chain on the lower-cased description. *)
Lemma classify_weather_level (conditions : string) :
  Weather.classify_weather conditions =
  Some (PStr (fst (Weather.deterministic_risk (Py.lower conditions)))).
Proof.
  unfold Weather.classify_weather, Weather._add_deterministic_risk_assessment. simpl.
  now destruct (Weather.deterministic_risk (Py.lower conditions)).
Qed.

(** C2 (as the code behaves). The classifier lower-cases the description
    and tries the high bucket, then the medium bucket, then answers low.
    "thunderstorms expected" is high and "light rain" is medium, but
    "partly cloudy" is medium, not low: it contains "cloudy", a medium
    keyword that is tried before the low bucket is reached; no description
    that contains "partly cloudy" is ever low. *)
Theorem weather_keyword_buckets :
  (forall conditions,
     Weather.classify_weather conditions =
     Some (PStr (if Py.any_in Weather.high_risk_terms (Py.lower conditions) then "high"
                 else if Py.any_in Weather.medium_risk_terms (Py.lower conditions)
                      then "medium"
                      else "low"))) /\
  Weather.classify_weather "thunderstorms expected" = Some (PStr "high") /\
  Weather.classify_weather "light rain" = Some (PStr "medium") /\
  Weather.classify_weather "partly cloudy" = Some (PStr "medium") /\
  In "partly cloudy" Weather.low_risk_terms /\
  (forall conditions,
     Py.contains "partly cloudy" (Py.lower conditions) = true ->
     Weather.classify_weather conditions <> Some (PStr "low")).
Proof.
  assert (Hlevel : forall conditions,
     Weather.classify_weather conditions =
     Some (PStr (if Py.any_in Weather.high_risk_terms (Py.lower conditions) then "high"
                 else if Py.any_in Weather.medium_risk_terms (Py.lower conditions)
                      then "medium"
                      else "low"))).
  { intros conditions. rewrite classify_weather_level. unfold Weather.deterministic_risk.
    destruct (Py.any_in Weather.high_risk_terms _); [reflexivity |].
    destruct (Py.any_in Weather.medium_risk_terms _); [reflexivity |].
    now destruct (Py.any_in Weather.low_risk_terms _). }
  split; [exact Hlevel |].
  do 3 (split; [reflexivity |]).
  split; [now left |].
  intros conditions Hpartly. rewrite Hlevel.
  assert (Hcloudy : Py.contains "cloudy" (Py.lower conditions) = true)
    by exact (contains_suffix "partly " "cloudy" _ Hpartly).
  assert (Hmedium : Py.any_in Weather.medium_risk_terms (Py.lower conditions) = true).
  { unfold Py.any_in, Weather.medium_risk_terms. simpl. rewrite Hcloudy.
    now rewrite !orb_true_r. }
  rewrite Hmedium. now destruct (Py.any_in Weather.high_risk_terms _).
Qed.

(** ** Airline codes and flight numbers *)

(** The prefix taken from a flight number is made of at most [n]
    characters of [A-Z0-9], starts the text, and is as long as it can be:
    it stops only at a character outside [A-Z0-9], at the end of the text,
    or at [n] characters. *)
Lemma code_prefix_longest (n : nat) (s : string) :
  let prefix := DataAnalyst.code_prefix n s in
  (String.length prefix <= n)%nat /\
  Py.startswith s prefix = true /\
  match Py.drop (String.length prefix) s with
  | String c _ => String.length prefix = n \/ DataAnalyst.is_code_char c = false
  | EmptyString => True
  end.
Proof.
  revert s. induction n as [|n IH]; intros s; simpl.
  - split; [lia |]. split; [now destruct s |].
    destruct s; [exact I | now left].
  - destruct s as [|c s]; simpl; [split; [lia | split; [reflexivity | exact I]] |].
    destruct (DataAnalyst.is_code_char c) eqn:Hc; simpl.
    + destruct (IH s) as (Hlen & Hstart & Hnext).
      rewrite Ascii.eqb_refl, Hstart. split; [lia |]. split; [reflexivity |].
      destruct (Py.drop _ s); [exact I |]. destruct Hnext as [->|H]; [now left | now right].
    + split; [lia |]. split; [reflexivity | now right].
Qed.

(** A flight number of two characters or more that starts with a character
    of [A-Z0-9] (once in upper case) gives its prefix, whatever the name. *)
Lemma extract_airline_code_from_number (flight_number airline_name : string) :
  (2 <= String.length flight_number)%nat ->
  DataAnalyst.code_prefix 3 (Py.upper flight_number) <> "" ->
  DataAnalyst._extract_airline_code flight_number airline_name =
  DataAnalyst.code_prefix 3 (Py.upper flight_number).
Proof.
  intros Hlen Hne. unfold DataAnalyst._extract_airline_code.
  destruct (Nat.leb_spec 2 (String.length flight_number)); [| lia].
  destruct (String.eqb_spec (DataAnalyst.code_prefix 3 (Py.upper flight_number)) "");
    [contradiction | reflexivity].
Qed.

(** Without a code in the flight number, the name decides: the table
    first, then the initials of the first two words, then "Unknown". *)
Lemma extract_airline_code_from_name (flight_number airline_name : string) :
  no_code_in_number flight_number ->
  DataAnalyst._extract_airline_code flight_number airline_name =
  match Dict.get (Py.strip (Py.lower airline_name)) DataAnalyst.airline_mapping with
  | Some airline_code => airline_code
  | None =>
      if (2 <=? String.length airline_name)%nat then
        match Py.split (Py.upper airline_name) with
        | w0 :: w1 :: _ => Py.take 1 w0 +:+ Py.take 1 w1
        | _ => "Unknown"
        end
      else "Unknown"
  end.
Proof.
  intros Hno. unfold DataAnalyst._extract_airline_code.
  destruct (Nat.leb_spec 2 (String.length flight_number)) as [Hlen|Hlen]; [| reflexivity].
  destruct Hno as [Hshort|Hempty]; [lia |]. now rewrite Hempty.
Qed.

(** C3 (as the code behaves). The code taken from a flight number is its
    longest prefix of one to three characters of [A-Z0-9], so "DL1590"
    gives "DL1", not "DL"; "B6 615" gives "B6".  Without such a prefix the
    name table is tried, then the initials of the first two words of the
    name, then "Unknown".  Cleaning "AS 41" with the code "AS" gives "41". *)
Theorem airline_code_and_flight_number :
  DataAnalyst._extract_airline_code "DL1590" "Delta Air Lines" = "DL1" /\
  DataAnalyst._extract_airline_code "B6 615" "JetBlue" = "B6" /\
  DataAnalyst._clean_flight_number "AS 41" "AS" = "41" /\
  DataAnalyst._clean_flight_number "as-41" "AS" = "41" /\
  (forall flight_number airline_name,
     (2 <= String.length flight_number)%nat ->
     DataAnalyst.code_prefix 3 (Py.upper flight_number) <> "" ->
     let airline_code := DataAnalyst._extract_airline_code flight_number airline_name in
     airline_code = DataAnalyst.code_prefix 3 (Py.upper flight_number) /\
     (1 <= String.length airline_code <= 3)%nat /\
     Py.startswith (Py.upper flight_number) airline_code = true /\
     match Py.drop (String.length airline_code) (Py.upper flight_number) with
     | String c _ => String.length airline_code = 3%nat \/ DataAnalyst.is_code_char c = false
     | EmptyString => True
     end) /\
  (forall flight_number airline_name,
     no_code_in_number flight_number ->
     (forall airline_code,
        Dict.get (Py.strip (Py.lower airline_name)) DataAnalyst.airline_mapping
          = Some airline_code ->
        DataAnalyst._extract_airline_code flight_number airline_name = airline_code) /\
     (Dict.get (Py.strip (Py.lower airline_name)) DataAnalyst.airline_mapping = None ->
      (forall w0 w1 ws,
         (2 <= String.length airline_name)%nat ->
         Py.split (Py.upper airline_name) = w0 :: w1 :: ws ->
         DataAnalyst._extract_airline_code flight_number airline_name =
         Py.take 1 w0 +:+ Py.take 1 w1) /\
      ((String.length airline_name < 2)%nat \/
       (length (Py.split (Py.upper airline_name)) < 2)%nat ->
       DataAnalyst._extract_airline_code flight_number airline_name = "Unknown"))) /\
  DataAnalyst._extract_airline_code "?" "JetBlue Airways" = "B6" /\
  DataAnalyst._extract_airline_code "-12" "Virgin America" = "VA" /\
  DataAnalyst._extract_airline_code "-12" "Virgin" = "Unknown".
Proof.
  do 4 (split; [reflexivity |]).
  split; [| split; [| repeat split]].
  2: { intros flight_number airline_name Hno.
       rewrite (extract_airline_code_from_name _ airline_name Hno).
       split; [now intros airline_code -> |].
       intros ->. split.
       - intros w0 w1 ws Hlen ->.
         now destruct (Nat.leb_spec 2 (String.length airline_name)); [| lia].
       - intros [Hshort|Hwords].
         + now destruct (Nat.leb_spec 2 (String.length airline_name)); [lia |].
         + destruct (2 <=? String.length airline_name)%nat; [| reflexivity].
           destruct (Py.split (Py.upper airline_name)) as [|w0 [|w1 ws]];
             [reflexivity | reflexivity | simpl in Hwords; lia]. }
  intros flight_number airline_name Hlen Hne airline_code. subst airline_code.
  rewrite (extract_airline_code_from_number _ _ Hlen Hne).
  destruct (code_prefix_longest 3 (Py.upper flight_number)) as (Hle & Hstart & Hnext).
  split; [reflexivity |]. split; [| split; [exact Hstart | exact Hnext]].
  split; [| exact Hle].
  destruct (DataAnalyst.code_prefix 3 (Py.upper flight_number)); [contradiction | simpl; lia].
Qed.

(** * Further properties *)

(** ** Dictionaries *)

Lemma dict_get_set_eq {A : Type} (k : string) (v : A) (d : list (string * A)) :
  Dict.get k (Dict.set k v d) = Some v.
Proof.
  induction d as [|[k' v'] d IH]; simpl.
  - now rewrite String.eqb_refl.
  - destruct (String.eqb k k') eqn:E; simpl; [now rewrite String.eqb_refl | now rewrite E].
Qed.

Lemma dict_get_set_ne {A : Type} (k k' : string) (v : A) (d : list (string * A)) :
  k <> k' -> Dict.get k' (Dict.set k v d) = Dict.get k' d.
Proof.
  intros Hne. apply String.eqb_neq in Hne. rewrite String.eqb_sym in Hne.
  induction d as [|[k0 v0] d IH]; simpl.
  - now rewrite Hne.
  - destruct (String.eqb_spec k k0) as [<-|Hk]; simpl.
    + now rewrite Hne.
    + now rewrite IH.
Qed.

Lemma dict_set_set {A : Type} (k : string) (v v' : A) (d : list (string * A)) :
  Dict.set k v (Dict.set k v' d) = Dict.set k v d.
Proof.
  induction d as [|[k0 v0] d IH]; simpl.
  - now rewrite String.eqb_refl.
  - destruct (String.eqb k k0) eqn:E; simpl.
    + now rewrite String.eqb_refl.
    + now rewrite E, IH.
Qed.

(** ** The single layover analysis as a whole *)

(** X1. Every payload of [analyze_layover_feasibility] names the airport
    it was asked about and carries exactly one of the two flags: either
    [analysis_failed] with an [error], or [analysis_successful] with the
    data source "Real AI Analysis" and no [error]. *)
Theorem layover_payload_flags (json_loads : string -> option pyval)
    (self : Layover.LayoverAnalysisAgent) (duration_str airport_code : string)
    (arrival_time travel_date : option string) (weather_data : option pydict) (w : world) :
  let payload :=
    fst (Layover.analyze_layover_feasibility json_loads self duration_str airport_code
           arrival_time travel_date weather_data w) in
  field "airport_code" payload = Some (PStr airport_code) /\
  ((field "analysis_failed" payload = Some (PBool true) /\
    field "analysis_successful" payload = None /\
    is_Some (field "error" payload)) \/
   (field "analysis_successful" payload = Some (PBool true) /\
    field "analysis_failed" payload = None /\
    field "error" payload = None /\
    field "data_source" payload = Some (PStr "Real AI Analysis"))).
Proof.
  unfold Layover.analyze_layover_feasibility, bind.
  destruct (Layover._parse_duration_with_ai self duration_str w) as [[d|] w1]; simpl;
    [| split; [reflexivity | left; repeat split; eexists; reflexivity]].
  destruct (Layover.gemini_model self);
    [| split; [reflexivity | left; repeat split; eexists; reflexivity]].
  destruct (Layover._get_ai_layover_analysis _ _ _ _ _ _ _ _ w1) as [ai w2].
  destruct (py_contains_str "error" ai) as [[|]|]; simpl.
  - destruct (py_getitem_str "error" ai); simpl;
      (split; [reflexivity | left; repeat split; eexists; reflexivity]).
  - split; [reflexivity | right; repeat split].
  - split; [reflexivity | left; repeat split; eexists; reflexivity].
Qed.

(** X2. Called without [weather_data] (its default), the analysis cannot
    succeed: the payload is a failure, no analysis prompt is sent, and when
    the duration did parse the error is the "system unavailable" marker,
    reported with the parsed minutes and their connection type. *)
Theorem layover_analysis_needs_weather_data (json_loads : string -> option pyval)
    (self : Layover.LayoverAnalysisAgent) (duration_str airport_code : string)
    (arrival_time travel_date : option string) (w : world) :
  let outcome :=
    Layover.analyze_layover_feasibility json_loads self duration_str airport_code
      arrival_time travel_date None w in
  field "analysis_failed" (fst outcome) = Some (PBool true) /\
  field "analysis_successful" (fst outcome) = None /\
  (exists sent,
     calls (snd outcome) = (calls w ++ sent)%list /\
     existsb is_layover_prompt sent = false) /\
  (forall d,
     fst (Layover._parse_duration_with_ai self duration_str w) = Some d ->
     fst outcome =
       PDict [("error", PStr "❌ AI layover analysis system unavailable");
              ("airport_code", PStr airport_code);
              ("duration_minutes", PInt d);
              ("connection_type", PStr (Layover.connection_type d));
              ("analysis_failed", PBool true)]).
Proof.
  unfold Layover.analyze_layover_feasibility, Layover._get_ai_layover_analysis,
    Layover._parse_duration_with_ai, bind, generate_content.
  destruct (Layover.gemini_model self) as [model|]; simpl.
  2: { repeat split; [exists []; now rewrite app_nil_r | discriminate]. }
  destruct (replies w) as [|r1 rs]; simpl.
  { repeat split; [eexists; split; reflexivity | discriminate]. }
  destruct (match r1 with Text text => Py.int_of_str (Py.strip text) | Failure => None end)
    as [d|] eqn:Hd; simpl.
  2: { repeat split; [eexists; split; reflexivity | discriminate]. }
  destruct rs as [|r2 rs]; simpl;
    (repeat split;
     [ eexists; split; [rewrite <- app_assoc; reflexivity | reflexivity]
     | intros d' [= <-]; reflexivity ]).
Qed.

(** X3. A successful analysis sends three prompts: the duration is parsed
    a second time inside [_get_ai_layover_analysis], and it is the result of
    that second parse (possibly none) that the analysis prompt shows, while
    the payload reports the first one. *)
Theorem successful_analysis_parses_duration_twice (json_loads : string -> option pyval)
    (self : Layover.LayoverAnalysisAgent) (model : Layover.GenerativeModel)
    (duration_str airport_code : string) (arrival_time travel_date : option string)
    (weather_data : pydict) (w : world)
    (first_text third_text : string) (second : reply) (rest : list reply)
    (d : Z) (analysis : pyval) :
  Layover.gemini_model self = Some model ->
  replies w = Text first_text :: second :: Text third_text :: rest ->
  Py.int_of_str (Py.strip first_text) = Some d ->
  json_loads (strip_fences (Py.strip third_text)) = Some analysis ->
  py_contains_str "error" analysis = Ok false ->
  let outcome :=
    Layover.analyze_layover_feasibility json_loads self duration_str airport_code
      arrival_time travel_date (Some weather_data) w in
  let second_parse :=
    match second with
    | Text text => Py.int_of_str (Py.strip text)
    | Failure => None
    end in
  fst outcome =
    PDict [("duration_minutes", PInt d);
           ("duration_formatted", PStr duration_str);
           ("airport_code", PStr airport_code);
           ("connection_type", PStr (Layover.connection_type d));
           ("ai_analysis", analysis);
           ("analysis_timestamp", PStr (utcnow w));
           ("data_source", PStr "Real AI Analysis");
           ("analysis_successful", PBool true)] /\
  calls (snd outcome) =
    (calls w ++
     [DurationPrompt duration_str;
      DurationPrompt duration_str;
      LayoverPrompt duration_str second_parse airport_code (Layover.connection_type d)
        arrival_time travel_date
        (default (PStr "medium") (Dict.get "risk_level" weather_data))
        (default (PStr "medium") (Dict.get "airport_complexity" weather_data))])%list /\
  replies (snd outcome) = rest.
Proof.
  intros Hm Hr Hd Hj Herr.
  unfold Layover.analyze_layover_feasibility, Layover._get_ai_layover_analysis,
    Layover._parse_duration_with_ai, bind, generate_content, now_isoformat, ret.
  rewrite Hm, Hr. simpl. rewrite Hd. simpl. rewrite Hj. simpl. rewrite Herr. simpl.
  rewrite <- !app_assoc. repeat split.
Qed.

Lemma successful_analysis_parses_duration_twice_witness :
  let self := {| Layover.gemini_model := Some (Layover.GenerativeModelNamed "gemini-2.0-flash") |} in
  let w := {| replies := [Text "90"; Failure; Text (fenced "{}")];
              calls := []; utcnow := "2025-07-12T10:00:00+00:00" |} in
  let outcome :=
    Layover.analyze_layover_feasibility loads_empty_object self "1h 30m" "ATL"
      None None (Some []) w in
  field "analysis_successful" (fst outcome) = Some (PBool true) /\
  field "duration_minutes" (fst outcome) = Some (PInt 90) /\
  calls (snd outcome) =
    [DurationPrompt "1h 30m"; DurationPrompt "1h 30m";
     LayoverPrompt "1h 30m" None "ATL" "standard" None None (PStr "medium") (PStr "medium")].
Proof.
  cbv zeta.
  destruct (successful_analysis_parses_duration_twice loads_empty_object
              {| Layover.gemini_model := Some (Layover.GenerativeModelNamed "gemini-2.0-flash") |}
              (Layover.GenerativeModelNamed "gemini-2.0-flash") "1h 30m" "ATL" None None []
              {| replies := [Text "90"; Failure; Text (fenced "{}")];
                 calls := []; utcnow := "2025-07-12T10:00:00+00:00" |}
              "90" (fenced "{}") Failure [] 90 (PDict [])
              eq_refl eq_refl eq_refl eq_refl eq_refl) as (Hpayload & Hcalls & _).
  split; [exact (f_equal (field "analysis_successful") Hpayload) |].
  split; [exact (f_equal (field "duration_minutes") Hpayload) | exact Hcalls].
Defined.

(** X4. The batch analysis never looks at the descriptors once the list is
    not empty: whatever the service answers is the result, so two different
    non-empty lists get the same mapping from the same answer, and the keys
    are not checked against the airports asked about. *)
Theorem batch_result_ignores_descriptors (json_loads : string -> option pyval)
    (self : Layover.LayoverAnalysisAgent)
    (ld1 ld2 : Layover.layover_data) (l1 l2 : list Layover.layover_data) (w : world) :
  fst (Layover.analyze_batch_layover_feasibility json_loads self (ld1 :: l1) w) =
  fst (Layover.analyze_batch_layover_feasibility json_loads self (ld2 :: l2) w).
Proof.
  unfold Layover.analyze_batch_layover_feasibility, bind, generate_content.
  destruct (Layover.gemini_model self); [| reflexivity].
  destruct (replies w) as [|[text|] rs]; simpl; try reflexivity.
  now destruct (json_loads _) as [[]|].
Qed.

(** ** Routes and flight records *)

Section RoutesAndRecords.

Variable strptime_strftime : string -> option string.

(** X5. [analyze_route] never hands back more than ten flights.  A failure
    has the fixed message, no flights and no route information; a success
    has the first ten records extracted from the data that the search
    returned. *)
Theorem analyze_route_caps_flights (outcome : DataAnalyst.request_outcome)
    (origin destination date : string) (connections : option (list pyval)) :
  let r := DataAnalyst.analyze_route strptime_strftime outcome origin destination date
             connections in
  (length (DataAnalyst.rr_flights r) <= 10)%nat /\
  (DataAnalyst.success r = false ->
     DataAnalyst.rr_flights r = [] /\
     DataAnalyst.message r = Some "No flights found for this route" /\
     DataAnalyst.rr_route_info r = None) /\
  (DataAnalyst.success r = true ->
     DataAnalyst.message r = None /\
     exists data,
       DataAnalyst._call_serpapi_flights outcome = Some data /\
       DataAnalyst.rr_flights r =
         take 10 (DataAnalyst._extract_flight_data strptime_strftime data
                    origin destination date)).
Proof.
  unfold DataAnalyst.analyze_route.
  destruct (DataAnalyst._call_serpapi_flights outcome) as [data|]; simpl;
    [| split; [lia | split; [now repeat split | discriminate]]].
  destruct (DataAnalyst.serp_data_truthy data); simpl;
    [| split; [lia | split; [now repeat split | discriminate]]].
  destruct (Nat.ltb_spec 10
              (length (DataAnalyst._extract_flight_data strptime_strftime data
                         origin destination date))) as [Hlong|Hshort].
  - split; [rewrite length_take; lia |]. split; [discriminate |].
    intros _. split; [reflexivity |]. now exists data.
  - split; [exact Hshort |]. split; [discriminate |].
    intros _. split; [reflexivity |]. exists data. split; [reflexivity |].
    now rewrite take_ge.
Qed.

(** X6. A response that lists its flights only under [flights] passes
    [_call_serpapi_flights], but the extraction reads [best_flights] and
    [other_flights] only: the route analysis then succeeds with an empty
    list. *)
Theorem flights_key_alone_gives_no_records (status_code : Z) (reason url : string)
    (data : DataAnalyst.serp_data)
    (origin destination date : string) (connections : option (list pyval)) :
  DataAnalyst.raise_for_status status_code reason url = None ->
  DataAnalyst.has_items (DataAnalyst.sd_best_flights data) = false ->
  DataAnalyst.has_items (DataAnalyst.sd_other_flights data) = false ->
  DataAnalyst.has_items (DataAnalyst.sd_flights data) = true ->
  let outcome := DataAnalyst.Responded status_code reason url data in
  DataAnalyst._call_serpapi_flights outcome = Some data /\
  DataAnalyst.success
    (DataAnalyst.analyze_route strptime_strftime outcome origin destination date connections)
    = true /\
  DataAnalyst.rr_flights
    (DataAnalyst.analyze_route strptime_strftime outcome origin destination date connections)
    = [].
Proof.
  intros Hstatus Hbest Hother Hflights outcome.
  assert (Hcall : DataAnalyst._call_serpapi_flights outcome = Some data).
  { unfold outcome, DataAnalyst._call_serpapi_flights.
    now rewrite Hstatus, Hbest, Hother, Hflights. }
  assert (Htruthy : DataAnalyst.serp_data_truthy data = true).
  { unfold DataAnalyst.serp_data_truthy.
    destruct (DataAnalyst.sd_flights data); [| discriminate Hflights].
    simpl. now rewrite !orb_true_r. }
  assert (Hextract : DataAnalyst._extract_flight_data strptime_strftime data
                       origin destination date = []).
  { unfold DataAnalyst._extract_flight_data.
    destruct (DataAnalyst.sd_best_flights data) as [[|]|]; try discriminate Hbest;
      destruct (DataAnalyst.sd_other_flights data) as [[|]|]; try discriminate Hother;
      reflexivity. }
  split; [exact Hcall |].
  unfold DataAnalyst.analyze_route. rewrite Hcall, Htruthy, Hextract. now split.
Qed.

(** A flight offer parses unless it has no segment. *)
Lemma parse_flight_info_none (flight_data : DataAnalyst.flight_data)
    (origin destination date : string) :
  DataAnalyst._parse_flight_info strptime_strftime flight_data origin destination date = None
  <-> default [] (DataAnalyst.fd_flights flight_data) = [].
Proof.
  unfold DataAnalyst._parse_flight_info.
  destruct (default [] (DataAnalyst.fd_flights flight_data)); split; intros H;
    try reflexivity; discriminate H.
Qed.

Lemma extract_flight_data_omap (serpapi_data : DataAnalyst.serp_data)
    (origin destination date : string) :
  DataAnalyst._extract_flight_data strptime_strftime serpapi_data origin destination date =
  omap (fun flight_data =>
          DataAnalyst._parse_flight_info strptime_strftime flight_data origin destination date)
       (default [] (DataAnalyst.sd_best_flights serpapi_data) ++
        default [] (DataAnalyst.sd_other_flights serpapi_data))%list.
Proof.
  unfold DataAnalyst._extract_flight_data. now destruct (_ ++ _)%list.
Qed.

(** X7. The extraction keeps, in order and best flights first, exactly the
    offers that have at least one segment: the segment lists of the records
    are the non-empty segment lists of the offers, and every record carries
    the origin, destination and date of the request. *)
Theorem extract_keeps_offers_with_segments (serpapi_data : DataAnalyst.serp_data)
    (origin destination date : string) :
  let records :=
    DataAnalyst._extract_flight_data strptime_strftime serpapi_data origin destination date in
  map DataAnalyst.flights records =
    List.filter (fun segments => negb (Nat.eqb (length segments) 0))
      (map (fun flight_data => default [] (DataAnalyst.fd_flights flight_data))
         (default [] (DataAnalyst.sd_best_flights serpapi_data) ++
          default [] (DataAnalyst.sd_other_flights serpapi_data))%list) /\
  Forall (fun info =>
            DataAnalyst.origin info = origin /\
            DataAnalyst.destination info = destination /\
            DataAnalyst.date info = date /\
            DataAnalyst.data_source info = "SerpAPI") records.
Proof.
  intros records. subst records. rewrite extract_flight_data_omap.
  induction (_ ++ _)%list as [|flight_data offers [IHmap IHall]]; [now split |].
  cbn [omap list_omap map List.filter].
  destruct (DataAnalyst._parse_flight_info strptime_strftime flight_data origin
              destination date) as [info|] eqn:Hparse.
  - assert (Hsegments : DataAnalyst.flights info =
                        default [] (DataAnalyst.fd_flights flight_data) /\
                        default [] (DataAnalyst.fd_flights flight_data) <> [] /\
                        DataAnalyst.origin info = origin /\
                        DataAnalyst.destination info = destination /\
                        DataAnalyst.date info = date /\
                        DataAnalyst.data_source info = "SerpAPI").
    { unfold DataAnalyst._parse_flight_info in Hparse.
      destruct (default [] (DataAnalyst.fd_flights flight_data)); [discriminate |].
      injection Hparse as <-. now repeat split. }
    destruct Hsegments as (Hflights & Hne & Hrest).
    destruct (default [] (DataAnalyst.fd_flights flight_data)) as [|first rest] eqn:Hf;
      [contradiction |].
    cbn [map length Nat.eqb negb]. split; [now rewrite Hflights, IHmap |].
    constructor; [exact Hrest | exact IHall].
  - apply parse_flight_info_none in Hparse. rewrite Hparse.
    cbn [length Nat.eqb negb]. split; [exact IHmap | exact IHall].
Qed.

(** Where every element maps to something, [omap] keeps the length. *)
Lemma omap_imap_all_some {A B C : Type} (g : B -> option C) (f : nat -> A -> B)
    (l : list A) :
  (forall i x, l !! i = Some x -> is_Some (g (f i x))) ->
  length (omap g (imap f l)) = length l.
Proof.
  revert f. induction l as [|x l IH]; intros f Hall; [reflexivity |].
  simpl. destruct (Hall 0%nat x eq_refl) as [y ->]. simpl. f_equal.
  apply IH. intros i x' Hx. exact (Hall (S i) x' Hx).
Qed.

(** A segment is followed by a layover exactly when it is not the last. *)
Lemma layover_after_is_some (flights : list DataAnalyst.segment)
    (serpapi_layovers : list DataAnalyst.layover) (i : nat)
    (segment_arrival : DataAnalyst.airport) :
  is_Some (DataAnalyst.layover_after strptime_strftime flights serpapi_layovers i
             segment_arrival)
  <-> (S i < length flights)%nat.
Proof.
  unfold DataAnalyst.layover_after. rewrite <- lookup_lt_is_Some.
  destruct (flights !! S i); [| split; intros [x Hx]; discriminate Hx].
  destruct (serpapi_layovers !! i); split; intros _; eexists; reflexivity.
Qed.

(** The layovers of the connections made from a list of segments: one per
    segment but the last. *)
Lemma layovers_count (flights : list DataAnalyst.segment)
    (serpapi_layovers : list DataAnalyst.layover) (airline_name date : string) :
  length
    (omap (fun connection =>
             (fun layover_info => DataAnalyst.layover_entry_of layover_info date)
               <$> DataAnalyst.layoverInfo connection)
          (imap (DataAnalyst.connection_of strptime_strftime flights serpapi_layovers
                   airline_name) flights))
  = (length flights - 1)%nat.
Proof.
  destruct flights as [|first rest]; [reflexivity |].
  destruct (exists_last (l := first :: rest) ltac:(discriminate)) as (init & final & Hsplit).
  set (flights := first :: rest) in *.
  set (F := DataAnalyst.connection_of strptime_strftime flights serpapi_layovers airline_name).
  assert (Hlen : length flights = S (length init)).
  { rewrite Hsplit, List.length_app. simpl. lia. }
  replace (imap F flights) with (imap F (init ++ [final])) by (now rewrite <- Hsplit).
  rewrite Hlen, imap_app, omap_app, List.length_app.
  rewrite omap_imap_all_some.
  - simpl.
    destruct (DataAnalyst.layover_after _ _ _ _ _) as [x|] eqn:E.
    + assert (Hsome : is_Some (DataAnalyst.layover_after strptime_strftime flights
                                 serpapi_layovers (length init + 0)
                                 (default DataAnalyst.no_airport
                                    (DataAnalyst.seg_arrival_airport final))))
        by (rewrite E; eexists; reflexivity).
      apply layover_after_is_some in Hsome. lia.
    + simpl. lia.
  - intros i x Hx. unfold F. simpl.
    assert (Hi : (i < length init)%nat) by (apply lookup_lt_is_Some; eexists; exact Hx).
    assert (Hsome : is_Some (DataAnalyst.layover_after strptime_strftime flights
                               serpapi_layovers i
                               (default DataAnalyst.no_airport
                                  (DataAnalyst.seg_arrival_airport x))))
      by (apply layover_after_is_some; lia).
    destruct Hsome as [y ->]. eexists; reflexivity.
Qed.

(** The lists of a parsed record, as [_parse_flight_info] builds them. *)
Lemma parsed_lists (flight_data : DataAnalyst.flight_data)
    (origin destination date : string) (info : DataAnalyst.flight_info) :
  DataAnalyst._parse_flight_info strptime_strftime flight_data origin destination date
    = Some info ->
  let flights := default [] (DataAnalyst.fd_flights flight_data) in
  let serpapi_layovers := default [] (DataAnalyst.fd_layovers flight_data) in
  exists airline_name,
    flights <> [] /\
    DataAnalyst.flights info = flights /\
    DataAnalyst.connections info =
      (if (0 <? length serpapi_layovers)%nat || (1 <? length flights)%nat
       then imap (DataAnalyst.connection_of strptime_strftime flights serpapi_layovers
                    airline_name) flights
       else []) /\
    DataAnalyst.layovers info =
      omap (fun connection =>
              (fun layover_info => DataAnalyst.layover_entry_of layover_info date)
                <$> DataAnalyst.layoverInfo connection)
           (DataAnalyst.connections info) /\
    DataAnalyst.number_of_stops info = length (DataAnalyst.layovers info).
Proof.
  unfold DataAnalyst._parse_flight_info.
  destruct (default [] (DataAnalyst.fd_flights flight_data)) as [|first rest];
    [discriminate |].
  intros [= <-]. exists (default "Unknown" (DataAnalyst.seg_airline first)).
  split; [discriminate | repeat split].
Qed.

(** X8. The shape of a flight record made from [n] segments: it keeps the
    segments, counts [n - 1] stops and lists as many layovers; it has one
    connection per segment when there are several segments or the provider
    lists a layover, and none at all for a direct flight without provider
    layovers; a connection carries a layover exactly when it is not the
    last one, and is identified by its position. *)
Theorem flight_record_shape (flight_data : DataAnalyst.flight_data)
    (origin destination date : string) (info : DataAnalyst.flight_info) :
  DataAnalyst._parse_flight_info strptime_strftime flight_data origin destination date
    = Some info ->
  let n := length (default [] (DataAnalyst.fd_flights flight_data)) in
  (1 <= n)%nat /\
  DataAnalyst.flights info = default [] (DataAnalyst.fd_flights flight_data) /\
  DataAnalyst.number_of_stops info = (n - 1)%nat /\
  length (DataAnalyst.layovers info) = (n - 1)%nat /\
  ((1 < n)%nat \/ default [] (DataAnalyst.fd_layovers flight_data) <> [] ->
   length (DataAnalyst.connections info) = n) /\
  (n = 1%nat -> default [] (DataAnalyst.fd_layovers flight_data) = [] ->
   DataAnalyst.connections info = []) /\
  (forall i conn,
     DataAnalyst.connections info !! i = Some conn ->
     (is_Some (DataAnalyst.layoverInfo conn) <-> (S i < n)%nat) /\
     DataAnalyst.conn_id conn = "segment_" +:+ Py.str_of_int (Z.of_nat i)).
Proof.
  intros Hparse n.
  assert (Hconn : forall i conn,
     DataAnalyst.connections info !! i = Some conn ->
     (is_Some (DataAnalyst.layoverInfo conn) <-> (S i < n)%nat) /\
     DataAnalyst.conn_id conn = "segment_" +:+ Py.str_of_int (Z.of_nat i)).
  { intros i conn Hi.
    destruct (parsed_connection strptime_strftime _ _ _ _ _ _ _ Hparse Hi)
      as (segment & _ & ->).
    split; [apply layover_after_is_some | reflexivity]. }
  destruct (parsed_lists _ _ _ _ _ Hparse)
    as (airline_name & Hne & Hflights & Hconnections & Hlayovers & Hstops).
  fold n in Hconnections.
  assert (Hn : (1 <= n)%nat).
  { subst n. destruct (default [] (DataAnalyst.fd_flights flight_data));
      [contradiction | simpl; lia]. }
  assert (Hcount : length (DataAnalyst.layovers info) = (n - 1)%nat).
  { rewrite Hlayovers, Hconnections.
    destruct ((0 <? length (default [] (DataAnalyst.fd_layovers flight_data)))%nat
              || (1 <? n)%nat) eqn:Hhas.
    - apply layovers_count.
    - apply orb_false_iff in Hhas as [_ Hone]. apply Nat.ltb_ge in Hone. simpl. lia. }
  split; [exact Hn |]. split; [exact Hflights |].
  split; [now rewrite Hstops |]. split; [exact Hcount |].
  split; [| split; [| exact Hconn]].
  - intros Hhas. rewrite Hconnections.
    assert (Htrue : (0 <? length (default [] (DataAnalyst.fd_layovers flight_data)))%nat
                    || (1 <? n)%nat = true).
    { apply orb_true_iff. destruct Hhas as [Hmany|Hlisted].
      - right. now apply Nat.ltb_lt.
      - left. apply Nat.ltb_lt.
        destruct (default [] (DataAnalyst.fd_layovers flight_data));
          [contradiction | simpl; lia]. }
    rewrite Htrue. apply length_imap.
  - intros Hone Hnone. rewrite Hconnections, Hnone, Hone. reflexivity.
Qed.

End RoutesAndRecords.

Lemma flights_key_alone_gives_no_records_witness :
  DataAnalyst.rr_flights
    (DataAnalyst.analyze_route no_clock
       (DataAnalyst.Responded 200 "OK" "https://serpapi.com/search" flights_only_response)
       "JFK" "LAX" "2025-07-04" None) = [].
Proof.
  exact (proj2 (proj2 (flights_key_alone_gives_no_records no_clock 200 "OK"
                         "https://serpapi.com/search" flights_only_response
                         "JFK" "LAX" "2025-07-04" None
                         eq_refl eq_refl eq_refl eq_refl))).
Defined.

Lemma flight_record_shape_witness :
  (exists info,
     DataAnalyst._parse_flight_info no_clock example_itinerary "JFK" "LAX" "2025-07-04"
       = Some info /\
     DataAnalyst.number_of_stops info = 2%nat /\
     length (DataAnalyst.connections info) = 3%nat) /\
  (exists info,
     DataAnalyst._parse_flight_info no_clock example_unnumbered "JFK" "LAX" "2025-07-04"
       = Some info /\
     DataAnalyst.number_of_stops info = 0%nat /\
     DataAnalyst.connections info = []).
Proof.
  split; eexists; (split; [reflexivity |]).
  - destruct (flight_record_shape no_clock example_itinerary "JFK" "LAX" "2025-07-04"
                _ eq_refl) as (_ & _ & Hstops & _ & Hmany & _).
    split; [exact Hstops |]. apply Hmany. left. simpl. lia.
  - destruct (flight_record_shape no_clock example_unnumbered "JFK" "LAX" "2025-07-04"
                _ eq_refl) as (_ & _ & Hstops & _ & _ & Hdirect & _).
    split; [exact Hstops |]. now apply Hdirect.
Defined.

(** ** Integers as decimal text *)

Lemma int_digits_acc (d : Decimal.uint) (acc : positive) :
  Py.int_digits (Z.pos acc) true (NilEmpty.string_of_uint d) =
  Some (Z.pos (Pos.of_uint_acc d acc)).
Proof.
  revert acc. induction d; intros acc; simpl; [reflexivity | ..];
    rewrite <- IHd; f_equal; lia.
Qed.

Lemma int_digits_uint (d : Decimal.uint) (b : bool) :
  b = true \/ d <> Decimal.Nil ->
  Py.int_digits 0 b (NilEmpty.string_of_uint d) = Some (Z.of_N (Pos.of_uint d)).
Proof.
  revert b. induction d; intros b Hb;
    try (simpl; exact (int_digits_acc d _)).
  - destruct Hb as [->|H]; [reflexivity | contradiction].
  - simpl. apply IHd. now left.
Qed.

Lemma rstrip_int_blank_uint (d : Decimal.uint) :
  Py.rstrip_with Py.is_int_blank (NilEmpty.string_of_uint d) = NilEmpty.string_of_uint d.
Proof.
  induction d; simpl; [reflexivity | ..]; rewrite IHd;
    now destruct (NilEmpty.string_of_uint d).
Qed.

Lemma rstrip_uint (d : Decimal.uint) :
  Py.rstrip (NilEmpty.string_of_uint d) = NilEmpty.string_of_uint d.
Proof.
  unfold Py.rstrip.
  induction d; simpl; [reflexivity | ..]; rewrite IHd;
    now destruct (NilEmpty.string_of_uint d).
Qed.

Lemma nilzero_string_of_uint (d : Decimal.uint) :
  d <> Decimal.Nil -> NilZero.string_of_uint d = NilEmpty.string_of_uint d.
Proof. destruct d; [contradiction | reflexivity ..]. Qed.

Lemma int_of_str_uint (d : Decimal.uint) :
  d <> Decimal.Nil ->
  Py.int_of_str (NilEmpty.string_of_uint d) = Some (Z.of_N (Pos.of_uint d)).
Proof.
  intros Hd. rewrite <- (int_digits_uint d false) by (now right).
  unfold Py.int_of_str. rewrite rstrip_int_blank_uint.
  destruct d; [contradiction | reflexivity ..].
Qed.

Lemma int_of_str_neg_uint (d : Decimal.uint) :
  d <> Decimal.Nil ->
  Py.int_of_str (String "-" (NilEmpty.string_of_uint d)) =
  Some (- Z.of_N (Pos.of_uint d)).
Proof.
  intros Hd.
  transitivity (option_map Z.opp (Py.int_digits 0 false (NilEmpty.string_of_uint d))).
  - unfold Py.int_of_str. cbn [Py.rstrip_with]. rewrite rstrip_int_blank_uint.
    destruct d; [contradiction | reflexivity ..].
  - now rewrite int_digits_uint by (now right).
Qed.

(** [int] reads back what [str] writes. *)
Lemma int_of_str_of_int (n : Z) : Py.int_of_str (Py.str_of_int n) = Some n.
Proof.
  destruct n as [|p|p]; [reflexivity | |];
    pose proof (DecimalPos.Unsigned.to_uint_nonnil p) as Hnil;
    unfold Py.str_of_int, Z.to_int, NilZero.string_of_int;
    rewrite (nilzero_string_of_uint _ Hnil).
  - now rewrite (int_of_str_uint _ Hnil), DecimalPos.Unsigned.of_to.
  - now rewrite (int_of_str_neg_uint _ Hnil), DecimalPos.Unsigned.of_to.
Qed.

Lemma app_assoc_str (s t u : string) : (s +:+ t) +:+ u = s +:+ t +:+ u.
Proof. induction s as [|c s IH]; [reflexivity | now rewrite !app_cons, IH]. Qed.

Lemma lstrip_app_blank (blanks s : string) :
  Py.lstrip blanks = "" -> Py.lstrip (blanks +:+ s) = Py.lstrip s.
Proof.
  unfold Py.lstrip. induction blanks as [|c blanks IH]; intros H; [reflexivity |].
  rewrite app_cons. simpl in *. destruct (Py.isspace c); [now apply IH | discriminate H].
Qed.

Lemma rstrip_app_blank (s blanks : string) :
  Py.rstrip blanks = "" -> Py.rstrip (s +:+ blanks) = Py.rstrip s.
Proof.
  unfold Py.rstrip. intros H. induction s as [|c s IH]; [exact H |].
  rewrite app_cons. simpl. now rewrite IH.
Qed.

(** Blanks around a text that neither starts nor ends with one are what
    [strip] removes. *)
Lemma strip_padded (before s after : string) :
  Py.lstrip before = "" -> Py.rstrip after = "" ->
  s <> "" -> Py.rstrip s = s -> Py.lstrip s = s ->
  Py.strip (before +:+ s +:+ after) = s.
Proof.
  intros Hb Ha Hne Hr Hl. unfold Py.strip.
  rewrite <- app_assoc_str, (rstrip_app_blank _ _ Ha).
  rewrite (rstrip_app_keep before s Hne Hr).
  now rewrite (lstrip_app_blank _ _ Hb).
Qed.

(** The decimal text of an integer has no blank at either end. *)
Lemma str_of_int_unpadded (n : Z) :
  Py.str_of_int n <> "" /\
  Py.rstrip (Py.str_of_int n) = Py.str_of_int n /\
  Py.lstrip (Py.str_of_int n) = Py.str_of_int n.
Proof.
  destruct n as [|p|p]; [repeat split; discriminate | |];
    pose proof (DecimalPos.Unsigned.to_uint_nonnil p) as Hnil;
    unfold Py.str_of_int, Z.to_int, NilZero.string_of_int;
    rewrite (nilzero_string_of_uint _ Hnil).
  - split; [| split].
    + destruct (Pos.to_uint p); [contradiction | discriminate ..].
    + apply rstrip_uint.
    + destruct (Pos.to_uint p); reflexivity.
  - split; [discriminate |]. split; [| reflexivity].
    unfold Py.rstrip. cbn [Py.rstrip_with]. fold Py.rstrip. rewrite rstrip_uint.
    destruct (Pos.to_uint p); [contradiction | reflexivity ..].
Qed.

(** X9. When the service answers the duration prompt with the decimal text
    of an integer [n], with or without blanks around it, the duration
    parses to [n]; the call consumes that one answer and records one
    duration prompt. *)
Theorem parse_duration_reads_decimal (self : Layover.LayoverAnalysisAgent)
    (model : Layover.GenerativeModel) (duration_str before after : string) (n : Z)
    (rest : list reply) (w : world) :
  Layover.gemini_model self = Some model ->
  Py.lstrip before = "" ->
  Py.rstrip after = "" ->
  replies w = Text (before +:+ Py.str_of_int n +:+ after) :: rest ->
  Layover._parse_duration_with_ai self duration_str w =
  (Some n,
   {| replies := rest;
      calls := calls w ++ [DurationPrompt duration_str];
      utcnow := utcnow w |}).
Proof.
  intros Hm Hb Ha Hr.
  destruct (str_of_int_unpadded n) as (Hne & Hrs & Hls).
  unfold Layover._parse_duration_with_ai, bind, generate_content, ret.
  rewrite Hm, Hr. simpl.
  now rewrite (strip_padded before _ after Hb Ha Hne Hrs Hls), int_of_str_of_int.
Qed.

Lemma parse_duration_reads_decimal_witness :
  let self := {| Layover.gemini_model := Some (Layover.GenerativeModelNamed "gemini-2.0-flash") |} in
  let w := {| replies := [Text (" " +:+ Py.str_of_int 95 +:+ String "010" "")];
              calls := []; utcnow := "" |} in
  fst (Layover._parse_duration_with_ai self "1h 35m" w) = Some 95.
Proof.
  cbv zeta.
  rewrite (parse_duration_reads_decimal
             {| Layover.gemini_model := Some (Layover.GenerativeModelNamed "gemini-2.0-flash") |}
             (Layover.GenerativeModelNamed "gemini-2.0-flash") "1h 35m"
             " " (String "010" "") 95 []
             {| replies := [Text (" " +:+ Py.str_of_int 95 +:+ String "010" "")];
                calls := []; utcnow := "" |}
             eq_refl eq_refl eq_refl eq_refl).
  reflexivity.
Defined.

(** ** More on duration formatting *)

(** X10. The legacy formatter accepts a number written as text: the
    decimal text of an integer is formatted exactly like the integer. *)
Theorem legacy_format_reads_numeric_text (n : Z) :
  DataAnalyst._format_duration (PStr (Py.str_of_int n)) =
  DataAnalyst._format_duration (PInt n).
Proof.
  unfold DataAnalyst._format_duration. simpl. now rewrite int_of_str_of_int.
Qed.

(** X11. For negative minutes the legacy formatter shows neither a sign nor
    hours: it answers the remainder of the minutes modulo 60, a number from
    0 to 59, followed by "m" (so -125 reads "55m"), where
    [_format_duration_from_minutes] answers "Unknown". *)
Theorem legacy_format_wraps_negative (d : Z) :
  d < 0 ->
  DataAnalyst._format_duration (PInt d) = Ok (Py.str_of_int (d mod 60) +:+ "m") /\
  0 <= d mod 60 < 60 /\
  DataAnalyst._format_duration_from_minutes d = "Unknown".
Proof.
  intros Hd. unfold DataAnalyst._format_duration, DataAnalyst.hours_minutes,
    DataAnalyst._format_duration_from_minutes. simpl.
  assert (Hh : d / 60 < 0) by (apply Z.div_lt_upper_bound; lia).
  destruct (Z.ltb_spec 0 (d / 60)); [lia |]. simpl.
  split; [reflexivity |]. split; [apply Z.mod_pos_bound; lia |].
  destruct (Z.leb_spec d 0); [reflexivity | lia].
Qed.

Lemma legacy_format_wraps_negative_witness :
  DataAnalyst._format_duration (PInt (-125)) = Ok "55m".
Proof.
  destruct (legacy_format_wraps_negative (-125) ltac:(lia)) as [H _].
  rewrite H. reflexivity.
Defined.

(** ** More on airline codes and flight numbers *)

(** A character of [A-Z0-9] is its own upper case and is no blank. *)
Lemma code_char_plain (c : ascii) :
  DataAnalyst.is_code_char c = true -> Py.upper_char c = c /\ Py.isspace c = false.
Proof.
  destruct c as [[|] [|] [|] [|] [|] [|] [|] [|]]; intros H;
    try discriminate H; split; reflexivity.
Qed.

(** A text that is its own code prefix is made of characters of [A-Z0-9]
    only, and of at most [n] of them. *)
Lemma code_text_plain (n : nat) (s : string) :
  DataAnalyst.code_prefix n s = s ->
  (String.length s <= n)%nat /\ Py.upper s = s /\ Py.rstrip s = s /\ Py.lstrip s = s.
Proof.
  unfold Py.upper, Py.rstrip, Py.lstrip.
  revert n. induction s as [|c s IH]; intros n H; [repeat split; simpl; lia |].
  destruct n as [|n]; [discriminate H |]. simpl in H.
  destruct (DataAnalyst.is_code_char c) eqn:Hc; [| discriminate H].
  injection H as H. destruct (IH n H) as (Hlen & Hup & Hr & _).
  destruct (code_char_plain c Hc) as [Huc Hsp].
  split; [simpl; lia |]. simpl. rewrite Huc, Hup, Hr, Hsp.
  repeat split. now destruct s.
Qed.

Lemma startswith_refl (s : string) : Py.startswith s s = true.
Proof. induction s as [|c s IH]; [reflexivity | simpl; now rewrite Ascii.eqb_refl]. Qed.

Lemma drop_all (s : string) : Py.drop (String.length s) s = "".
Proof. induction s as [|c s IH]; [reflexivity | exact IH]. Qed.

(** X12. A flight number that consists of two or three characters of
    [A-Z0-9] and nothing else (a bare carrier code, or a number of up to
    three digits) is taken whole as the airline code, whatever the airline
    name; cleaning then finds nothing left after the code and keeps the
    number as it is, so the formatted flight number, code followed by
    cleaned number, repeats the text twice. *)
Theorem short_flight_number_is_doubled (flight_number airline_name : string) :
  (2 <= String.length flight_number)%nat ->
  DataAnalyst.code_prefix 3 flight_number = flight_number ->
  let airline_code := DataAnalyst._extract_airline_code flight_number airline_name in
  airline_code = flight_number /\
  DataAnalyst._clean_flight_number flight_number airline_code = flight_number /\
  airline_code +:+ DataAnalyst._clean_flight_number flight_number airline_code =
    flight_number +:+ flight_number.
Proof.
  intros Hlen Hcode.
  destruct (code_text_plain 3 flight_number Hcode) as (Hle & Hup & Hr & Hl).
  assert (Hne : flight_number <> "") by (destruct flight_number; [simpl in Hlen; lia | discriminate]).
  assert (Hextract : DataAnalyst._extract_airline_code flight_number airline_name
                     = flight_number).
  { rewrite extract_airline_code_from_number; [now rewrite Hup, Hcode | exact Hlen |].
    now rewrite Hup, Hcode. }
  assert (Hclean : DataAnalyst._clean_flight_number flight_number flight_number
                   = flight_number).
  { unfold DataAnalyst._clean_flight_number, Py.strip.
    rewrite Hup, Hr, Hl, startswith_refl, drop_all. simpl.
    now destruct (_ || _). }
  cbv zeta. rewrite Hextract, Hclean. repeat split.
Qed.

Lemma short_flight_number_is_doubled_witness :
  DataAnalyst._extract_airline_code "41" "Alaska" +:+
  DataAnalyst._clean_flight_number "41" (DataAnalyst._extract_airline_code "41" "Alaska")
  = "4141".
Proof.
  destruct (short_flight_number_is_doubled "41" "Alaska" ltac:(simpl; lia) eq_refl)
    as (_ & _ & H).
  exact H.
Defined.

(** The words that [split] gives are not empty. *)
Lemma rev_app_not_empty (s acc : string) : acc <> "" -> String.rev_app s acc <> "".
Proof.
  revert acc. induction s as [|c s IH]; intros acc H; [exact H |].
  simpl. apply IH. discriminate.
Qed.

Lemma split_go_words (s : string) (cur : option string) :
  (forall w, cur = Some w -> w <> "") ->
  Forall (fun w => w <> "") (Py.split_go cur s).
Proof.
  revert cur. induction s as [|c s IH]; intros cur Hcur; simpl.
  - destruct cur as [w|]; [| constructor].
    constructor; [| constructor].
    specialize (Hcur w eq_refl). destruct w as [|a w]; [contradiction |].
    unfold String.rev. simpl. apply rev_app_not_empty. discriminate.
  - destruct (Py.isspace c).
    + destruct cur as [w|]; [| apply IH; discriminate].
      constructor; [| apply IH; discriminate].
      specialize (Hcur w eq_refl). destruct w as [|a w]; [contradiction |].
      unfold String.rev. simpl. apply rev_app_not_empty. discriminate.
    + apply IH. intros w [= <-]. discriminate.
Qed.

Lemma airline_mapping_codes (key airline_code : string) :
  Dict.get key DataAnalyst.airline_mapping = Some airline_code ->
  String.length airline_code = 2%nat.
Proof.
  unfold DataAnalyst.airline_mapping. simpl.
  repeat (destruct (String.eqb key _); [now intros [= <-] |]).
  discriminate.
Qed.

(** X13. An airline code is never empty: it is "Unknown", or it has one to
    three characters (a prefix of the flight number, a two-letter code of
    the table, or two initials). *)
Theorem airline_code_shape (flight_number airline_name : string) :
  let airline_code := DataAnalyst._extract_airline_code flight_number airline_name in
  airline_code = "Unknown" \/ (1 <= String.length airline_code <= 3)%nat.
Proof.
  cbv zeta.
  destruct (Nat.leb_spec 2 (String.length flight_number)) as [Hlen|Hshort].
  - destruct (String.eqb_spec (DataAnalyst.code_prefix 3 (Py.upper flight_number)) "")
      as [Hempty|Hne].
    + rewrite extract_airline_code_from_name by (now right).
      destruct (Dict.get _ _) as [airline_code|] eqn:Htable.
      * right. rewrite (airline_mapping_codes _ _ Htable). lia.
      * destruct (2 <=? String.length airline_name)%nat; [| now left].
        pose proof (split_go_words (Py.upper airline_name) None ltac:(discriminate)) as Hwords.
        fold (Py.split (Py.upper airline_name)) in Hwords.
        destruct (Py.split (Py.upper airline_name)) as [|w0 [|w1 ws]]; [now left | now left |].
        right. inversion Hwords as [|? ? H0 Hrest]; subst.
        inversion Hrest as [|? ? H1 _]; subst.
        destruct w0; [contradiction |]. destruct w1; [contradiction |]. simpl. lia.
    + right. rewrite extract_airline_code_from_number by assumption.
      destruct (code_prefix_longest 3 (Py.upper flight_number)) as [Hle _].
      split; [| exact Hle].
      destruct (DataAnalyst.code_prefix 3 (Py.upper flight_number));
        [contradiction | simpl; lia].
  - rewrite extract_airline_code_from_name by (now left).
    destruct (Dict.get _ _) as [airline_code|] eqn:Htable.
    + right. rewrite (airline_mapping_codes _ _ Htable). lia.
    + destruct (2 <=? String.length airline_name)%nat; [| now left].
      pose proof (split_go_words (Py.upper airline_name) None ltac:(discriminate)) as Hwords.
      fold (Py.split (Py.upper airline_name)) in Hwords.
      destruct (Py.split (Py.upper airline_name)) as [|w0 [|w1 ws]]; [now left | now left |].
      right. inversion Hwords as [|? ? H0 Hrest]; subst.
      inversion Hrest as [|? ? H1 _]; subst.
      destruct w0; [contradiction |]. destruct w1; [contradiction |]. simpl. lia.
Qed.

(** ** More on flight records *)

Section MoreRecords.

Variable strptime_strftime : string -> option string.

(** X14. A segment without [flight_number] is read with the default
    "Unknown", and the code extraction takes the first three letters of
    that word for a carrier code: the record of an offer whose first
    segment has no flight number carries the airline code "UNK" and the
    flight number "UNKNOWN", whatever the airline, and so does the
    connection of every segment without a flight number. *)
Theorem missing_flight_number_reads_as_code (flight_data : DataAnalyst.flight_data)
    (origin destination date : string) (info : DataAnalyst.flight_info) :
  DataAnalyst._parse_flight_info strptime_strftime flight_data origin destination date
    = Some info ->
  (forall first,
     head (default [] (DataAnalyst.fd_flights flight_data)) = Some first ->
     DataAnalyst.seg_flight_number first = None ->
     DataAnalyst.airline_code info = "UNK" /\
     DataAnalyst.flight_number info = "UNKNOWN") /\
  (forall i conn segment,
     DataAnalyst.connections info !! i = Some conn ->
     default [] (DataAnalyst.fd_flights flight_data) !! i = Some segment ->
     DataAnalyst.seg_flight_number segment = None ->
     DataAnalyst.conn_flight_number conn = "UNKNOWN").
Proof.
  intros Hparse. split.
  - intros first Hfirst Hnumber. revert Hparse.
    unfold DataAnalyst._parse_flight_info.
    destruct (default [] (DataAnalyst.fd_flights flight_data)) as [|first' rest];
      [discriminate |].
    injection Hfirst as ->. intros [= <-]. simpl. rewrite Hnumber. now split.
  - intros i conn segment Hconn Hsegment Hnumber.
    destruct (parsed_connection strptime_strftime _ _ _ _ _ _ _ Hparse Hconn)
      as (segment' & Hsegment' & ->).
    rewrite Hsegment in Hsegment'. injection Hsegment' as <-.
    unfold DataAnalyst.connection_of. simpl. now rewrite Hnumber.
Qed.

(** X15. The duration of a flight record is "Unknown" exactly when the
    offer has no positive [total_duration]; the record keeps the number of
    minutes, 0 for a missing one. *)
Theorem flight_duration_unknown_iff (flight_data : DataAnalyst.flight_data)
    (origin destination date : string) (info : DataAnalyst.flight_info) :
  DataAnalyst._parse_flight_info strptime_strftime flight_data origin destination date
    = Some info ->
  DataAnalyst.total_duration info = default 0 (DataAnalyst.fd_total_duration flight_data) /\
  (DataAnalyst.duration info = "Unknown" <-> DataAnalyst.total_duration info <= 0) /\
  (0 < DataAnalyst.total_duration info ->
   DataAnalyst._format_duration (PInt (DataAnalyst.total_duration info))
     = Ok (DataAnalyst.duration info)).
Proof.
  unfold DataAnalyst._parse_flight_info.
  destruct (default [] (DataAnalyst.fd_flights flight_data)) as [|first rest];
    [discriminate |].
  intros [= <-]. simpl. split; [reflexivity |].
  destruct (Z.ltb_spec 0 (default 0 (DataAnalyst.fd_total_duration flight_data)))
    as [Hpos|Hle].
  - split; [| intros _; now apply formatters_agree_on_positive].
    split; [| lia]. intros Hunknown. now apply format_positive_not_unknown in Hunknown.
  - split; [| lia]. split; [intros _; exact Hle | reflexivity].
Qed.

(** X16. The duration of a layover in a flight record is "Unknown" exactly
    when the provider listed no layover for that gap: a listed layover
    always has a formatted duration, a made-up one never has. *)
Theorem layover_duration_unknown_iff (flight_data : DataAnalyst.flight_data)
    (origin destination date : string) (info : DataAnalyst.flight_info)
    (i : nat) (conn : DataAnalyst.connection) (layover_info : DataAnalyst.layover_info) :
  DataAnalyst._parse_flight_info strptime_strftime flight_data origin destination date
    = Some info ->
  DataAnalyst.connections info !! i = Some conn ->
  DataAnalyst.layoverInfo conn = Some layover_info ->
  (DataAnalyst.li_duration layover_info = "Unknown"
   <-> (length (default [] (DataAnalyst.fd_layovers flight_data)) <= i)%nat).
Proof.
  intros Hparse Hconn Hinfo.
  destruct (parsed_connection strptime_strftime _ _ _ _ _ _ _ Hparse Hconn)
    as (segment & _ & ->).
  revert Hinfo. unfold DataAnalyst.connection_of. cbn [DataAnalyst.layoverInfo].
  unfold DataAnalyst.layover_after.
  destruct (default [] (DataAnalyst.fd_flights flight_data) !! S i) as [next_segment|];
    [| discriminate].
  rewrite <- lookup_ge_None.
  destruct (default [] (DataAnalyst.fd_layovers flight_data) !! i) as [layover_data|];
    intros [= <-].
  - rewrite provided_layover_duration. split; [| discriminate].
    intros Hunknown. apply format_positive_not_unknown in Hunknown; [contradiction |].
    destruct (Z.leb_spec (default 0 (DataAnalyst.lay_duration layover_data)) 0); lia.
  - split; reflexivity.
Qed.

(** The connections of an offer with two or more segments read the list of
    provider layovers only below the number of gaps. *)
Lemma connections_read_gaps_only (flights : list DataAnalyst.segment)
    (layovers1 layovers2 : list DataAnalyst.layover) (airline_name : string) :
  (forall i, (S i < length flights)%nat -> layovers1 !! i = layovers2 !! i) ->
  imap (DataAnalyst.connection_of strptime_strftime flights layovers1 airline_name) flights =
  imap (DataAnalyst.connection_of strptime_strftime flights layovers2 airline_name) flights.
Proof.
  intros Hagree. apply imap_ext. intros i segment Hi.
  unfold DataAnalyst.connection_of. f_equal.
  unfold DataAnalyst.layover_after.
  destruct (flights !! S i) as [next_segment|] eqn:Hnext; [| reflexivity].
  rewrite Hagree; [reflexivity |].
  apply lookup_lt_is_Some. now exists next_segment.
Qed.

(** X17. An offer with two or more segments has one gap less than
    segments, and surplus entries of the provider's layover list are never
    read: cutting the list down to the number of gaps gives the same
    record. *)
Theorem surplus_layovers_are_ignored (flight_data : DataAnalyst.flight_data)
    (origin destination date : string) :
  let n := length (default [] (DataAnalyst.fd_flights flight_data)) in
  (2 <= n)%nat ->
  DataAnalyst._parse_flight_info strptime_strftime
    (with_layovers flight_data
       (take (n - 1) (default [] (DataAnalyst.fd_layovers flight_data))))
    origin destination date =
  DataAnalyst._parse_flight_info strptime_strftime flight_data origin destination date.
Proof.
  intros n Hn. unfold DataAnalyst._parse_flight_info, with_layovers.
  cbn [DataAnalyst.fd_flights DataAnalyst.fd_layovers DataAnalyst.fd_total_duration
       DataAnalyst.fd_price DataAnalyst.fd_type].
  fold n.
  destruct (default [] (DataAnalyst.fd_flights flight_data)) as [|first rest] eqn:Hflights;
    [reflexivity |].
  assert (Hmany : (1 <? n)%nat = true) by (apply Nat.ltb_lt; lia).
  rewrite Hmany, !orb_true_r.
  cbn [default option_map from_option].
  rewrite (connections_read_gaps_only (first :: rest)
             (take (n - 1) (default [] (DataAnalyst.fd_layovers flight_data)))
             (default [] (DataAnalyst.fd_layovers flight_data))); [reflexivity |].
  intros i Hi. apply lookup_take_lt. subst n. lia.
Qed.

End MoreRecords.

Lemma missing_flight_number_reads_as_code_witness :
  exists info,
    DataAnalyst._parse_flight_info no_clock example_unnumbered "JFK" "LAX" "2025-07-04"
      = Some info /\
    DataAnalyst.airline_code info = "UNK" /\
    DataAnalyst.flight_number info = "UNKNOWN".
Proof.
  eexists. split; [reflexivity |].
  exact (proj1 (missing_flight_number_reads_as_code no_clock example_unnumbered
                  "JFK" "LAX" "2025-07-04" _ eq_refl) _ eq_refl eq_refl).
Defined.

Lemma flight_duration_unknown_iff_witness :
  exists info,
    DataAnalyst._parse_flight_info no_clock example_itinerary "JFK" "LAX" "2025-07-04"
      = Some info /\
    DataAnalyst.total_duration info = 600 /\
    (DataAnalyst.duration info = "Unknown" <-> DataAnalyst.total_duration info <= 0).
Proof.
  eexists. split; [reflexivity |].
  destruct (flight_duration_unknown_iff no_clock example_itinerary "JFK" "LAX" "2025-07-04"
              _ eq_refl) as (Htotal & Hunknown & _).
  split; [exact Htotal | exact Hunknown].
Defined.

Lemma layover_duration_unknown_iff_witness :
  exists info conn layover_info,
    DataAnalyst._parse_flight_info no_clock example_itinerary "JFK" "LAX" "2025-07-04"
      = Some info /\
    DataAnalyst.connections info !! 1%nat = Some conn /\
    DataAnalyst.layoverInfo conn = Some layover_info /\
    DataAnalyst.li_duration layover_info = "Unknown".
Proof.
  eexists. eexists. eexists.
  split; [reflexivity |]. split; [reflexivity |]. split; [reflexivity |].
  apply (proj2 (layover_duration_unknown_iff no_clock example_itinerary
                  "JFK" "LAX" "2025-07-04" _ 1%nat _ _ eq_refl eq_refl eq_refl)).
  simpl. lia.
Defined.

Lemma surplus_layovers_are_ignored_witness :
  DataAnalyst._parse_flight_info no_clock
    (with_layovers
       (with_layovers example_itinerary
          [example_layover "ATL" 45; example_layover "DEN" 70; example_layover "SLC" 30])
       [example_layover "ATL" 45; example_layover "DEN" 70])
    "JFK" "LAX" "2025-07-04" =
  DataAnalyst._parse_flight_info no_clock
    (with_layovers example_itinerary
       [example_layover "ATL" 45; example_layover "DEN" 70; example_layover "SLC" 30])
    "JFK" "LAX" "2025-07-04".
Proof.
  apply (surplus_layovers_are_ignored no_clock
           (with_layovers example_itinerary
              [example_layover "ATL" 45; example_layover "DEN" 70; example_layover "SLC" 30])
           "JFK" "LAX" "2025-07-04").
  simpl. lia.
Defined.

(** ** City names and connection times *)

Lemma take_drop_str (n : nat) (s : string) : Py.take n s +:+ Py.drop n s = s.
Proof.
  revert s. induction n as [|n IH]; intros [|c s]; try reflexivity.
  simpl. now rewrite app_cons, IH.
Qed.

Lemma app_empty_r (s : string) : s +:+ "" = s.
Proof. induction s as [|c s IH]; [reflexivity | now rewrite app_cons, IH]. Qed.

Lemma part_of_refl (s : string) : part_of s s.
Proof. exists "", "". now rewrite app_empty_r. Qed.

Lemma part_of_trans (s t u : string) : part_of s t -> part_of t u -> part_of s u.
Proof.
  intros (b1 & a1 & ->) (b2 & a2 & ->).
  exists (b2 +:+ b1), (a1 +:+ a2). now rewrite !app_assoc_str.
Qed.

Lemma part_of_take (n : nat) (s : string) : part_of (Py.take n s) s.
Proof. exists "", (Py.drop n s). now rewrite app_empty_l, take_drop_str. Qed.

Lemma part_of_lstrip (blank : ascii -> bool) (s : string) :
  part_of (Py.lstrip_with blank s) s.
Proof.
  induction s as [|c s IH]; [apply part_of_refl |].
  simpl. destruct (blank c); [| apply part_of_refl].
  destruct IH as (before & after & Hs).
  exists (String c before), after. now rewrite app_cons, <- Hs.
Qed.

Lemma rstrip_is_prefix (blank : ascii -> bool) (s : string) :
  exists after, s = Py.rstrip_with blank s +:+ after.
Proof.
  induction s as [|c s IH]; [now exists "" |].
  destruct IH as (after & Hs). simpl.
  destruct (Py.rstrip_with blank s) as [|c' r] eqn:Hr.
  - destruct (blank c); [now exists (String c s) | now exists s].
  - exists after. now rewrite app_cons, <- Hs.
Qed.

Lemma part_of_rstrip (blank : ascii -> bool) (s : string) :
  part_of (Py.rstrip_with blank s) s.
Proof. destruct (rstrip_is_prefix blank s) as (after & Hs). now exists "", after. Qed.

Lemma part_of_strip (s : string) : part_of (Py.strip s) s.
Proof.
  unfold Py.strip, Py.lstrip, Py.rstrip.
  eapply part_of_trans; [apply part_of_lstrip | apply part_of_rstrip].
Qed.

(** X18. The city taken from an airport name is never empty: it is
    "Unknown", or a piece of the name itself (the suffixes are cut off and
    blanks trimmed, nothing is added or rewritten). *)
Theorem city_from_name_is_part_of_name (airport_name : string) :
  let city := DataAnalyst._extract_city_from_airport_name airport_name in
  city <> "" /\ (city = "Unknown" \/ part_of city airport_name).
Proof.
  cbv zeta. unfold DataAnalyst._extract_city_from_airport_name.
  destruct (String.eqb airport_name "" || String.eqb airport_name "Unknown");
    [split; [discriminate | now left] |].
  match goal with
  | |- context [foldl ?f airport_name ?l] =>
      assert (Hpart : part_of (foldl f airport_name l) airport_name)
  end.
  { generalize DataAnalyst.airport_suffixes as suffixes.
    intros suffixes. generalize (part_of_refl airport_name).
    generalize airport_name at 1 3 as city.
    induction suffixes as [|suffix suffixes IH]; intros city Hcity; [exact Hcity |].
    simpl. apply IH. destruct (Py.endswith city suffix); [| exact Hcity].
    eapply part_of_trans; [apply part_of_strip |].
    eapply part_of_trans; [apply part_of_take | exact Hcity]. }
  destruct (String.eqb_spec
              (foldl (fun city suffix =>
                        if Py.endswith city suffix
                        then Py.strip (Py.drop_end (String.length suffix) city)
                        else city)
                     airport_name DataAnalyst.airport_suffixes) "") as [Hempty|Hne].
  - split; [discriminate | now left].
  - split; [exact Hne | now right].
Qed.

Section ConnectionTimes.

Variable strptime_seconds : string -> option Z.

(** X19. When both times parse, the layover is the whole number of minutes
    between them, unless that is under thirty: then a day is added.  So a
    connection of less than half an hour on the same day is reported as
    one of more than twenty-four hours, and the result is at least thirty
    minutes unless the departure lies more than 23 hours 30 minutes before
    the arrival. *)
Theorem short_gap_rolls_over_to_next_day (arrival_time departure_time : string)
    (arrival_dt departure_dt : Z) :
  arrival_time <> "" -> departure_time <> "" ->
  strptime_seconds arrival_time = Some arrival_dt ->
  strptime_seconds departure_time = Some departure_dt ->
  let gap := Z.quot (departure_dt - arrival_dt) 60 in
  let minutes :=
    DataAnalyst._calculate_layover_minutes strptime_seconds arrival_time departure_time in
  (30 <= gap -> minutes = gap) /\
  (gap < 30 -> minutes = gap + 1440) /\
  (-1410 <= gap -> 30 <= minutes) /\
  (0 <= departure_dt - arrival_dt < 1800 -> 1440 <= minutes < 1470).
Proof.
  intros Harrival Hdeparture Ha Hd gap minutes.
  assert (Hminutes : minutes = if gap <? 30 then gap + 24 * 60 else gap).
  { unfold minutes, DataAnalyst._calculate_layover_minutes.
    apply String.eqb_neq in Harrival, Hdeparture.
    now rewrite Harrival, Hdeparture, Ha, Hd. }
  rewrite Hminutes.
  assert (Hshort : 0 <= departure_dt - arrival_dt < 1800 -> 0 <= gap < 30).
  { intros Hrange. split; [apply Z.quot_pos; lia |].
    apply Z.quot_lt_upper_bound; lia. }
  destruct (Z.ltb_spec gap 30); (split; [| split; [| split]]); lia.
Qed.

End ConnectionTimes.

Lemma short_gap_rolls_over_to_next_day_witness :
  DataAnalyst._calculate_layover_minutes example_timestamps
    "2025-07-18 09:30" "2025-07-18 09:45" = 15 + 1440.
Proof.
  apply (short_gap_rolls_over_to_next_day example_timestamps
           "2025-07-18 09:30" "2025-07-18 09:45" 34200 35100);
    [discriminate | discriminate | reflexivity | reflexivity | reflexivity].
Defined.

(** ** Weather data and its deterministic assessment *)

Lemma deterministic_risk_levels (conditions : string) :
  is_risk_level (fst (Weather.deterministic_risk conditions)).
Proof.
  unfold Weather.deterministic_risk, is_risk_level.
  destruct (Py.any_in Weather.high_risk_terms conditions); [now right; right |].
  destruct (Py.any_in Weather.medium_risk_terms conditions); [now right; left |].
  destruct (Py.any_in Weather.low_risk_terms conditions); now left.
Qed.

(** The assessment is one [Dict.set] under "deterministic_risk", with a
    value that depends on the "conditions" item only. *)
Lemma risk_assessment_is_set (weather_data : pydict) :
  exists level description,
    is_risk_level level /\
    Weather._add_deterministic_risk_assessment weather_data =
      Dict.set "deterministic_risk" (risk_entry level description) weather_data /\
    forall other : pydict,
      Dict.get "conditions" other = Dict.get "conditions" weather_data ->
      Weather._add_deterministic_risk_assessment other =
        Dict.set "deterministic_risk" (risk_entry level description) other.
Proof.
  unfold Weather._add_deterministic_risk_assessment.
  assert (Hstr : forall s,
    exists level description,
      is_risk_level level /\
      (let '(risk_level, risk_description) := Weather.deterministic_risk s in
       (risk_level, risk_description)) = (level, description)).
  { intros s. pose proof (deterministic_risk_levels s) as Hlevel.
    destruct (Weather.deterministic_risk s) as [level description].
    now exists level, description. }
  destruct (Dict.get "conditions" weather_data) as [[| | | |s| |]|] eqn:Hconditions;
    try (exists "medium", "Weather assessment temporarily unavailable";
         split; [now right; left |]; split; [reflexivity |];
         intros other ->; reflexivity).
  - pose proof (deterministic_risk_levels (Py.lower s)) as Hlevel.
    destruct (Weather.deterministic_risk (Py.lower s)) as [level description] eqn:Hrisk.
    exists level, description. split; [exact Hlevel |]. split; [reflexivity |].
    intros other ->. now rewrite Hrisk.
  - pose proof (deterministic_risk_levels (Py.lower "")) as Hlevel.
    destruct (Weather.deterministic_risk (Py.lower "")) as [level description] eqn:Hrisk.
    exists level, description. split; [exact Hlevel |]. split; [reflexivity |].
    intros other ->. now rewrite Hrisk.
Qed.

(** X20. The deterministic assessment adds one item and changes nothing
    else: the result has a "deterministic_risk" entry of level low, medium
    or high, every other key keeps its value, and assessing a second time
    changes nothing. *)
Theorem risk_assessment_adds_one_item (weather_data : pydict) :
  let assessed := Weather._add_deterministic_risk_assessment weather_data in
  (exists level description,
     is_risk_level level /\
     Dict.get "deterministic_risk" assessed = Some (risk_entry level description)) /\
  (forall key, key <> "deterministic_risk" ->
     Dict.get key assessed = Dict.get key weather_data) /\
  Weather._add_deterministic_risk_assessment assessed = assessed.
Proof.
  cbv zeta.
  destruct (risk_assessment_is_set weather_data)
    as (level & description & Hlevel & -> & Hother).
  split; [| split].
  - exists level, description. split; [exact Hlevel | apply dict_get_set_eq].
  - intros key Hkey. apply dict_get_set_ne. congruence.
  - rewrite Hother; [apply dict_set_set |].
    apply dict_get_set_ne. discriminate.
Qed.

(** X21. Whatever the weather request comes to, the data handed to the
    prompt carries a deterministic assessment of level low, medium or
    high; a failed request is assessed as medium. *)
Theorem weather_data_is_always_assessed (outcome : Weather.weather_outcome) :
  (exists level description,
     is_risk_level level /\
     Dict.get "deterministic_risk" (Weather._get_serpapi_weather outcome)
       = Some (risk_entry level description)) /\
  (outcome = Weather.WeatherRequestFailed ->
   Dict.get "deterministic_risk" (Weather._get_serpapi_weather outcome)
     = Some (risk_entry "medium"
               "Weather data temporarily unavailable, using standard assessment") /\
   Dict.get "conditions" (Weather._get_serpapi_weather outcome)
     = Some (PStr "Weather data unavailable")).
Proof.
  assert (Hunavailable :
    exists level description,
      is_risk_level level /\
      Dict.get "deterministic_risk" Weather.weather_unavailable
        = Some (risk_entry level description)).
  { eexists. eexists. split; [| reflexivity]. now right; left. }
  assert (Hassessed : forall weather_info,
    exists level description,
      is_risk_level level /\
      Dict.get "deterministic_risk" (Weather._add_deterministic_risk_assessment weather_info)
        = Some (risk_entry level description)).
  { intros weather_info.
    destruct (risk_assessment_is_set weather_info)
      as (level & description & Hlevel & -> & _).
    exists level, description. split; [exact Hlevel | apply dict_get_set_eq]. }
  split; [| intros ->; now split].
  destruct outcome as [data|]; [| exact Hunavailable].
  unfold Weather._get_serpapi_weather.
  destruct (Dict.get "weather_result" data) as [[| | | | | |raw_weather]|];
    try exact Hunavailable.
  - destruct (Dict.get "weather" raw_weather); [apply Hassessed | exact Hunavailable].
  - destruct (Dict.get "answer_box" data) as [[| | | | | |answer_box]|];
      try exact Hunavailable; [| apply Hassessed].
    destruct (match Dict.get "type" answer_box with
              | Some (PStr type) => String.eqb type "weather_result"
              | _ => false
              end); apply Hassessed.
Qed.

(** X22. A response that carries neither [weather_result] nor [answer_box]
    is not treated as a failure: the weather data is then the assessment
    alone, without conditions, and its level is low. *)
Theorem missing_weather_block_reads_as_low_risk (data : pydict) :
  Dict.get "weather_result" data = None ->
  Dict.get "answer_box" data = None ->
  Weather._get_serpapi_weather (Weather.WeatherData data) =
    [("deterministic_risk",
      risk_entry "low" "Good flying conditions with minimal weather impact.")].
Proof.
  intros Hweather Hbox. unfold Weather._get_serpapi_weather.
  now rewrite Hweather, Hbox.
Qed.

Lemma missing_weather_block_reads_as_low_risk_witness :
  Dict.get "conditions"
    (Weather._get_serpapi_weather
       (Weather.WeatherData [("search_metadata", PDict [("status", PStr "Success")])]))
  = None.
Proof.
  rewrite (missing_weather_block_reads_as_low_risk
             [("search_metadata", PDict [("status", PStr "Success")])] eq_refl eq_refl).
  reflexivity.
Defined.

(** X23. The weather text of a [weather_result] block is passed on as
    "conditions" and classified by the keyword tiers: the recorded level
    is the level of [classify_weather] for that text. *)
Theorem reported_weather_is_classified (data raw_weather : pydict) (weather : string) :
  Dict.get "weather_result" data = Some (PDict raw_weather) ->
  Dict.get "weather" raw_weather = Some (PStr weather) ->
  let weather_info := Weather._get_serpapi_weather (Weather.WeatherData data) in
  Dict.get "conditions" weather_info = Some (PStr weather) /\
  (match Dict.get "deterministic_risk" weather_info with
   | Some risk => field "level" risk
   | None => None
   end) = Weather.classify_weather weather /\
  Weather.classify_weather weather
    = Some (PStr (fst (Weather.deterministic_risk (Py.lower weather)))).
Proof.
  intros Hresult Hweather. cbv zeta.
  unfold Weather._get_serpapi_weather. rewrite Hresult, Hweather.
  unfold Weather.classify_weather, Weather.weather_fields,
    Weather._add_deterministic_risk_assessment.
  rewrite Hweather. cbn -[Weather.deterministic_risk Py.lower].
  destruct (Weather.deterministic_risk (Py.lower weather)) as [level description].
  now repeat split.
Qed.

Lemma reported_weather_is_classified_witness :
  Dict.get "conditions"
    (Weather._get_serpapi_weather
       (Weather.WeatherData
          [("weather_result", PDict [("weather", PStr "Light rain"); ("wind", PStr "9 mph")])]))
  = Some (PStr "Light rain").
Proof.
  exact (proj1 (reported_weather_is_classified
                  [("weather_result",
                    PDict [("weather", PStr "Light rain"); ("wind", PStr "9 mph")])]
                  [("weather", PStr "Light rain"); ("wind", PStr "9 mph")]
                  "Light rain" eq_refl eq_refl)).
Defined.

(** ** The weather analysis *)

Lemma generate_content_calls (p : prompt) (w : world) :
  calls (snd (generate_content p w)) = (calls w ++ [p])%list.
Proof. unfold generate_content. now destruct (replies w). Qed.

Section WeatherAnalysis.

Variable json_loads : string -> option pyval.
Variable strptime_month : string -> option Z.
Variable days_until_flight : string -> option Z.

(** X24. The seasonal analysis sends no prompt when the date does not
    parse and exactly one otherwise, naming the season of the month.  Its
    result is always a dict with one of two origins: the fixed fallback, or
    the generated object with [data_source] overwritten by "Seasonal
    weather patterns analysis", whatever the service wrote there. *)
Theorem seasonal_analysis_provenance (airport_code flight_date : string) (w : world) :
  let result :=
    Weather._analyze_seasonal_patterns json_loads strptime_month airport_code flight_date w in
  (fst result = Weather._get_fallback_weather_analysis airport_code "seasonal" \/
   exists generated,
     json_loads (Py.strip (strip_fences (Py.strip
        match hd Failure (replies w) with Text text => text | Failure => "" end)))
       = Some (PDict generated) /\
     fst result =
       PDict (Dict.set "data_source" (PStr "Seasonal weather patterns analysis") generated) /\
     field "data_source" (fst result) = Some (PStr "Seasonal weather patterns analysis") /\
     forall key, key <> "data_source" ->
       field key (fst result) = Dict.get key generated) /\
  calls (snd result) =
    (calls w ++
     match strptime_month flight_date with
     | Some month =>
         [SeasonalWeatherPrompt airport_code (Weather._get_season month) month]
     | None => []
     end)%list.
Proof.
  cbv zeta. unfold Weather._analyze_seasonal_patterns.
  destruct (strptime_month flight_date) as [month|];
    [| split; [now left | simpl; now rewrite app_nil_r]].
  unfold bind, ret, generate_content.
  destruct (replies w) as [|[text|] rest]; simpl; try (split; [now left | reflexivity]).
  destruct (json_loads (Py.strip (strip_fences (Py.strip text))))
    as [[| | | | | |generated]|] eqn:Hloads; simpl;
    try (split; [now left | reflexivity]).
  split; [| reflexivity]. right. exists generated.
  split; [reflexivity |]. split; [reflexivity |].
  split; [apply dict_get_set_eq |].
  intros key Hkey. apply dict_get_set_ne. congruence.
Qed.

(** What the entry point needs to know of the seasonal analysis. *)
Lemma seasonal_patterns_dict (airport_code flight_date : string) (w : world) :
  let result :=
    Weather._analyze_seasonal_patterns json_loads strptime_month airport_code flight_date w in
  exists analysis sent,
    fst result = PDict analysis /\
    calls (snd result) = (calls w ++ sent)%list /\
    (length sent <= 1)%nat /\
    forall a f, ~ In (RealtimeWeatherPrompt a f) sent.
Proof.
  cbv zeta. unfold Weather._analyze_seasonal_patterns.
  destruct (strptime_month flight_date) as [month|].
  - unfold bind, ret.
    pose proof (generate_content_calls
                  (SeasonalWeatherPrompt airport_code (Weather._get_season month) month) w)
      as Hcalls.
    destruct (generate_content _ w) as [response w'] eqn:Hsent. simpl in Hcalls.
    assert (Hnone : forall a f,
              ~ In (RealtimeWeatherPrompt a f)
                  [SeasonalWeatherPrompt airport_code (Weather._get_season month) month])
      by (intros a f [Hin|[]]; discriminate Hin).
    destruct response as [text|];
      [| eexists; eexists; split; [reflexivity |];
         split; [exact Hcalls |]; split; [simpl; lia | exact Hnone]].
    destruct (json_loads (Py.strip (strip_fences (Py.strip text))))
      as [[| | | | | |generated]|];
      (eexists; eexists; split; [reflexivity |];
       split; [exact Hcalls |]; split; [simpl; lia | exact Hnone]).
  - eexists. exists []. split; [reflexivity |].
    split; [simpl; now rewrite app_nil_r |]. split; [simpl; lia |].
    intros a f [].
Qed.

Lemma realtime_weather_calls (airport_code flight_date : string) (w : world) :
  let result :=
    Weather._analyze_realtime_weather json_loads strptime_month airport_code flight_date w in
  exists sent,
    calls (snd result) = (calls w ++ sent)%list /\ (length sent <= 2)%nat.
Proof.
  cbv zeta. unfold Weather._analyze_realtime_weather, bind, ret.
  pose proof (generate_content_calls (RealtimeWeatherPrompt airport_code flight_date) w)
    as Hcalls.
  destruct (generate_content _ w) as [response w'] eqn:Hsent. simpl in Hcalls.
  destruct response as [text|].
  - exists [RealtimeWeatherPrompt airport_code flight_date].
    split; [| simpl; lia].
    now destruct (json_loads (Py.strip (strip_fences (Py.strip text)))).
  - destruct (seasonal_patterns_dict airport_code flight_date w')
      as (analysis & sent & _ & Hseasonal & Hlen & _).
    exists (RealtimeWeatherPrompt airport_code flight_date :: sent).
    split; [| simpl; lia].
    rewrite Hseasonal, Hcalls, <- app_assoc. reflexivity.
Qed.

(** X25. [analyze_weather_conditions] always hands back a dict.  It is the
    fixed "error" fallback, which names no city, or an analysis on which
    the airport code and the city, state, name and country of the static
    airport table have been set.  At most two prompts are sent, none when
    the date does not parse, and a real-time prompt only for a flight
    zero to seven days ahead by an agent that holds a search key. *)
Theorem weather_analysis_shape (self : Weather.WeatherIntelligenceAgent)
    (airport_code flight_date : string) (w : world) :
  let result :=
    Weather.analyze_weather_conditions json_loads strptime_month days_until_flight
      self airport_code flight_date w in
  let airport_info := Weather._get_airport_info airport_code in
  (exists analysis,
     fst result = PDict analysis /\
     ((fst result = Weather._get_fallback_weather_analysis airport_code "error" /\
       Dict.get "city" analysis = None) \/
      (Dict.get "airport_code" analysis = Some (PStr airport_code) /\
       Dict.get "city" analysis = Some (PStr (Weather.city airport_info)) /\
       Dict.get "state" analysis = Some (PStr (Weather.state airport_info)) /\
       Dict.get "airport_name" analysis = Some (PStr (Weather.name airport_info)) /\
       Dict.get "country" analysis = Some (PStr (Weather.country airport_info))))) /\
  (exists sent,
     calls (snd result) = (calls w ++ sent)%list /\
     (length sent <= 2)%nat /\
     (days_until_flight flight_date = None -> sent = []) /\
     (forall a f, In (RealtimeWeatherPrompt a f) sent ->
        exists days key,
          days_until_flight flight_date = Some days /\ 0 <= days <= 7 /\
          Weather._serpapi_key self = Some key /\ key <> "")).
Proof.
  cbv zeta. unfold Weather.analyze_weather_conditions.
  destruct (days_until_flight flight_date) as [days|].
  2:{ split.
      - eexists. split; [reflexivity |]. left. now split.
      - exists []. split; [simpl; now rewrite app_nil_r |].
        split; [simpl; lia |]. split; [reflexivity |]. intros a f []. }
  unfold bind, ret.
  set (route := (0 <=? days) && (days <=? 7) &&
                match Weather._serpapi_key self with
                | Some key => negb (String.eqb key "")
                | None => false
                end).
  assert (Hsent : exists sent,
    calls (snd ((if route
                 then Weather._analyze_realtime_weather json_loads strptime_month
                        airport_code flight_date
                 else Weather._analyze_seasonal_patterns json_loads strptime_month
                        airport_code flight_date) w)) = (calls w ++ sent)%list /\
    (length sent <= 2)%nat /\
    (forall a f, In (RealtimeWeatherPrompt a f) sent -> route = true)).
  { destruct route.
    - destruct (realtime_weather_calls airport_code flight_date w) as (sent & Hcalls & Hlen).
      exists sent. split; [exact Hcalls |]. split; [exact Hlen | reflexivity].
    - destruct (seasonal_patterns_dict airport_code flight_date w)
        as (analysis & sent & _ & Hcalls & Hlen & Hnone).
      exists sent. split; [exact Hcalls |]. split; [lia |].
      intros a f Hin. now apply Hnone in Hin. }
  destruct ((if route
             then Weather._analyze_realtime_weather json_loads strptime_month
                    airport_code flight_date
             else Weather._analyze_seasonal_patterns json_loads strptime_month
                    airport_code flight_date) w) as [analysis w'] eqn:Hrun.
  simpl in Hsent. split.
  - destruct analysis as [| | | | | |analysis];
      try (eexists; split; [reflexivity |]; left; now split).
    eexists. split; [reflexivity |]. right. simpl.
    repeat (rewrite dict_get_set_eq ||
            (rewrite dict_get_set_ne by discriminate)).
    now repeat split.
  - destruct Hsent as (sent & Hcalls & Hlen & Hroute).
    exists sent.
    assert (Hw' : calls (snd (match analysis with
                              | PDict result =>
                                  (PDict
                                     (Dict.set "country"
                                        (PStr (Weather.country
                                                 (Weather._get_airport_info airport_code)))
                                        (Dict.set "airport_name"
                                           (PStr (Weather.name
                                                    (Weather._get_airport_info airport_code)))
                                           (Dict.set "state"
                                              (PStr (Weather.state
                                                       (Weather._get_airport_info
                                                          airport_code)))
                                              (Dict.set "city"
                                                 (PStr (Weather.city
                                                          (Weather._get_airport_info
                                                             airport_code)))
                                                 (Dict.set "airport_code"
                                                    (PStr airport_code) result))))), w')
                              | _ => (Weather._get_fallback_weather_analysis airport_code
                                        "error", w')
                              end)) = calls w').
    { now destruct analysis. }
    split; [now destruct analysis |]. split; [exact Hlen |].
    split; [discriminate |].
    intros a f Hin. apply Hroute in Hin. unfold route in Hin.
    apply andb_true_iff in Hin as [Hwindow Hkey].
    apply andb_true_iff in Hwindow as [Hlow Hhigh].
    destruct (Weather._serpapi_key self) as [key|]; [| discriminate Hkey].
    exists days, key. split; [reflexivity |]. split; [lia |]. split; [reflexivity |].
    intros ->. discriminate Hkey.
Qed.

End WeatherAnalysis.

(** ** The airport table *)

Lemma upper_of_lower_char (c : ascii) :
  Py.upper_char (Py.lower_char c) = Py.upper_char c /\
  Py.upper_char (Py.upper_char c) = Py.upper_char c.
Proof. destruct c as [[|] [|] [|] [|] [|] [|] [|] [|]]; split; reflexivity. Qed.

Lemma upper_of_lower (s : string) :
  Py.upper (Py.lower s) = Py.upper s /\ Py.upper (Py.upper s) = Py.upper s.
Proof.
  unfold Py.upper, Py.lower. induction s as [|c s [IHl IHu]]; [now split |].
  destruct (upper_of_lower_char c) as [Hl Hu]. simpl.
  now rewrite Hl, Hu, IHl, IHu.
Qed.

Lemma airport_mapping_entries (airport_code : string) (airport_info : Weather.airport_info) :
  Dict.get airport_code Weather._airport_mapping = Some airport_info ->
  Weather.country airport_info = "United States" /\
  Weather.city airport_info <> "Unknown City" /\
  String.length airport_code = 3%nat.
Proof.
  unfold Weather._airport_mapping. cbn [Dict.get].
  repeat match goal with
         | |- context [String.eqb airport_code ?code] =>
             destruct (String.eqb_spec airport_code code) as [->|_];
               [intros [= <-]; split; [reflexivity | split; [discriminate | reflexivity]] |]
         end.
  discriminate.
Qed.

(** X26. For a code of ASCII characters the airport lookup ignores the
    case (outside ASCII [str.lower] can produce a letter that [str.upper]
    does not, so the restriction is needed).  Every answer places the airport in the United States; an
    airport outside the table gets the city "Unknown City" and a name made
    of the upper-cased code and " Airport", and no airport of the table
    has that city. *)
Theorem airport_info_ignores_case (airport_code : string) :
  is_ascii airport_code = true ->
  Weather._get_airport_info (Py.lower airport_code) = Weather._get_airport_info airport_code /\
  Weather._get_airport_info (Py.upper airport_code) = Weather._get_airport_info airport_code /\
  Weather.country (Weather._get_airport_info airport_code) = "United States" /\
  (Weather.city (Weather._get_airport_info airport_code) = "Unknown City" <->
   Dict.get (Py.upper airport_code) Weather._airport_mapping = None) /\
  (Dict.get (Py.upper airport_code) Weather._airport_mapping = None ->
   Weather.name (Weather._get_airport_info airport_code)
     = Py.upper airport_code +:+ " Airport").
Proof.
  intros _.
  destruct (upper_of_lower airport_code) as [Hl Hu].
  unfold Weather._get_airport_info. rewrite Hl, Hu.
  split; [reflexivity |]. split; [reflexivity |].
  destruct (Dict.get (Py.upper airport_code) Weather._airport_mapping)
    as [airport_info|] eqn:Hlookup.
  - destruct (airport_mapping_entries _ _ Hlookup) as (Hcountry & Hcity & _).
    split; [exact Hcountry |]. split; [| discriminate].
    split; [intros Hunknown; contradiction | discriminate].
  - split; [reflexivity |]. split; [| reflexivity]. split; reflexivity.
Qed.

Lemma airport_info_ignores_case_witness :
  Weather._get_airport_info (Py.lower "Jfk") = Weather._get_airport_info "Jfk" /\
  Weather.city (Weather._get_airport_info "Jfk") = "New York".
Proof.
  split; [| reflexivity].
  exact (proj1 (airport_info_ignores_case "Jfk" eq_refl)).
Defined.

(** ** Failed search requests *)

Lemma contains_app_r (t before s : string) :
  Py.contains t s = true -> Py.contains t (before +:+ s) = true.
Proof.
  intros H. apply (contains_drop (String.length before)). now rewrite drop_app.
Qed.

(** X27. The rate limit is recognised by looking for "429" anywhere in the
    text of the error, and that text ends with the URL of the request: a
    search that fails with any 4xx or 5xx status is reported as a rate
    limit as soon as its URL contains "429". *)
Theorem error_with_429_in_url_reads_as_rate_limit (status_code : Z) (reason url : string)
    (data : DataAnalyst.serp_data) :
  400 <= status_code < 600 ->
  Py.contains "429" url = true ->
  DataAnalyst._call_serpapi_flights (DataAnalyst.Responded status_code reason url data)
    = Some DataAnalyst.rate_limit_payload.
Proof.
  intros Hstatus Hurl.
  unfold DataAnalyst._call_serpapi_flights, DataAnalyst.raise_for_status,
    DataAnalyst.on_request_exception.
  assert (Hmessage : forall kind,
            Py.contains "429"
              (Py.str_of_int status_code +:+ kind +:+ reason +:+ " for url: " +:+ url)
            = true)
    by (intros kind; do 4 apply contains_app_r; exact Hurl).
  destruct (Z.leb_spec 400 status_code); [| lia].
  destruct (Z.ltb_spec status_code 500); cbn [andb].
  - now rewrite Hmessage.
  - destruct (Z.leb_spec 500 status_code); [| lia].
    destruct (Z.ltb_spec status_code 600); [| lia]. cbn [andb].
    now rewrite Hmessage.
Qed.

Lemma error_with_429_in_url_reads_as_rate_limit_witness :
  DataAnalyst._call_serpapi_flights
    (DataAnalyst.Responded 404 "Not Found"
       "https://serpapi.com/search?api_key=k429&engine=google_flights"
       flights_only_response)
  = Some DataAnalyst.rate_limit_payload.
Proof.
  apply error_with_429_in_url_reads_as_rate_limit; [lia | reflexivity].
Defined.
